(** * newrelic-lambda-extension: telemetry dispatch and harvest engine

    A shallow embedding of the Go sources

    - [telemetryApi] (payload builder, splitter, delivery client, dispatcher:
      [buildPayloads], [marshalAndCompressData], [sendData],
      [detecteErrorSendingBatch], [sendDataToNR]),
    - [telemetry/request.go] ([CompressedPayloadsForLogEvents]),
    - [agentTelemetry] ([AgentTelemetryDispatcher.Dispatch],
      [harvestAgentTelemetry]),

    followed by the properties of the engine that were checked against them.

    Conventions.  A Go [string] is a [string] (a sequence of bytes), a
    [[]byte] is a [list byte], [int]/[int64] are [Z].  A call that can
    return a non-nil [error], panic, or recurse without bound returns an
    [outcome].  Library calls whose code is outside the repository
    ([json.Marshal], [time.Parse], [fmt.Sprint], [uuid.New], the gzip
    compressor, the HTTP transport) are parameters of the model. *)

From Stdlib Require Import List ZArith Lia Bool Arith.
From Stdlib.Strings Require Import String Ascii Byte.
From Stdlib Require Import Permutation PrimFloat DecimalString.
Import ListNotations.

Set Warnings "-register-all,-abstract-large-number".

Local Open Scope string_scope.
Local Open Scope Z_scope.

(** ** Go-level basics *)

(** [[]byte]. *)
Definition bytes : Type := list byte.

(** The message of a Go [error] value ([err.Error()]). *)
Definition error : Type := string.

(** What a call does: return normally, return a non-nil [error], panic,
    block for ever on a synchronisation primitive, or exhaust the recursion
    budget [fuel] given to the model (Go itself has no budget: a call for
    which every budget is exhausted never returns). *)
Inductive outcome (A : Type) : Type :=
| Ok (a : A)
| Err (e : error)
| Panic
| Blocked
| OutOfFuel.

Arguments Ok {A} a.
Arguments Err {A} e.
Arguments Panic {A}.
Arguments Blocked {A}.
Arguments OutOfFuel {A}.

Definition bind {A B : Type} (m : outcome A) (k : A -> outcome B) : outcome B :=
  match m with
  | Ok a => k a
  | Err e => Err e
  | Panic => Panic
  | Blocked => Blocked
  | OutOfFuel => OutOfFuel
  end.

Notation "x <- m ;; k" := (bind m (fun x => k))
  (at level 61, m at next level, right associativity).

(** [strconv]-style decimal rendering of a non-negative count ([%d]). *)
Definition decimal (n : nat) : string := NilEmpty.string_of_uint (Nat.to_uint n).

(** [strings.HasPrefix]. *)
Definition HasPrefix (s p : string) : bool := String.prefix p s.

(** [strings.Contains]. *)
Fixpoint Contains (s sub : string) : bool :=
  String.prefix sub s ||
  match s with
  | EmptyString => false
  | String _ s' => Contains s' sub
  end.

(** [len(s)] of a Go string, in bytes. *)
Definition len (s : string) : Z := Z.of_nat (String.length s).

(** ** Constants of [telemetryApi] and [telemetry] *)

Definition LogEndpointEU : string := "https://log-api.eu.newrelic.com/log/v1".
Definition LogEndpointUS : string := "https://log-api.newrelic.com/log/v1".
Definition MetricsEndpointEU : string := "https://metric-api.eu.newrelic.com/metric/v1".
Definition MetricsEndpointUS : string := "https://metric-api.newrelic.com/metric/v1".
Definition EventsEndpointEU : string := "https://insights-collector.eu01.nr-data.net/v1/accounts/".
Definition EventsEndpointUS : string := "https://insights-collector.newrelic.com/v1/accounts/".
Definition TracesEndpointEU : string := "https://trace-api.eu.newrelic.com/trace/v1".
Definition TracesEndpointUS : string := "https://trace-api.newrelic.com/trace/v1".

Definition maxLogMsgLen : Z := 4094 + 10000. (* maximum blob size *)
Definition maxPayloadSizeBytes : Z := 1000000.
Definition MaxAttributeValueLen : Z := 4094.

(** [telemetry/request.go]. *)
Definition maxCompressedPayloadLen : Z := 1000 * 1024.

Definition getEndpointURL (licenseKey typ EndpointOverride : string) : string :=
  if negb (EndpointOverride =? "")%string then EndpointOverride
  else if (typ =? "logging")%string then
    if HasPrefix licenseKey "eu" then LogEndpointEU else LogEndpointUS
  else if (typ =? "metrics")%string then
    if HasPrefix licenseKey "eu" then MetricsEndpointEU else MetricsEndpointUS
  else if (typ =? "events")%string then
    if HasPrefix licenseKey "eu" then EventsEndpointEU else EventsEndpointUS
  else if (typ =? "traces")%string then
    if HasPrefix licenseKey "eu" then TracesEndpointEU else TracesEndpointUS
  else "".

(** ** Dynamic values ([interface{}])

    The dynamic types the builder distinguishes.  [VMap] is
    [map[string]interface{}]; its entries are listed in the order in which
    one [range] over the map visits them (Go leaves that order unspecified,
    and every statement below holds for all lists).  [VSlice] is
    [[]interface{}].  [VStrMap] is [map[string]string], [VInt] an [int64];
    both occur only in built payloads.  [VOtherMap] stands for a value whose
    reflect kind is [Map] but whose type is not [map[string]interface{}],
    [VOther] for a value of any remaining type. *)
Inductive Value : Type :=
| VNil
| VString (s : string)
| VFloat (f : float)
| VInt (n : Z)
| VMap (m : list (string * Value))
| VSlice (l : list Value)
| VStrMap (m : list (string * string))
| VOtherMap (tag : nat)
| VOther (tag : nat).

(** [map[string]interface{}]. *)
Definition JMap : Type := list (string * Value).

(** [m[key]] with the comma-ok flag as [option]. *)
Fixpoint lookup {V : Type} (key : string) (m : list (string * V)) : option V :=
  match m with
  | [] => None
  | (k, v) :: m' => if (k =? key)%string then Some v else lookup key m'
  end.

(** [m[key] = v]: overwrite the entry of [key] or add one. *)
Fixpoint assign {V : Type} (key : string) (v : V) (m : list (string * V)) : list (string * V) :=
  match m with
  | [] => [(key, v)]
  | (k, w) :: m' => if (k =? key)%string then (k, v) :: m' else (k, w) :: assign key v m'
  end.

(** [reflect.ValueOf(v).Kind() == reflect.Map]. *)
Definition kindIsMap (v : Value) : bool :=
  match v with
  | VMap _ | VStrMap _ | VOtherMap _ => true
  | _ => false
  end.

(** [v != nil] for an interface value. *)
Definition notNil (v : Value) : bool :=
  match v with
  | VNil => false
  | _ => true
  end.

(** ** The world outside the repository *)

(** What the delivery client reads of an [*http.Response]: the numeric
    status, the status line, and what [io.ReadAll(response.Body)] returns. *)
Record Response : Type := {
  StatusCode : Z;
  Status : string;
  Body : error + bytes
}.

(** [telemetry/request.go]: the Vortex request context. *)
Record RequestContext : Type := {
  FunctionName : string;
  InvokedFunctionARN : string;
  LogGroupName : string;
  LogStreamName : string
}.

(** [telemetry/request.go]: the body of the Vortex request. *)
Record RequestData : Type := {
  Context_ : RequestContext;
  Entry : string
}.

(** [telemetry/request.go]: a CloudWatch Logs event. *)
Record LogsEvent : Type := {
  ID : string;
  Message : string;
  Timestamp : Z
}.

(** [telemetry/request.go]: a CloudWatch Logs entry. *)
Record LogsEntry : Type := {
  LogEvents : list LogsEvent;
  LogGroup : string;
  LogStream : string;
  MessageType : string;
  Owner : string
}.

(** The library calls and package constants the sources use but do not
    define.

    - [Buffer], [Len]: [*bytes.Buffer] as the compressor returns it, known
      through its [Len()] only; the type is a parameter of the class.
    - [time_Parse s]: [time.Parse(time.RFC3339, s)], the parsed instant given
      as its [UnixMilli()], the only thing the builder reads of it.
    - [fmt_Sprint], [uuid_New] (the [n]-th identifier drawn by one build),
      [json_Marshal] at the three types it is called on.
    - [http_NewRequest method uri]: the error, if any, of
      [http.NewRequestWithContext].
    - [util_Name], [util_Version], [util_Id], [util_Compress]: package
      [util], which is not among the sources. *)
Class Runtime (Buffer : Type) : Type := {
  Len : Buffer -> Z;
  time_Parse : string -> error + Z;
  fmt_Sprint : Value -> string;
  uuid_New : nat -> string;
  json_Marshal : Value -> error + bytes;
  json_Marshal_LogsEntry : LogsEntry -> error + bytes;
  json_Marshal_RequestData : RequestData -> error + bytes;
  http_NewRequest : string -> string -> option error;
  util_Name : string;
  util_Version : string;
  util_Id : string;
  util_Compress : bytes -> error + Buffer
}.

(** [time.Time{}.UnixMilli()], the zero [time.Time] (January 1, year 1). *)
Definition zeroTimeUnixMilli : Z := -62135596800000.

Section Model.

Context {Buffer : Type} {RT : Runtime Buffer}.

(** An [*http.Request] as [sendData] builds it. *)
Record Request : Type := {
  req_method : string;
  req_uri : string;
  req_headers : list (string * string);
  req_body : Buffer
}.

(** Modelled from the spec: the [Dispatcher] struct declaration is not among
    the sources; these are the fields the functions below read.
    [compressTool] is the [Compress] method of the compressor interface
    (a buffer, or a nil buffer and an error), [httpClient] the [Do] method
    of the HTTP client, which returns a response and an error. *)
Record Dispatcher : Type := {
  functionName : string;
  arn : string;
  licenseKey : string;
  accountID : string;
  compressTool : bytes -> error + Buffer;
  httpClient : Request -> option Response * option error
}.

(** ** Payload splitter *)

(** [bodyBytes, _ := json.Marshal(x)]: the error is dropped, and the bytes
    are nil with it. *)
Definition bytesOrNil (r : error + bytes) : bytes :=
  match r with
  | inr b => b
  | inl _ => []
  end.

Section Splitter.

(** The element type of the collection ([map[string]interface{}] in
    [marshalAndCompressData]) and [json.Marshal] at its slice type: the
    splitter only slices the collection and serialises it. *)
Variable Rec : Type.
Variable marshal : list Rec -> error + bytes.

Definition marshalled (data : list Rec) : bytes := bytesOrNil (marshal data).

(** What [marshalAndCompressData] does to a collection before it looks at
    the compressed length. *)
Definition encodeRecords (d : Dispatcher) (data : list Rec) : error + Buffer :=
  compressTool d (marshalled data).

Fixpoint marshalAndCompressData (fuel : nat) (d : Dispatcher) (data : list Rec)
  (dataType : string) : outcome (list Buffer) :=
  match fuel with
  | O => OutOfFuel
  | S fuel' =>
    let bodyBytes := marshalled data in
    match compressTool d bodyBytes with
    | inl err => Err err
    | inr compressed =>
      if Len compressed >? maxPayloadSizeBytes then
        (* Payload is too large, split in half, recursively *)
        let split := Nat.div (List.length data) 2 in
        leftRet <- marshalAndCompressData fuel' d (firstn split data) dataType ;;
        rightRet <- marshalAndCompressData fuel' d (skipn split data) dataType ;;
        Ok (leftRet ++ rightRet)%list
      else Ok [compressed]
    end
  end.

End Splitter.

(** The serialisation steps of [CompressedPayloadsForLogEvents] up to the
    compressed buffer. *)
Definition compressedLogEntry (logsEvents : list LogsEvent)
  (functionName invokedFunctionARN : string) : error + Buffer :=
  let logGroupName := "/aws/lambda/" ++ functionName in
  let logEntry := {| LogEvents := logsEvents; LogGroup := logGroupName;
                     LogStream := ""; MessageType := ""; Owner := "" |} in
  match json_Marshal_LogsEntry logEntry with
  | inl err => inl err
  | inr entry =>
    let context := {| FunctionName := functionName;
                      InvokedFunctionARN := invokedFunctionARN;
                      LogGroupName := logGroupName;
                      LogStreamName := "newrelic-lambda-extension:1.0.2" |} in
    let data := {| Context_ := context; Entry := string_of_list_byte entry |} in
    match json_Marshal_RequestData data with
    | inl err => inl err
    | inr uncompressed =>
      match util_Compress uncompressed with
      | inl err => inl ("error compressing data: " ++ err)
      | inr compressed => inr compressed
      end
    end
  end.

Definition encodeLogs (functionName invokedFunctionARN : string)
  (logsEvents : list LogsEvent) : error + Buffer :=
  compressedLogEntry logsEvents functionName invokedFunctionARN.

Fixpoint CompressedPayloadsForLogEvents (fuel : nat) (logsEvents : list LogsEvent)
  (functionName invokedFunctionARN : string) : outcome (list Buffer) :=
  match fuel with
  | O => OutOfFuel
  | S fuel' =>
    match compressedLogEntry logsEvents functionName invokedFunctionARN with
    | inl err => Err err
    | inr compressed =>
      if Len compressed <=? maxCompressedPayloadLen then Ok [compressed]
      else
        (* Payload is too large, split in half, recursively *)
        let split := Nat.div (List.length logsEvents) 2 in
        leftRet <- CompressedPayloadsForLogEvents fuel' (firstn split logsEvents)
                     functionName invokedFunctionARN ;;
        rightRet <- CompressedPayloadsForLogEvents fuel' (skipn split logsEvents)
                      functionName invokedFunctionARN ;;
        Ok (leftRet ++ rightRet)%list
    end
  end.

(** *** The bisection both splitters perform

    [encode] is everything a splitter does to a collection before it looks
    at the compressed length; [limit] is its constant. *)
Section Bisect.

Variable Rec : Type.
Variable encode : list Rec -> error + Buffer.
Variable limit : Z.

Fixpoint bisect (fuel : nat) (data : list Rec) : outcome (list Buffer) :=
  match fuel with
  | O => OutOfFuel
  | S fuel' =>
    match encode data with
    | inl err => Err err
    | inr compressed =>
      if Len compressed <=? limit then Ok [compressed]
      else
        let split := Nat.div (List.length data) 2 in
        leftRet <- bisect fuel' (firstn split data) ;;
        rightRet <- bisect fuel' (skipn split data) ;;
        Ok (leftRet ++ rightRet)%list
    end
  end.

(** The collection, serialised and compressed as a whole, is within the
    limit. *)
Definition fits (data : list Rec) : bool :=
  match encode data with
  | inl _ => false
  | inr compressed => Len compressed <=? limit
  end.

(** Decoding the chunks one by one and concatenating the decoded record
    sequences from left to right gives [data]. *)
Definition chunks_cover (decode : Buffer -> option (list Rec))
  (chunks : list Buffer) (data : list Rec) : Prop :=
  exists parts : list (list Rec),
    Forall2 (fun c part => decode c = Some part) chunks parts /\
    List.concat parts = data.

(** Every chunk's compressed size is at most the limit. *)
Definition chunks_within (chunks : list Buffer) : Prop :=
  Forall (fun c => Len c <= limit) chunks.

End Bisect.

(** ** Payload builder *)

(** Modelled from the spec: the [LambdaTelemetryEvent] struct declaration is
    not among the sources; these are the fields [buildPayloads] reads
    ([Time], [Type] and [Record] in Go). *)
Record LambdaTelemetryEvent : Type := {
  ev_Time : string;
  ev_Type : string;
  ev_Record : Value
}.

(** One element of [logEntries []interface{}]: a [LambdaTelemetryEvent], or
    a value of another dynamic type, on which the assertion
    [event.(LambdaTelemetryEvent)] panics. *)
Inductive LogEntry : Type :=
| IsEvent (e : LambdaTelemetryEvent)
| NotEvent (v : Value).

(** [map[string][]map[string]interface{}]. *)
Definition Payloads : Type := list (string * list JMap).

(** [data[key]]; a missing key reads as the nil slice. *)
Definition collection (data : Payloads) (key : string) : list JMap :=
  match lookup key data with
  | Some l => l
  | None => []
  end.

(** [data[key] = append(data[key], el)]. *)
Definition appendTo (key : string) (el : JMap) (data : Payloads) : Payloads :=
  assign key (collection data key ++ [el])%list data.

(** [strings.NewReplacer(".", "_").Replace]. *)
Fixpoint replaceDots (s : string) : string :=
  match s with
  | EmptyString => EmptyString
  | String c s' => String (if (c =? ".")%char then "_"%char else c) (replaceDots s')
  end.

(** [if len(msg) > maxLogMsgLen { msg = msg[:maxLogMsgLen] }]. *)
Definition truncateMsg (msg : string) : string :=
  if len msg >? maxLogMsgLen then substring 0 (Z.to_nat maxLogMsgLen) msg else msg.

(** [val[key]]; a missing key reads as nil. *)
Definition valueAt (key : string) (val : JMap) : Value :=
  match lookup key val with
  | Some v => v
  | None => VNil
  end.

(** [for key := range val { data["metrics"] = append(...) }]; [keys] is
    what is left of the range over [val]. *)
Fixpoint buildMetrics (d : Dispatcher) (typ rid : string) (msInt : Z)
  (val keys : JMap) (data : Payloads) : Payloads :=
  match keys with
  | [] => data
  | (key, _) :: rest =>
    buildMetrics d typ rid msInt val rest
      (appendTo "metrics"
         [ ("name", VString ("aws.telemetry.lambda_ext." ++ key));
           ("value", valueAt key val);
           ("timestamp", VInt msInt);
           ("attributes", VMap
              [ ("plugin", VString util_Id);
                ("faas.arn", VString (arn d));
                ("faas.name", VString (functionName d));
                ("lambda.logevent.type", VString typ);
                ("requestId", VString rid);
                ("extension.name", VString (functionName d));
                ("extension.version", VString util_Version);
                ("lambda.name", VString (functionName d)) ]) ]
         data)
  end.

(** [for key, v := range span.(map[string]interface{}) { ... }]: the
    attributes and the start instant after the fields of one span. *)
Fixpoint spanFields (fields attributes : JMap) (start : Z) : outcome (JMap * Z) :=
  match fields with
  | [] => Ok (attributes, start)
  | (key, v) :: rest =>
    if (key =? "durationMs")%string then
      match v with
      | VFloat f => spanFields rest (assign "duration.ms" (VFloat f) attributes) start
      | _ => Panic
      end
    else if (key =? "start")%string then
      match v with
      | VString s =>
        match time_Parse s with
        | inl err => Err err
        | inr t => spanFields rest attributes t
        end
      | _ => Panic
      end
    else
      match v with
      | VString s => spanFields rest (assign key (VString s) attributes) start
      | _ => Panic
      end
  end.

(** [for _, span := range val { ... }]; [ids] counts the identifiers drawn
    from [uuid.New] so far. *)
Fixpoint buildSpans (typ rid extension_name : string) (val : list Value)
  (data : Payloads) (ids : nat) : outcome (Payloads * nat) :=
  match val with
  | [] => Ok (data, ids)
  | span :: rest =>
    let attributes :=
      assign "service.name" (VString extension_name)
        (assign "event" (VString typ) []) in
    match span with
    | VMap fields =>
      r <- spanFields fields attributes zeroTimeUnixMilli ;;
      let el := [ ("trace.id", VString rid);
                  ("timestamp", VInt (snd r));
                  ("id", VString (uuid_New ids));
                  ("attributes", VMap (fst r)) ] in
      buildSpans typ rid extension_name rest (appendTo "traces" el data) (S ids)
    | _ => Panic
    end
  end.

(** The body of the loop over [logEntries], after the assertion
    [event.(LambdaTelemetryEvent)] and the parse of its [Time]. *)
Definition buildEvent (d : Dispatcher) (RequestID : string)
  (event : LambdaTelemetryEvent) (msInt : Z) (data : Payloads) (ids : nat)
  : outcome (Payloads * nat) :=
  let extension_name := util_Name in
  (* events *)
  let data :=
    appendTo "events"
      [ ("timestamp", VInt msInt);
        ("eventType", VString "TelemetryApiEvent");
        ("extension.name", VString extension_name);
        ("extension.version", VString util_Version);
        ("lambda.name", VString (functionName d));
        ("lambda.logevent.type", VString (replaceDots (ev_Type event))) ]
      data in
  (* logs *)
  if notNil (ev_Record event) then
    let msg := truncateMsg (fmt_Sprint (ev_Record event)) in
    let data :=
      appendTo "logging"
        [ ("timestamp", VInt msInt);
          ("message", VString msg);
          ("attributes", VMap
             [ ("plugin", VString util_Id);
               ("entity", VStrMap [ ("name", functionName d) ]);
               ("faas", VStrMap [ ("arn", arn d); ("name", functionName d) ]);
               ("aws", VStrMap
                  [ ("lambda.logevent.type", ev_Type event);
                    ("extension.name", extension_name);
                    ("extension.version", util_Version);
                    ("lambda.name", functionName d);
                    ("lambda.arn", arn d);
                    ("requestId", RequestID) ]) ]) ]
        data in
    if kindIsMap (ev_Record event) then
      match ev_Record event with
      | VMap eventRecord =>
        (* metrics *)
        let rid :=
          match lookup "requestId" eventRecord with
          | Some (VString v) => v
          | _ => ""
          end in
        let data :=
          match lookup "metrics" eventRecord with
          | Some (VMap val) => buildMetrics d (ev_Type event) rid msInt val val data
          | _ => data
          end in
        (* spans *)
        match lookup "spans" eventRecord with
        | Some (VSlice val) => buildSpans (ev_Type event) rid extension_name val data ids
        | _ => Ok (data, ids)
        end
      | _ => Panic
      end
    else Ok (data, ids)
  else Ok (data, ids).

(** [for _, event := range logEntries { ... }]: the loop terminates on the
    first error. *)
Fixpoint buildLoop (d : Dispatcher) (RequestID : string) (logEntries : list LogEntry)
  (data : Payloads) (ids : nat) : outcome Payloads :=
  match logEntries with
  | [] => Ok data
  | NotEvent _ :: _ => Panic
  | IsEvent event :: rest =>
    match time_Parse (ev_Time event) with
    | inl err => Err err
    | inr msInt =>
      r <- buildEvent d RequestID event msInt data ids ;;
      buildLoop d RequestID rest (fst r) (snd r)
    end
  end.

Definition buildPayloads (logEntries : list LogEntry) (d : Dispatcher)
  (RequestID : string) : outcome Payloads :=
  let data :=
    assign "metrics" []
      (assign "logging" []
         (assign "traces" []
            (assign "events" [] []))) in
  buildLoop d RequestID logEntries data 0%nat.

(** ** Delivery client *)

(** [fmt.Sprint] of a [[]byte]: the decimal values of the bytes, separated
    by spaces, between brackets. *)
Definition sprintBytes (b : bytes) : string :=
  "[" ++ String.concat " " (map (fun x => decimal (N.to_nat (Byte.to_N x))) b) ++ "]".

(** [Ok tt] is the nil error.  The model panics where Go dereferences a nil
    response. *)
Definition detecteErrorSendingBatch (response : option Response) (err : option error)
  : outcome unit :=
  match err with
  | Some e => Err ("[telemetryApi:sendBatch] Telemetry client error: " ++ e)
  | None =>
    match response with
    | None => Panic
    | Some response =>
      if StatusCode response >=? 300 then
        match Body response with
        | inl err => Err err
        | inr bytes =>
          Err ("[telemtryApi:sendBatch] Telemetry client response: ["
               ++ Status response ++ "] " ++ sprintBytes bytes)
        end
      else Ok tt
    end
  end.

(** [sendData]: the requests handed to [httpClient.Do], in order, and the
    returned error. *)
Definition sendData (d : Dispatcher) (uri dataType : string) (body : Buffer)
  : list Request * outcome unit :=
  match http_NewRequest "POST" uri with
  | Some err => ([], Err err)
  | None =>
    (* the headers might be different for different endpoints *)
    let headers := [ ("Content-Type", "application/json");
                     ("Api-Key", licenseKey d);
                     ("Content-Encoding", "GZIP") ] in
    let headers :=
      if Contains uri "trace"
      then (headers ++ [ ("Data-Format", "newrelic"); ("Data-Format-Version", "1") ])%list
      else headers in
    let req := {| req_method := "POST"; req_uri := uri;
                  req_headers := headers; req_body := body |} in
    let res := httpClient d req in
    ([req], detecteErrorSendingBatch (fst res) (snd res))
  end.

(** ** Dispatcher: one harvest cycle *)

(** A goroutine started by [sendDataToNR]: it calls [sendData] on
    [task_uri], [task_type] and [task_body], and when that returns a non-nil
    error [e] it sends [task_report e] on [errChan] ([None] is a nil error
    value); its deferred [waitForSend.Done()] runs when it returns. *)
Record Task : Type := {
  task_type : string;
  task_uri : string;
  task_body : Buffer;
  task_report : error -> option error
}.

(** What [sendDataToNR] has done so far: the sum of the [waitForSend.Add]
    calls, the goroutines started (in start order), the lines logged at
    warning level. *)
Record Flight : Type := {
  wg : Z;
  launched : list Task;
  warnings : list string
}.

Definition takeoff : Flight := {| wg := 0; launched := []; warnings := [] |}.

(** [waitForSend.Add(n)]. *)
Definition wgAdd (n : Z) (fl : Flight) : Flight :=
  {| wg := wg fl + n; launched := launched fl; warnings := warnings fl |}.

(** [go func() { ... }()]. *)
Definition go (t : Task) (fl : Flight) : Flight :=
  {| wg := wg fl; launched := (launched fl ++ [t])%list; warnings := warnings fl |}.

(** [l.Warn(msg)]. *)
Definition warn (msg : string) (fl : Flight) : Flight :=
  {| wg := wg fl; launched := launched fl; warnings := (warnings fl ++ [msg])%list |}.

(** [json.Marshal] of a [[]map[string]interface{}]. *)
Definition marshalRecords (data : list JMap) : error + bytes :=
  json_Marshal (VSlice (map VMap data)).

Definition logTask (d : Dispatcher) (logPayload : Buffer) : Task :=
  {| task_type := "logging";
     task_uri := getEndpointURL (licenseKey d) "logging" "";
     task_body := logPayload;
     task_report := fun err => Some err |}.

Definition metricsTask (d : Dispatcher) (metricsPayload : Buffer) : Task :=
  {| task_type := "metrics";
     task_uri := getEndpointURL (licenseKey d) "metrics" "";
     task_body := metricsPayload;
     task_report := fun err => Some err |}.

Definition eventTask (d : Dispatcher) (eventPayload : Buffer) : Task :=
  {| task_type := "events";
     task_uri := getEndpointURL (licenseKey d) "events" "" ++ accountID d ++ "/events";
     task_body := eventPayload;
     task_report := fun err => Some err |}.

(** The traces goroutine sends on [errChan] the variable [err] of the
    enclosing block, the error of the compression, not the [er] that
    [sendData] returned. *)
Definition tracesTask (d : Dispatcher) (tracePayload : Buffer) (err : option error) : Task :=
  {| task_type := "traces";
     task_uri := getEndpointURL (licenseKey d) "traces" "";
     task_body := tracePayload;
     task_report := fun _ => err |}.

(** [for _, logPayload := range logPayloads {
       waitForSend.Add(len(logPayloads)); go func(...) {...}(logPayload) }];
    [rest] is what is left of the range. *)
Fixpoint launchLogs (d : Dispatcher) (logPayloads rest : list Buffer) (fl : Flight) : Flight :=
  match rest with
  | [] => fl
  | logPayload :: rest' =>
    launchLogs d logPayloads rest'
      (go (logTask d logPayload) (wgAdd (Z.of_nat (List.length logPayloads)) fl))
  end.

(** [for _, eventPayload := range eventPayloads { go func(...) {...}(eventPayload) }]. *)
Fixpoint launchEvents (d : Dispatcher) (eventPayloads : list Buffer) (fl : Flight) : Flight :=
  match eventPayloads with
  | [] => fl
  | eventPayload :: rest => launchEvents d rest (go (eventTask d eventPayload) fl)
  end.

(** A step of the cycle: the flight after it, and [Ok tt] when the function
    goes on to the next step. *)
Definition step : Type := Flight * outcome unit.

Definition andThen (r : step) (k : Flight -> step) : step :=
  match snd r with
  | Ok _ => k (fst r)
  | _ => r
  end.

(** The function stops where a call it made stopped: it returns the
    call's error, or does not return as the call did not. *)
Definition stopWith {A : Type} (fl : Flight) (r : outcome A) : step :=
  (fl,
   match r with
   | Ok _ => Ok tt
   | Err e => Err e
   | Panic => Panic
   | Blocked => Blocked
   | OutOfFuel => OutOfFuel
   end).

(** send logs *)
Definition sendLogs (fuel : nat) (d : Dispatcher) (data : Payloads) (fl : Flight) : step :=
  if (0 <? List.length (collection data "logging"))%nat then
    match marshalAndCompressData JMap marshalRecords fuel d (collection data "logging") "logging" with
    | Ok logPayloads => (launchLogs d logPayloads logPayloads fl, Ok tt)
    | r => stopWith fl r
    end
  else (fl, Ok tt).

(** send metrics *)
Definition sendMetrics (d : Dispatcher) (data : Payloads) (fl : Flight) : step :=
  if (0 <? List.length (collection data "metrics"))%nat then
    let fl := wgAdd 1 fl in
    let dataMet :=
      VSlice [ VMap [ ("metrics", VSlice (map VMap (collection data "metrics"))) ] ] in
    let bodyBytes := bytesOrNil (json_Marshal dataMet) in
    match compressTool d bodyBytes with
    | inl err => (fl, Err err)
    | inr metricsPayload => (go (metricsTask d metricsPayload) fl, Ok tt)
    end
  else (fl, Ok tt).

(** send events *)
Definition sendEvents (fuel : nat) (d : Dispatcher) (data : Payloads) (fl : Flight) : step :=
  if (0 <? List.length (collection data "events"))%nat then
    if 0 <? len (accountID d) then
      match marshalAndCompressData JMap marshalRecords fuel d (collection data "events") "logging" with
      | Ok eventPayloads =>
        (launchEvents d eventPayloads (wgAdd (Z.of_nat (List.length eventPayloads)) fl), Ok tt)
      | r => stopWith fl r
      end
    else
      (warn "[telemetryApi:sendDataToNR] NEW_RELIC_ACCOUNT_ID is not set, therefore no events data sent" fl,
       Ok tt)
  else (fl, Ok tt).

(** send traces.  The error of the compression is not looked at before the
    goroutine starts; with an error the payload is the nil buffer, on which
    the request constructor of [sendData] panics. *)
Definition sendTraces (d : Dispatcher) (data : Payloads) (fl : Flight) : step :=
  if (0 <? List.length (collection data "traces"))%nat then
    let fl := wgAdd 1 fl in
    let dataTraces :=
      VSlice [ VMap [ ("common", VMap [ ("attributes",
                          VStrMap [ ("host", "aws.amazon.com");
                                    ("service.name", functionName d) ]) ]);
                      ("spans", VSlice (map VMap (collection data "traces"))) ] ] in
    let bodyBytes := bytesOrNil (json_Marshal dataTraces) in
    match compressTool d bodyBytes with
    | inl err => (fl, Panic)
    | inr tracePayload => (go (tracesTask d tracePayload None) fl, Ok tt)
    end
  else (fl, Ok tt).

(** What one goroutine leaves on [errChan]: nothing, or one (possibly nil)
    error value. *)
Definition runTask (d : Dispatcher) (t : Task) : outcome (list (option error)) :=
  match snd (sendData d (task_uri t) (task_type t) (task_body t)) with
  | Ok _ => Ok []
  | Err e => Ok [task_report t e]
  | Panic => Panic
  | Blocked => Blocked
  | OutOfFuel => OutOfFuel
  end.

(** The sends of the goroutines, taken in the given order. *)
Fixpoint runTasks (d : Dispatcher) (tasks : list Task) : outcome (list (option error)) :=
  match tasks with
  | [] => Ok []
  | t :: rest =>
    sent <- runTask d t ;;
    others <- runTasks d rest ;;
    Ok (sent ++ others)%list
  end.

(** The HTTP requests of the goroutines started in a flight. *)
Definition deliveries (d : Dispatcher) (fl : Flight) : list Request :=
  flat_map (fun t => fst (sendData d (task_uri t) (task_type t) (task_body t))) (launched fl).

(** The capacity of [errChan := make(chan error, 4)]. *)
Definition errChanCap : nat := 4.

(** [waitForSend.Wait()], and the content of [errChan] when it returns.
    [completion] is the order in which the scheduler lets the goroutines
    reach their send.  The counter comes back to zero only when as many
    goroutines ran [Done] as were added; a goroutine that finds the channel
    full never reaches its [Done]. *)
Definition await (completion : list Task -> list Task) (d : Dispatcher) (fl : Flight)
  : outcome (list (option error)) :=
  sent <- runTasks d (completion (launched fl)) ;;
  if wg fl <? Z.of_nat (List.length (launched fl)) then Panic
  else if Z.of_nat (List.length (launched fl)) <? wg fl then Blocked
  else if (errChanCap <? List.length sent)%nat then Blocked
  else Ok sent.

(** [errors.Wrap(err, message)] of [github.com/pkg/errors]. *)
Definition errors_Wrap (err : error) (message : string) : error :=
  message ++ ": " ++ err.

(** [for i := 0; i < len(errChan); i++ {
       sendError := <-errChan; errors.Wrap(err, sendError.Error()) }]:
    the value of [errors.Wrap] is dropped; calling [Error] on a nil error
    panics. *)
Fixpoint drain (err : error) (i : nat) (errChan : list (option error)) : outcome unit :=
  match errChan with
  | [] => Ok tt
  | sendError :: rest =>
    if (i <? List.length errChan)%nat then
      match sendError with
      | None => Panic
      | Some e => let _ := errors_Wrap err e in drain err (S i) rest
      end
    else Ok tt
  end.

(** The message of the aggregate error for [n] collected errors. *)
Definition aggregateError (n : nat) : error :=
  decimal n ++ " errors occured while sending telemetry API payloads to New Relic".

(** The end of [sendDataToNR], from [waitForSend.Wait()] on. *)
Definition collect (completion : list Task -> list Task) (d : Dispatcher) (fl : Flight)
  : outcome unit :=
  errChan <- await completion d fl ;;
  if (0 <? List.length errChan)%nat then
    let err := aggregateError (List.length errChan) in
    _ <- drain err 0 errChan ;;
    Err err
  else Ok tt.

(** The delivery of a goroutine fails: its [sendData] returns an error. *)
Definition failed (d : Dispatcher) (t : Task) : bool :=
  match snd (sendData d (task_uri t) (task_type t) (task_body t)) with
  | Err _ => true
  | _ => false
  end.

(** The number of failed deliveries among the goroutines. *)
Definition failures (d : Dispatcher) (tasks : list Task) : nat :=
  List.length (filter (failed d) tasks).

(** No goroutine of the flight delivers events. *)
Definition noEventTask (fl : Flight) : Prop :=
  Forall (fun t => task_type t <> "events") (launched fl).

(** [sendDataToNR]: what was started and logged, and how the call ends.
    When it returns early the goroutines already started go on without it. *)
Definition sendDataToNR (fuel : nat) (completion : list Task -> list Task)
  (logEntries : list LogEntry) (d : Dispatcher) (RequestID : string) : step :=
  match buildPayloads logEntries d RequestID with
  | Ok data =>
    if (0 <? List.length data)%nat then
      andThen (sendLogs fuel d data takeoff) (fun fl =>
      andThen (sendMetrics d data fl) (fun fl =>
      andThen (sendEvents fuel d data fl) (fun fl =>
      andThen (sendTraces d data fl) (fun fl =>
      (fl, collect completion d fl)))))
    else (takeoff, Ok tt)
  | r => stopWith takeoff r
  end.

End Model.

(** ** Agent telemetry dispatcher ([agentTelemetry]) *)

Module agentTelemetry.

(** [extensionApi.NextEventResponse], as far as [Dispatch] reads it. *)
Record NextEventResponse : Type := {
  RequestID : string;
  InvokedFunctionArn : string
}.

(** Modelled from the spec: the [Invocation] struct is not among the
    sources.  The telemetry window of one request: its identifier, its start
    time, the raw telemetry accumulated for it, in order. *)
Record Invocation : Type := {
  inv_RequestId : string;
  inv_Start : Z;
  Telemetry : list bytes
}.

(** Modelled from the spec: the [Batch] type and its methods are not among
    the sources.  A mapping from request identifier to invocation (kept in
    insertion order), the time of the last harvest, and the two configured
    thresholds. *)
Record Batch : Type := {
  invocations : list (string * Invocation);
  lastHarvest : Z;
  sizeThreshold : Z;
  timeThreshold : Z
}.

Definition withInvocations (b : Batch) (invs : list (string * Invocation)) : Batch :=
  {| invocations := invs; lastHarvest := lastHarvest b;
     sizeThreshold := sizeThreshold b; timeThreshold := timeThreshold b |}.

(** Modelled from the spec: [AddInvocation] registers a new invocation if
    absent, and is idempotent per request identifier. *)
Definition AddInvocation (requestID : string) (startTime : Z) (b : Batch) : Batch :=
  match lookup requestID (invocations b) with
  | Some _ => b
  | None =>
    withInvocations b
      (invocations b ++ [ (requestID, {| inv_RequestId := requestID;
                                         inv_Start := startTime;
                                         Telemetry := [] |}) ])%list
  end.

(** Modelled from the spec: [AddTelemetry] appends raw telemetry to the
    named invocation, and creates a placeholder invocation for an unknown
    one rather than drop the data. *)
Definition AddTelemetry (now : Z) (requestID : string) (telemetry : bytes) (b : Batch) : Batch :=
  match lookup requestID (invocations b) with
  | Some inv =>
    withInvocations b
      (assign requestID {| inv_RequestId := inv_RequestId inv;
                           inv_Start := inv_Start inv;
                           Telemetry := (Telemetry inv ++ [telemetry])%list |}
         (invocations b))
  | None =>
    withInvocations b
      (invocations b ++ [ (requestID, {| inv_RequestId := requestID;
                                         inv_Start := now;
                                         Telemetry := [telemetry] |}) ])%list
  end.

(** The total of the accumulated telemetry bytes. *)
Definition accumulatedBytes (b : Batch) : Z :=
  fold_right
    (fun kv acc =>
       fold_right (fun t a => Z.of_nat (List.length t) + a) acc (Telemetry (snd kv)))
    0 (invocations b).

(** Modelled from the spec: [ReadyToHarvest] is true if the accumulated
    size exceeds the byte threshold or the time since the last harvest
    exceeds the duration threshold. *)
Definition ReadyToHarvest (now : Z) (b : Batch) : bool :=
  (sizeThreshold b <? accumulatedBytes b) || (timeThreshold b <? now - lastHarvest b).

(** Modelled from the spec: [Harvest(force)] returns and clears everything
    if [force] is true or [ReadyToHarvest()] holds; otherwise it returns the
    empty sequence and changes nothing. *)
Definition Harvest (now : Z) (force : bool) (b : Batch) : list Invocation * Batch :=
  if force || ReadyToHarvest now b then
    (map snd (invocations b),
     {| invocations := []; lastHarvest := now;
        sizeThreshold := sizeThreshold b; timeThreshold := timeThreshold b |})
  else ([], b).

(** Modelled from the spec: the telemetry [Client] is not among the
    sources; it is known here by the calls of [SendTelemetry] it received,
    each with the function ARN and the telemetry slice. *)
Definition Client : Type := list (string * list bytes).

Record AgentTelemetryDispatcher : Type := {
  collectData : bool;
  telemetryChan : list bytes;
  batch : Batch;
  telemetryClient : Client
}.

(** harvests and sends agent telemetry to New Relic *)
Definition harvestAgentTelemetry (harvested : list Invocation) (telemetryClient : Client)
  (functionARN : string) : Client :=
  if (0 <? List.length harvested)%nat then
    let telemetrySlice := flat_map Telemetry harvested in
    (telemetryClient ++ [ (functionARN, telemetrySlice) ])%list
  else telemetryClient.

(** Harvest and Send agent Data to New Relic: the second half of [Dispatch]. *)
Definition harvestAndSend (now : Z) (disp : AgentTelemetryDispatcher)
  (res : NextEventResponse) (force : bool) : AgentTelemetryDispatcher :=
  if force then
    let h := Harvest now force (batch disp) in
    {| collectData := collectData disp; telemetryChan := telemetryChan disp;
       batch := snd h;
       telemetryClient :=
         harvestAgentTelemetry (fst h) (telemetryClient disp) (InvokedFunctionArn res) |}
  else if ReadyToHarvest now (batch disp) then
    let harvestData := Harvest now false (batch disp) in
    {| collectData := collectData disp; telemetryChan := telemetryChan disp;
       batch := snd harvestData;
       telemetryClient :=
         harvestAgentTelemetry (fst harvestData) (telemetryClient disp) (InvokedFunctionArn res) |}
  else disp.

(** [Dispatch] collects agent data and attempts to send it if appropriate.
    "If force = true, collect and send data no matter what."  The head of
    [telemetryChan] is the chunk the [select] would receive; the call is made
    at time [now]. *)
Definition Dispatch (now : Z) (disp : AgentTelemetryDispatcher) (res : NextEventResponse)
  (force : bool) : AgentTelemetryDispatcher :=
  (* Fetch and Batch latest agent telemetry if possible *)
  match telemetryChan disp with
  | telemetryBytes :: pending =>
    let disp := {| collectData := collectData disp; telemetryChan := pending;
                   batch := batch disp; telemetryClient := telemetryClient disp |} in
    (* empty channel to avoid deadlocks but drop data *)
    if negb (collectData disp) then disp
    else
      harvestAndSend now
        {| collectData := collectData disp; telemetryChan := telemetryChan disp;
           batch := AddTelemetry now (RequestID res) telemetryBytes (batch disp);
           telemetryClient := telemetryClient disp |}
        res force
  | [] => harvestAndSend now disp res force
  end.

End agentTelemetry.

(** ** Predicates on the builder's input *)

Section BuilderInput.

Context {Buffer : Type} {RT : Runtime Buffer}.

Definition isOk {A : Type} (r : outcome A) : bool :=
  match r with
  | Ok _ => true
  | _ => false
  end.

Definition isErr {A B : Type} (r : A + B) : bool :=
  match r with
  | inl _ => true
  | inr _ => false
  end.

(** The spans the builder visits in a record body: the elements of the
    [[]interface{}] under the key ["spans"] of a body that is a
    [map[string]interface{}]. *)
Definition spansOf (record : Value) : list Value :=
  match record with
  | VMap eventRecord =>
    match lookup "spans" eventRecord with
    | Some (VSlice val) => val
    | _ => []
    end
  | _ => []
  end.

(** A field of a span passes the builder's type assertions: the value of
    ["durationMs"] is a [float64], the value of ["start"] and of every
    remaining key is a [string]. *)
Definition fieldTyped (kv : string * Value) : bool :=
  if (fst kv =? "durationMs")%string then
    match snd kv with
    | VFloat _ => true
    | _ => false
    end
  else
    match snd kv with
    | VString _ => true
    | _ => false
    end.

(** An element of the spans list is an object whose fields are typed. *)
Definition spanTyped (span : Value) : bool :=
  match span with
  | VMap fields => forallb fieldTyped fields
  | _ => false
  end.

(** A body of map kind is a [map[string]interface{}], and its spans are
    typed. *)
Definition recordTyped (record : Value) : bool :=
  match record with
  | VStrMap _ | VOtherMap _ => false
  | _ => forallb spanTyped (spansOf record)
  end.

Definition entryTyped (e : LogEntry) : bool :=
  match e with
  | IsEvent event => recordTyped (ev_Record event)
  | NotEvent _ => false
  end.

(** Every entry passes every type assertion of [buildPayloads]. *)
Definition wellTyped (logEntries : list LogEntry) : bool := forallb entryTyped logEntries.

(** The precondition in the words of the specification: every entry is a
    [LambdaTelemetryEvent], and in every span object ["durationMs"] is a
    float, ["start"] a string and every remaining field a string.  It says
    nothing of a span that is not an object, nor of a body of map kind that
    is not a [map[string]interface{}]. *)
Definition statedTyped (logEntries : list LogEntry) : bool :=
  forallb
    (fun e =>
       match e with
       | IsEvent event =>
         forallb
           (fun span =>
              match span with
              | VMap fields => forallb fieldTyped fields
              | _ => true
              end)
           (spansOf (ev_Record event))
       | NotEvent _ => false
       end)
    logEntries.

(** A span has a ["start"] string that does not parse as RFC 3339. *)
Definition badStart (fields : JMap) : bool :=
  existsb
    (fun kv =>
       (fst kv =? "start")%string &&
       match snd kv with
       | VString s => isErr (time_Parse s)
       | _ => false
       end)
    fields.

Definition badSpan (span : Value) : bool :=
  match span with
  | VMap fields => badStart fields
  | _ => false
  end.

(** The primary timestamp of the entry, or the start of one of its spans,
    does not parse. *)
Definition badTime (e : LogEntry) : bool :=
  match e with
  | IsEvent event =>
    isErr (time_Parse (ev_Time event)) || existsb badSpan (spansOf (ev_Record event))
  | NotEvent _ => false
  end.

Definition anyBadTime (logEntries : list LogEntry) : bool := existsb badTime logEntries.

(** What the builder can do at all: return, return the error of a
    timestamp that did not parse, or panic. *)
Definition builderOutcome {A : Type} (r : outcome A) : Prop :=
  match r with
  | Ok _ => True
  | Err e => exists s, time_Parse s = inl e
  | Panic => True
  | _ => False
  end.

(** What is shown of each loop of the builder: its outcome is a builder's
    outcome; on typed input it does not panic; on untyped input, or with a
    timestamp that does not parse, it does not return a value. *)
Definition loopSpec {A : Type} (typed bad : bool) (r : outcome A) : Prop :=
  builderOutcome r /\
  (typed = true -> r <> Panic) /\
  (typed = false -> isOk r = false) /\
  (bad = true -> isOk r = false).

(** *** The first timestamp that fails to parse

    The builder visits the entries in order; in an entry, first its [Time],
    then the spans of its body in order; in a span, its fields in order. *)

(** Fields that pass the type assertions and hold no ["start"] that fails
    to parse. *)
Definition cleanFields (fields : JMap) : Prop :=
  forallb fieldTyped fields = true /\ badStart fields = false.

(** Spans that are objects of such fields. *)
Definition cleanSpans (spans : list Value) : Prop :=
  forallb spanTyped spans = true /\ existsb badSpan spans = false.

(** Entries that pass every type assertion and hold no timestamp that
    fails to parse. *)
Definition clean (logEntries : list LogEntry) : Prop :=
  wellTyped logEntries = true /\ anyBadTime logEntries = false.

(** The [Time] of the entry fails to parse, with the error [err]. *)
Definition failsAtTime (e : LogEntry) (err : error) : Prop :=
  exists event, e = IsEvent event /\ time_Parse (ev_Time event) = inl err.

(** The [Time] of the entry parses, its body is a
    [map[string]interface{}] with a list of spans, and the first thing that
    is not clean in that list is a ["start"] string that fails to parse,
    with the error [err]. *)
Definition failsAtStart (e : LogEntry) (err : error) : Prop :=
  exists event eventRecord goodSpans goodFields s restFields restSpans,
    e = IsEvent event /\
    isErr (time_Parse (ev_Time event)) = false /\
    ev_Record event = VMap eventRecord /\
    lookup "spans" eventRecord
    = Some (VSlice (goodSpans
                    ++ VMap (goodFields ++ ("start", VString s) :: restFields)
                    :: restSpans)%list) /\
    cleanSpans goodSpans /\
    cleanFields goodFields /\
    time_Parse s = inl err.

(** The first thing the builder meets that is not clean is a timestamp
    that fails to parse, with the error [err]: everything visited before it
    passes the type assertions. *)
Definition firstFailure (logEntries : list LogEntry) (err : error) : Prop :=
  exists good e rest,
    logEntries = (good ++ e :: rest)%list /\
    clean good /\
    (failsAtTime e err \/ failsAtStart e err).

End BuilderInput.

(** ** The end-to-end example of the specification

    One raw record with timestamp [2024-01-01T00:00:00Z] and body
    [{"metrics":{"duration":120.5},
      "spans":[{"start":"2024-01-01T00:00:00Z","durationMs":5,"name":"seg1"}]}],
    as [encoding/json] decodes it into an [interface{}]: numbers are
    [float64].  [fields] is the span object in the order one [range] visits
    it. *)

Definition exampleFields : JMap :=
  [ ("start", VString "2024-01-01T00:00:00Z");
    ("durationMs", VFloat 5%float);
    ("name", VString "seg1") ].

Definition exampleBody (fields : JMap) : Value :=
  VMap [ ("metrics", VMap [ ("duration", VFloat 120.5%float) ]);
         ("spans", VSlice [ VMap fields ]) ].

Definition exampleRecord (typ : string) (fields : JMap) : LogEntry :=
  IsEvent {| ev_Time := "2024-01-01T00:00:00Z"; ev_Type := typ;
             ev_Record := exampleBody fields |}.

(** ** A sample world

    One concrete choice for everything the model leaves open, used to run
    the model on concrete inputs.  None of the general statements below
    depends on it. *)

Module Sample.

(** A buffer with explicit padding: [padding] counts bytes that carry no
    payload. *)
Record PaddedBuffer : Type := {
  payload : bytes;
  padding : Z
}.

Definition paddedLen (b : PaddedBuffer) : Z :=
  Z.of_nat (List.length (payload b)) + padding b.

(** A "compressor" that inflates: it keeps the input and pads it with
    [factor] bytes per input byte. *)
Definition inflate (factor : Z) (b : bytes) : error + PaddedBuffer :=
  inr {| payload := b; padding := factor * Z.of_nat (List.length b) |}.


(** *** The UTC, whole-second fragment of RFC 3339 *)

Definition digit (c : ascii) : option Z :=
  let n := Z.of_nat (nat_of_ascii c) in
  if (48 <=? n) && (n <=? 57) then Some (n - 48) else None.

Fixpoint number (acc : Z) (s : string) : option Z :=
  match s with
  | EmptyString => Some acc
  | String c s' =>
    match digit c with
    | Some k => number (10 * acc + k) s'
    | None => None
    end
  end.

(** Days from 1970-01-01 to the given civil date (proleptic Gregorian). *)
Definition daysFromCivil (y m d : Z) : Z :=
  let y := if m <=? 2 then y - 1 else y in
  let era := y / 400 in
  let yoe := y - era * 400 in
  let doy := (153 * (if 2 <? m then m - 3 else m + 9) + 2) / 5 + d - 1 in
  let doe := yoe * 365 + yoe / 4 - yoe / 100 + doy in
  era * 146097 + doe - 719468.

(** [YYYY-MM-DDTHH:MM:SSZ] to Unix milliseconds. *)
Definition parseUTC (s : string) : error + Z :=
  let bad := inl ("parsing time " ++ s ++ " as RFC3339") in
  if negb ((String.length s =? 20)%nat
           && (substring 4 1 s =? "-")%string && (substring 7 1 s =? "-")%string
           && (substring 10 1 s =? "T")%string && (substring 13 1 s =? ":")%string
           && (substring 16 1 s =? ":")%string && (substring 19 1 s =? "Z")%string)
  then bad
  else
    match number 0 (substring 0 4 s), number 0 (substring 5 2 s),
          number 0 (substring 8 2 s), number 0 (substring 11 2 s),
          number 0 (substring 14 2 s), number 0 (substring 17 2 s) with
    | Some y, Some m, Some d, Some hh, Some mm, Some ss =>
      if (1 <=? m) && (m <=? 12) && (1 <=? d) && (d <=? 31)
         && (hh <=? 23) && (mm <=? 59) && (ss <=? 59)
      then inr ((((daysFromCivil y m d * 24 + hh) * 60 + mm) * 60 + ss) * 1000)
      else bad
    | _, _, _, _, _, _ => bad
    end.

(** *** A serialisation of log events

    Numbers in unary, strings and lists with their length in front: enough
    to read back what was written. *)

Definition encNat (n : nat) : bytes := (repeat x01 n ++ [x00])%list.

Fixpoint decNat (b : bytes) : option (nat * bytes) :=
  match b with
  | x00 :: r => Some (O, r)
  | x01 :: r =>
    match decNat r with
    | Some (n, r') => Some (S n, r')
    | None => None
    end
  | _ => None
  end.

Definition encString (s : string) : bytes :=
  let b := list_byte_of_string s in
  (encNat (List.length b) ++ b)%list.

Definition decString (b : bytes) : option (string * bytes) :=
  match decNat b with
  | Some (n, r) => Some (string_of_list_byte (firstn n r), skipn n r)
  | None => None
  end.

Definition encZ (z : Z) : bytes :=
  (if z <? 0 then x01 else x00) :: encNat (Z.abs_nat z).

Definition decZ (b : bytes) : option (Z * bytes) :=
  match b with
  | sign :: r =>
    match decNat r with
    | Some (n, r') =>
      Some (if Byte.eqb sign x01 then - Z.of_nat n else Z.of_nat n, r')
    | None => None
    end
  | [] => None
  end.

Definition encEvent (e : LogsEvent) : bytes :=
  (encString (ID e) ++ encString (Message e) ++ encZ (Timestamp e))%list.

Definition decEvent (b : bytes) : option (LogsEvent * bytes) :=
  match decString b with
  | Some (id, r1) =>
    match decString r1 with
    | Some (msg, r2) =>
      match decZ r2 with
      | Some (ts, r3) => Some ({| ID := id; Message := msg; Timestamp := ts |}, r3)
      | None => None
      end
    | None => None
    end
  | None => None
  end.

Fixpoint decEvents (n : nat) (b : bytes) : option (list LogsEvent) :=
  match n with
  | O => Some []
  | S n' =>
    match decEvent b with
    | Some (e, r) =>
      match decEvents n' r with
      | Some l => Some (e :: l)
      | None => None
      end
    | None => None
    end
  end.

Definition encEvents (l : list LogsEvent) : bytes :=
  (encNat (List.length l) ++ flat_map encEvent l)%list.

(** The events of a buffer produced from [encEvents]. *)
Definition decodeLogs (c : PaddedBuffer) : option (list LogsEvent) :=
  match decNat (payload c) with
  | Some (n, r) => decEvents n r
  | None => None
  end.

(** A stand-in for [json.Marshal] on dynamic values that keeps only the
    number of elements of a slice: one byte per element. *)
Definition countingMarshal (v : Value) : error + bytes :=
  match v with
  | VSlice l => inr (map (fun _ => x2c) l)
  | _ => inr [x00]
  end.

(** [url.Parse] rejects a URL that holds an ASCII control character. *)
Definition hasControl (s : string) : bool :=
  existsb (fun c => (nat_of_ascii c <? 32)%nat || (nat_of_ascii c =? 127)%nat)
    (list_ascii_of_string s).

Definition newRequest (method uri : string) : option error :=
  if hasControl uri
  then Some ("parse " ++ uri ++ ": net/url: invalid control character in URL")
  else None.

Definition world : Runtime PaddedBuffer := {|
  Len := paddedLen;
  time_Parse := parseUTC;
  fmt_Sprint := fun _ => "map[]";
  uuid_New := fun n => "span-" ++ decimal n;
  json_Marshal := countingMarshal;
  json_Marshal_LogsEntry := fun e => inr (encEvents (LogEvents e));
  json_Marshal_RequestData := fun d => inr (list_byte_of_string (Entry d));
  http_NewRequest := newRequest;
  util_Name := "newrelic-lambda-extension";
  util_Version := "2.3.0";
  util_Id := "newrelic-lambda-extension";
  util_Compress := inflate 60000
|}.

(** Records of one byte each, serialised as themselves. *)
Definition byteRecords (l : list byte) : error + bytes := inr l.

Definition decodeBytes (c : PaddedBuffer) : option (list byte) := Some (payload c).

Definition accepted : Response :=
  {| StatusCode := 202; Status := "202 Accepted"; Body := inr [] |}.

(** A dispatcher of the sample world, with the given account identifier,
    compressor and HTTP client. *)
Definition dispatcher (account : string) (compress : bytes -> error + PaddedBuffer)
  (client : @Request PaddedBuffer -> option Response * option error) : @Dispatcher PaddedBuffer :=
  @Build_Dispatcher PaddedBuffer
    "checkout"
    "arn:aws:lambda:us-east-1:123456789012:function:checkout"
    "0123456789abcdef0123456789abcdef01234567"
    account compress client.

(** A client whose every request is accepted. *)
Definition accepting (req : @Request PaddedBuffer) : option Response * option error :=
  (Some accepted, None).

(** An entry whose only span is not an object. *)
Definition stringSpan : LogEntry :=
  IsEvent {| ev_Time := "2024-01-01T00:00:00Z"; ev_Type := "platform.report";
             ev_Record := VMap [ ("spans", VSlice [ VString "seg1" ]) ] |}.

(** An entry whose timestamp is not RFC 3339. *)
Definition undated : LogEntry :=
  IsEvent {| ev_Time := "yesterday"; ev_Type := "function"; ev_Record := VNil |}.

(** An entry that is not a [LambdaTelemetryEvent]. *)
Definition rawLine : LogEntry := NotEvent (VString "START RequestId: 1").

(** A response whose body cannot be read. *)
Definition brokenBody : Response :=
  {| StatusCode := 500; Status := "500 Internal Server Error";
     Body := inl "unexpected EOF" |}.

(** A client that cannot connect. *)
Definition refusing (req : @Request PaddedBuffer) : option Response * option error :=
  (None, Some "dial tcp: connection refused").

(** An account identifier read with its trailing line feed. *)
Definition accountWithNewline : string := "2459" ++ String "010"%char "".

(** An entry with a line of text as its body. *)
Definition textEntry : LogEntry :=
  IsEvent {| ev_Time := "2024-01-01T00:00:00Z"; ev_Type := "function";
             ev_Record := VString "hello" |}.

(** A completion order: the goroutines reach their send in start order. *)
Definition inStartOrder (tasks : list (@Task PaddedBuffer)) : list (@Task PaddedBuffer) := tasks.

(** The dispatcher whose compressor pads 600000 bytes per input byte: one
    one-byte record compresses to 600001 bytes, two to 1200002. *)
Definition inflating : @Dispatcher PaddedBuffer := dispatcher "" (inflate 600000) accepting.


(** The same dispatcher behind a network that refuses every connection. *)
Definition unreachable : @Dispatcher PaddedBuffer := dispatcher "" (inflate 600000) refusing.

(** A client that reaches every endpoint but the trace endpoint. *)
Definition refusingTraces (req : @Request PaddedBuffer) : option Response * option error :=
  if Contains (req_uri req) "trace"
  then (None, Some "dial tcp: connection refused")
  else (Some accepted, None).

(** A cycle over the example record in which only the delivery of the
    traces fails. *)
Definition traceFailureCycle : @step PaddedBuffer :=
  sendDataToNR (RT := world) 2 inStartOrder
    [exampleRecord "platform.report" exampleFields]
    (dispatcher "" (inflate 600000) refusingTraces) "req-1".

(** Two compressed chunks of one record each. *)
Definition twoChunks : list PaddedBuffer :=
  [ {| payload := [x2c]; padding := 600000 |};
    {| payload := [x2c]; padding := 600000 |} ].

(** A cycle over two text entries: their two log records do not fit one
    payload. *)
Definition twoChunkCycle : @step PaddedBuffer :=
  sendDataToNR (RT := world) 2 inStartOrder [textEntry; textEntry] inflating "req-1".

(** A cycle over one text entry behind the refusing network. *)
Definition failedCycle : @step PaddedBuffer :=
  sendDataToNR (RT := world) 2 inStartOrder [textEntry] unreachable "req-1".

(** A cycle over one text entry, every request accepted. *)
Definition quietCycle : @step PaddedBuffer :=
  sendDataToNR (RT := world) 2 inStartOrder [textEntry] inflating "req-1".

(** An agent batch that holds one registered invocation. *)
Definition pendingBatch : agentTelemetry.Batch :=
  {| agentTelemetry.invocations :=
       [ ("req-1", {| agentTelemetry.inv_RequestId := "req-1";
                      agentTelemetry.inv_Start := 0;
                      agentTelemetry.Telemetry := [] |}) ];
     agentTelemetry.lastHarvest := 0;
     agentTelemetry.sizeThreshold := 1000;
     agentTelemetry.timeThreshold := 10000 |}.



Definition threeRecords : list byte := [x61; x62; x63].

Definition twoLogsEvents : list LogsEvent :=
  [ {| ID := "1"; Message := "a"; Timestamp := 1 |};
    {| ID := "2"; Message := "b"; Timestamp := 2 |} ].

End Sample.

(** ** The license key ([telemetryApi]) *)

(** [licenseKeySecret]: the JSON object stored in the secret. *)
Record licenseKeySecret : Type := {
  LicenseKey : string
}.

Section LicenseKey.

(** [json.Unmarshal] into a [licenseKeySecret] (a missing attribute leaves
    the zero value), [os.Getenv], and [GetSecretValueWithContext] of the
    secrets manager, which returns an error or an output whose
    [SecretString] is a [*string] (nil for a binary secret). *)
Variable json_Unmarshal : string -> error + licenseKeySecret.
Variable os_Getenv : string -> string.
Variable GetSecretValue : string -> error + option string.

(** The double quote, as a string. *)
Definition dquote : string := String "034"%char "".

(** The model panics where Go dereferences a nil [rawJson]. *)
Definition decodeLicenseKey (rawJson : option string) : outcome string :=
  match rawJson with
  | None => Panic
  | Some raw =>
    match json_Unmarshal raw with
    | inl err => Err err
    | inr lks =>
      if (LicenseKey lks =? "")%string
      then Err ("malformed license key secret; missing " ++ dquote ++ "LicenseKey"
                ++ dquote ++ " attribute")
      else Ok (LicenseKey lks)
    end
  end.

(** The name or ARN of the secret that is fetched. *)
Definition secretId : string :=
  let sId := "NEW_RELIC_LICENSE_KEY" in
  let v := os_Getenv "NEW_RELIC_LICENSE_KEY_SECRET" in
  if 0 <? len v then v else sId.

Definition getNewRelicLicenseKey : outcome string :=
  match GetSecretValue secretId with
  | inl err => Err err
  | inr secretString => decodeLicenseKey secretString
  end.

End LicenseKey.

(** ** What a successful build holds

    Names for the record literals of [buildPayloads] and for the parts of
    an entry it reads, used to say what the built collections contain. *)

Section BuilderView.

Context {Buffer : Type} {RT : Runtime Buffer}.

(** The body of an entry (nil for an entry that is not an event). *)
Definition bodyOf (e : LogEntry) : Value :=
  match e with
  | IsEvent event => ev_Record event
  | NotEvent _ => VNil
  end.

(** The type of an entry. *)
Definition typeOf (e : LogEntry) : string :=
  match e with
  | IsEvent event => ev_Type event
  | NotEvent _ => ""
  end.

(** The instant of an entry whose [Time] parses. *)
Definition instantOf (e : LogEntry) : Z :=
  match e with
  | IsEvent event =>
    match time_Parse (ev_Time event) with
    | inr msInt => msInt
    | inl _ => 0
    end
  | NotEvent _ => 0
  end.

(** The metrics the builder visits in a record body: the entries of the
    [map[string]interface{}] under the key ["metrics"] of a body that is a
    [map[string]interface{}]. *)
Definition metricsOf (record : Value) : JMap :=
  match record with
  | VMap eventRecord =>
    match lookup "metrics" eventRecord with
    | Some (VMap val) => val
    | _ => []
    end
  | _ => []
  end.

(** The request identifier the builder reads in a record body. *)
Definition requestIdOf (record : Value) : string :=
  match record with
  | VMap eventRecord =>
    match lookup "requestId" eventRecord with
    | Some (VString v) => v
    | _ => ""
    end
  | _ => ""
  end.

(** The number of elements of a collection. *)
Definition count (data : Payloads) (key : string) : nat :=
  List.length (collection data key).

(** A string holds a dot. *)
Definition hasDot (s : string) : bool := Contains s ".".

(** A header of a request ([req.Header.Get]). *)
Definition header (req : @Request Buffer) (name : string) : option string :=
  lookup name (req_headers req).

(** The goroutines of a flight that deliver the given signal type. *)
Definition tasksOf (ty : string) (fl : @Flight Buffer) : list (@Task Buffer) :=
  filter (fun t => (task_type t =? ty)%string) (launched fl).

(** A call returned: with a value or with an error. *)
Definition returned {A : Type} (r : outcome A) : Prop :=
  match r with
  | Ok _ | Err _ => True
  | _ => False
  end.

(** The entries with a body. *)
Definition withBody (logEntries : list LogEntry) : list LogEntry :=
  filter (fun e => notNil (bodyOf e)) logEntries.

(** The metrics of the entries, each with its entry, in input order. *)
Definition metricsIn (logEntries : list LogEntry) : list (LogEntry * (string * Value)) :=
  flat_map (fun e => map (pair e) (metricsOf (bodyOf e))) logEntries.

(** The spans of the entries, each with its entry, in input order. *)
Definition spansIn (logEntries : list LogEntry) : list (LogEntry * Value) :=
  flat_map (fun e => map (pair e) (spansOf (bodyOf e))) logEntries.

(** [event] is the event record of the entry [e]. *)
Definition eventShape (e : LogEntry) (event : JMap) : Prop :=
  lookup "timestamp" event = Some (VInt (instantOf e)) /\
  lookup "eventType" event = Some (VString "TelemetryApiEvent") /\
  lookup "lambda.logevent.type" event = Some (VString (replaceDots (typeOf e))).

(** [log] is the logging record of the entry [e]. *)
Definition logShape (e : LogEntry) (log : JMap) : Prop :=
  lookup "timestamp" log = Some (VInt (instantOf e)) /\
  lookup "message" log = Some (VString (truncateMsg (fmt_Sprint (bodyOf e)))).

(** [metric] is the metric record of the metric [kv] of the entry [e]. *)
Definition metricShape (e : LogEntry) (kv : string * Value) (metric : JMap) : Prop :=
  lookup "name" metric = Some (VString ("aws.telemetry.lambda_ext." ++ fst kv)) /\
  lookup "value" metric = Some (valueAt (fst kv) (metricsOf (bodyOf e))) /\
  lookup "timestamp" metric = Some (VInt (instantOf e)).

(** The timestamp of the trace record of a span: the zero time of Go when
    the span has no ["start"] field, the parsed instant of its ["start"]
    field when its keys are distinct, as the keys of a Go map are. *)
Definition spanStamped (span : Value) (trace : JMap) : Prop :=
  forall fields,
    span = VMap fields ->
    (lookup "start" fields = None ->
     lookup "timestamp" trace = Some (VInt zeroTimeUnixMilli)) /\
    (forall s t,
        NoDup (map fst fields) ->
        lookup "start" fields = Some (VString s) ->
        time_Parse s = inr t ->
        lookup "timestamp" trace = Some (VInt t)).

(** [trace] is the trace record of the span [span] of the entry [e]. *)
Definition traceShape (e : LogEntry) (span : Value) (trace : JMap) : Prop :=
  lookup "trace.id" trace = Some (VString (requestIdOf (bodyOf e))) /\
  spanStamped span trace.

(** The identifiers [uuid.New] gives from the [i]-th draw on. *)
Definition draws (i n : nat) : list (option Value) :=
  map (fun j => Some (VString (uuid_New j))) (seq i n).

(** The entry is an event whose [Time] parses to the instant [t]. *)
Definition dated (e : LogEntry) (t : Z) : Prop :=
  exists event, e = IsEvent event /\ time_Parse (ev_Time event) = inr t.

End BuilderView.

(** ** What a cycle starts

    Names for the goroutines of [sendDataToNR] and for the ways one of its
    steps ends the call before the wait. *)

Section CycleView.

Context {Buffer : Type} {RT : Runtime Buffer}.

(** The goroutines for the given payloads, in the order in which the code
    starts them: logs, metrics, events, traces. *)
Definition cycleTasks (d : @Dispatcher Buffer) (logs metrics events traces : list Buffer)
  : list (@Task Buffer) :=
  (map (logTask d) logs ++ map (metricsTask d) metrics
   ++ map (eventTask d) events ++ map (fun p => tracesTask d p None) traces)%list.

(** A step ends the call before the wait: a splitter exhausted its budget,
    or the compressor failed, with an error that is returned or, in the
    traces step, that leaves a nil payload on which the request constructor
    panics. *)
Definition stopped (d : @Dispatcher Buffer) (o : outcome unit) : Prop :=
  o = OutOfFuel \/
  exists e b, compressTool d b = inl e /\ (o = Err e \/ o = Panic).

(** The call gets to the events step: neither the logs step nor the metrics
    step ended it. *)
Definition reachesEvents (fuel : nat) (d : @Dispatcher Buffer) (data : Payloads) : Prop :=
  snd (sendLogs fuel d data takeoff) = Ok tt /\
  snd (sendMetrics d data (fst (sendLogs fuel d data takeoff))) = Ok tt.

(** The delivery of a goroutine returns the nil error. *)
Definition delivered (d : @Dispatcher Buffer) (t : @Task Buffer) : Prop :=
  snd (sendData d (task_uri t) (task_type t) (task_body t)) = Ok tt.

End CycleView.

(** ** More of the sample world *)

Module SampleMore.

(** A dispatcher whose compressor pads 2000000 bytes per input byte: no
    record fits, the empty collection does. *)
Definition bloating : @Dispatcher Sample.PaddedBuffer :=
  Sample.dispatcher "" (Sample.inflate 2000000) Sample.accepting.

(** A log event of 29 serialised bytes, 1740029 bytes once padded. *)
Definition longEvent : LogsEvent :=
  {| ID := "1"; Message := "0123456789"; Timestamp := 1 |}.

(** A dispatcher with an account and every request accepted. *)
Definition withAccount : @Dispatcher Sample.PaddedBuffer :=
  Sample.dispatcher "2459" (Sample.inflate 600000) Sample.accepting.

(** A dispatcher with an account behind the refusing network. *)
Definition withAccountUnreachable : @Dispatcher Sample.PaddedBuffer :=
  Sample.dispatcher "2459" (Sample.inflate 600000) Sample.refusing.

(** A dispatcher that reaches every endpoint but the trace endpoint. *)
Definition tracesUnreachable : @Dispatcher Sample.PaddedBuffer :=
  Sample.dispatcher "" (Sample.inflate 600000) Sample.refusingTraces.

(** An entry with a body of two metrics and no span. *)
Definition meteredEntry : LogEntry :=
  IsEvent {| ev_Time := "2024-01-01T00:00:00Z"; ev_Type := "platform.report";
             ev_Record := VMap [ ("requestId", VString "req-7");
                                 ("metrics", VMap [ ("durationMs", VFloat 12%float);
                                                    ("maxMemoryUsedMB", VFloat 64%float) ]) ] |}.

(** An entry with nothing but a timestamp. *)
Definition bareEntry : LogEntry :=
  IsEvent {| ev_Time := "2024-01-01T00:00:01Z"; ev_Type := "platform.start";
             ev_Record := VNil |}.

(** Three entries: the example, a metered one, a bare one. *)
Definition threeEntries : list LogEntry :=
  [ exampleRecord "platform.report" exampleFields; meteredEntry; bareEntry ].

(** A secret store with one JSON secret under the default name; the
    stand-in for the JSON decoder reads the text that follows the opening
    of the LicenseKey attribute, up to the closing quote. *)
Definition secretText : string :=
  "{" ++ dquote ++ "LicenseKey" ++ dquote ++ ":" ++ dquote ++ "eu01xx0123456789"
  ++ dquote ++ "}".

Fixpoint upToQuote (s : string) : string :=
  match s with
  | EmptyString => EmptyString
  | String c s' => if (c =? "034")%char then EmptyString else String c (upToQuote s')
  end.

Definition unmarshalSecret (raw : string) : error + licenseKeySecret :=
  let opening := "{" ++ dquote ++ "LicenseKey" ++ dquote ++ ":" ++ dquote in
  if String.prefix opening raw
  then inr {| LicenseKey :=
                upToQuote (substring (String.length opening)
                             (String.length raw - String.length opening) raw) |}
  else if String.prefix "{" raw then inr {| LicenseKey := "" |}
  else inl "invalid character looking for beginning of value".

Definition noOverride (name : string) : string := "".

Definition secretStore (id : string) : error + option string :=
  if (id =? "NEW_RELIC_LICENSE_KEY")%string then inr (Some secretText)
  else inl "ResourceNotFoundException: Secrets Manager can't find the specified secret.".

(** Five entries with nothing but a timestamp: five event records, no
    log, metric or trace record. *)
Definition fiveBare : list LogEntry := repeat bareEntry 5.

(** A cycle over the five entries, with an account, behind the refusing
    network: the five event records go out in five payloads. *)
Definition floodedCycle : @step Sample.PaddedBuffer :=
  sendDataToNR (RT := Sample.world) 5 Sample.inStartOrder fiveBare
    withAccountUnreachable "req-1".

(** A cycle over the three entries, with an account, every request
    accepted. *)
Definition servedCycle : @step Sample.PaddedBuffer :=
  sendDataToNR (RT := Sample.world) 3 Sample.inStartOrder
    [exampleRecord "platform.report" exampleFields] withAccount "req-1".

(** A compressor that fails on an input of one byte. *)
Definition pickyCompress (b : bytes) : error + Sample.PaddedBuffer :=
  if (List.length b =? 1)%nat then inl "flate: write failed" else Sample.inflate 600000 b.

(** A dispatcher with that compressor. *)
Definition picky : @Dispatcher Sample.PaddedBuffer :=
  Sample.dispatcher "" pickyCompress Sample.accepting.

(** An entry whose first span has a ["start"] that is not RFC 3339, after a
    field that is typed, and before a span that is not an object. *)
Definition badStartEntry : LogEntry :=
  IsEvent {| ev_Time := "2024-01-01T00:00:00Z"; ev_Type := "platform.report";
             ev_Record := VMap [ ("spans",
                                  VSlice [ VMap [ ("name", VString "seg1");
                                                  ("start", VString "noon");
                                                  ("durationMs", VString "5") ];
                                           VString "seg2" ]) ] |}.

(** A cycle over one text entry with that dispatcher: the compression of
    the one log record fails. *)
Definition pickyCycle : @step Sample.PaddedBuffer :=
  sendDataToNR (RT := Sample.world) 2 Sample.inStartOrder [Sample.textEntry] picky "req-1".

(** The sample world with a compressor that always fails. *)
Definition brokenWorld : Runtime Sample.PaddedBuffer := {|
  Len := Sample.paddedLen;
  time_Parse := Sample.parseUTC;
  fmt_Sprint := fun _ => "map[]";
  uuid_New := fun n => "span-" ++ decimal n;
  json_Marshal := Sample.countingMarshal;
  json_Marshal_LogsEntry := fun e => inr (Sample.encEvents (LogEvents e));
  json_Marshal_RequestData := fun d => inr (list_byte_of_string (Entry d));
  http_NewRequest := Sample.newRequest;
  util_Name := "newrelic-lambda-extension";
  util_Version := "2.3.0";
  util_Id := "newrelic-lambda-extension";
  util_Compress := fun _ => inl "flate: write failed"
|}.

(** An agent dispatcher that collects, with one chunk waiting and one
    registered invocation. *)
Definition collecting : agentTelemetry.AgentTelemetryDispatcher :=
  {| agentTelemetry.collectData := true;
     agentTelemetry.telemetryChan := [[x61; x62]; [x63]];
     agentTelemetry.batch := Sample.pendingBatch;
     agentTelemetry.telemetryClient := [] |}.

End SampleMore.

(** * Properties *)

(** ** The bisection *)

Section BisectFacts.

Context {Buffer : Type} {RT : Runtime Buffer}.
Variable Rec : Type.
Variable encode : list Rec -> error + Buffer.
Variable limit : Z.

Lemma bind_Ok_inv {A B : Type} (m : outcome A) (k : A -> outcome B) (b : B) :
  bind m k = Ok b -> exists a, m = Ok a /\ k a = Ok b.
Proof.
  destruct m as [a | e | | | ]; simpl; intro H; try discriminate.
  exists a. split; [reflexivity | exact H].
Qed.

Lemma bisect_S (fuel : nat) (data : list Rec) :
  bisect Rec encode limit (S fuel) data =
  match encode data with
  | inl err => Err err
  | inr compressed =>
    if Len compressed <=? limit then Ok [compressed]
    else
      leftRet <- bisect Rec encode limit fuel (firstn (List.length data / 2) data) ;;
      rightRet <- bisect Rec encode limit fuel (skipn (List.length data / 2) data) ;;
      Ok (leftRet ++ rightRet)%list
  end.
Proof. reflexivity. Qed.

(** Each returned chunk is the encoding of a part, the parts in order make
    up the input, and each chunk passed the length test. *)
Lemma bisect_parts (fuel : nat) :
  forall data chunks,
    bisect Rec encode limit fuel data = Ok chunks ->
    (exists parts,
        Forall2 (fun c part => encode part = inr c) chunks parts /\
        List.concat parts = data) /\
    chunks_within limit chunks.
Proof.
  induction fuel as [| fuel IH]; intros data chunks H.
  - discriminate.
  - rewrite bisect_S in H.
    destruct (encode data) as [err | compressed] eqn:Eenc; [discriminate |].
    destruct (Z.leb_spec (Len compressed) limit) as [Hle | Hgt].
    + injection H as <-. split.
      * exists [data]. split.
        -- constructor; [exact Eenc | constructor].
        -- simpl. apply app_nil_r.
      * constructor; [exact Hle | constructor].
    + apply bind_Ok_inv in H. destruct H as (leftRet & Hl & H).
      apply bind_Ok_inv in H. destruct H as (rightRet & Hr & H).
      injection H as <-.
      destruct (IH _ _ Hl) as ((pl & Fl & Cl) & Wl).
      destruct (IH _ _ Hr) as ((pr & Fr & Cr) & Wr).
      split.
      * exists (pl ++ pr)%list. split.
        -- apply Forall2_app; assumption.
        -- rewrite concat_app, Cl, Cr. apply firstn_skipn.
      * apply Forall_app. split; assumption.
Qed.

(** With any decoder that inverts the encoding, the chunks decode to parts
    that make up the input. *)
Lemma bisect_cover (decode : Buffer -> option (list Rec)) :
  (forall l c, encode l = inr c -> decode c = Some l) ->
  forall fuel data chunks,
    bisect Rec encode limit fuel data = Ok chunks ->
    chunks_cover Rec decode chunks data /\ chunks_within limit chunks.
Proof.
  intros Hdec fuel data chunks H.
  destruct (bisect_parts fuel data chunks H) as ((parts & F & C) & W).
  split; [| exact W].
  exists parts. split; [| exact C].
  clear - F Hdec. induction F; constructor; auto.
Qed.

Lemma in_firstn (n : nat) (data : list Rec) (r : Rec) :
  In r (firstn n data) -> In r data.
Proof.
  intro H. rewrite <- (firstn_skipn n data). apply in_or_app. left. exact H.
Qed.

Lemma in_skipn (n : nat) (data : list Rec) (r : Rec) :
  In r (skipn n data) -> In r data.
Proof.
  intro H. rewrite <- (firstn_skipn n data). apply in_or_app. right. exact H.
Qed.

Lemma halves_shorter (data : list Rec) (n : nat) :
  (2 <= List.length data <= S n)%nat ->
  (1 <= List.length (firstn (List.length data / 2) data) <= n)%nat /\
  (1 <= List.length (skipn (List.length data / 2) data) <= n)%nat.
Proof.
  intros [H2 Hn].
  rewrite length_firstn, length_skipn.
  assert (Hd : (1 <= List.length data / 2)%nat).
  { change 1%nat with (2 / 2)%nat. apply Nat.Div0.div_le_mono. exact H2. }
  assert (Hh : (List.length data / 2 < List.length data)%nat).
  { apply Nat.div_lt; lia. }
  lia.
Qed.

Lemma single_fits_length (data : list Rec) (compressed : Buffer) :
  (forall r, In r data -> fits Rec encode limit [r] = true) ->
  encode data = inr compressed -> limit < Len compressed ->
  (1 <= List.length data)%nat -> (2 <= List.length data)%nat.
Proof.
  intros Hfit Eenc Hgt Hlen.
  destruct data as [| r [| r' data]]; simpl in *; try lia.
  specialize (Hfit r (or_introl eq_refl)). unfold fits in Hfit.
  rewrite Eenc in Hfit. apply Z.leb_le in Hfit. lia.
Qed.


(** The same, with an encoder that never fails: chunks are returned. *)
Lemma bisect_returns (fuel : nat) :
  (forall l, exists c, encode l = inr c) ->
  forall data,
    (forall r, In r data -> fits Rec encode limit [r] = true) ->
    (1 <= List.length data <= fuel)%nat ->
    exists chunks, bisect Rec encode limit fuel data = Ok chunks.
Proof.
  intros Htot. induction fuel as [| fuel IH]; intros data Hfit Hlen; [lia |].
  rewrite bisect_S. destruct (Htot data) as [compressed Eenc]. rewrite Eenc.
  destruct (Z.leb_spec (Len compressed) limit) as [Hle | Hgt]; [eauto |].
  assert (H2 : (2 <= List.length data)%nat)
    by (eapply single_fits_length; eauto; lia).
  destruct (halves_shorter data fuel (conj H2 (proj2 Hlen))) as [Hl Hr].
  destruct (IH (firstn (List.length data / 2) data)) as [cl El];
    [intros r Hin; apply Hfit; eapply in_firstn; eauto | exact Hl |].
  destruct (IH (skipn (List.length data / 2) data)) as [cr Er];
    [intros r Hin; apply Hfit; eapply in_skipn; eauto | exact Hr |].
  rewrite El, Er. simpl. eauto.
Qed.



End BisectFacts.

(** ** The two splitters are bisections *)

Section SplitterFacts.

Context {Buffer : Type} {RT : Runtime Buffer}.

Lemma marshalAndCompressData_bisect (Rec : Type) (marshal : list Rec -> error + bytes)
  (d : Dispatcher) (dataType : string) (fuel : nat) :
  forall data,
    marshalAndCompressData Rec marshal fuel d data dataType =
    bisect Rec (encodeRecords Rec marshal d) maxPayloadSizeBytes fuel data.
Proof.
  induction fuel as [| fuel IH]; intros data; simpl; [reflexivity |].
  unfold encodeRecords.
  destruct (compressTool d (marshalled Rec marshal data)) as [err | compressed]; [reflexivity |].
  destruct (Z.gtb_spec (Len compressed) maxPayloadSizeBytes) as [Hgt | Hle];
    destruct (Z.leb_spec (Len compressed) maxPayloadSizeBytes) as [Hle' | Hgt'];
    try lia; try reflexivity.
  rewrite !IH. reflexivity.
Qed.

Lemma CompressedPayloadsForLogEvents_bisect (functionName invokedFunctionARN : string)
  (fuel : nat) :
  forall logsEvents,
    CompressedPayloadsForLogEvents fuel logsEvents functionName invokedFunctionARN =
    bisect LogsEvent (encodeLogs functionName invokedFunctionARN)
      maxCompressedPayloadLen fuel logsEvents.
Proof.
  induction fuel as [| fuel IH]; intros logsEvents; simpl; [reflexivity |].
  unfold encodeLogs.
  destruct (compressedLogEntry logsEvents functionName invokedFunctionARN)
    as [err | compressed]; [reflexivity |].
  destruct (Len compressed <=? maxCompressedPayloadLen); [reflexivity |].
  rewrite !IH. reflexivity.
Qed.

End SplitterFacts.

(** ** The sample serialisation reads back what it wrote *)

Lemma decNat_encNat (n : nat) (r : bytes) :
  Sample.decNat (Sample.encNat n ++ r)%list = Some (n, r).
Proof.
  unfold Sample.encNat. induction n as [| n IH]; simpl; [reflexivity |].
  rewrite IH. reflexivity.
Qed.

Lemma decString_encString (s : string) (r : bytes) :
  Sample.decString (Sample.encString s ++ r)%list = Some (s, r).
Proof.
  unfold Sample.decString, Sample.encString.
  rewrite <- app_assoc, decNat_encNat.
  rewrite firstn_app, Nat.sub_diag, firstn_all, firstn_O, app_nil_r.
  rewrite skipn_app, Nat.sub_diag, skipn_all, skipn_O.
  rewrite string_of_list_byte_of_string. reflexivity.
Qed.

Lemma decZ_encZ (z : Z) (r : bytes) :
  Sample.decZ (Sample.encZ z ++ r)%list = Some (z, r).
Proof.
  unfold Sample.decZ, Sample.encZ.
  destruct (Z.ltb_spec z 0) as [Hneg | Hpos]; simpl;
    rewrite decNat_encNat; simpl; f_equal; f_equal; lia.
Qed.

Lemma decEvent_encEvent (e : LogsEvent) (r : bytes) :
  Sample.decEvent (Sample.encEvent e ++ r)%list = Some (e, r).
Proof.
  unfold Sample.decEvent, Sample.encEvent.
  rewrite <- !app_assoc, decString_encString, decString_encString, decZ_encZ.
  destruct e; reflexivity.
Qed.

Lemma decEvents_encEvents (l : list LogsEvent) :
  Sample.decEvents (List.length l) (flat_map Sample.encEvent l) = Some l.
Proof.
  induction l as [| e l IH]; simpl; [reflexivity |].
  rewrite decEvent_encEvent, IH. reflexivity.
Qed.

Lemma decodeLogs_sound (functionName invokedFunctionARN : string)
  (l : list LogsEvent) (c : Sample.PaddedBuffer) :
  encodeLogs (RT := Sample.world) functionName invokedFunctionARN l = inr c ->
  Sample.decodeLogs c = Some l.
Proof.
  unfold encodeLogs, compressedLogEntry. simpl. unfold Sample.inflate.
  intro H. injection H as <-.
  unfold Sample.decodeLogs. simpl.
  rewrite list_byte_of_string_of_list_byte.
  unfold Sample.encEvents. rewrite decNat_encNat. apply decEvents_encEvents.
Qed.

(** ** The payload splitter *)

Section SplitterTheorems.

Context {Buffer : Type} {RT : Runtime Buffer}.

(** C1, as amended.  For every collection, whenever a splitter
    ([marshalAndCompressData], [CompressedPayloadsForLogEvents]) returns
    chunks, decoding the chunks one by one and concatenating the decoded
    record sequences from left to right gives back exactly the collection,
    and every chunk's compressed size is at most the splitter's limit.
    Chunks are returned, within a recursion depth of the collection's
    length, for every non-empty collection whose records fit the limit one
    by one, when serialisation and compression do not fail. *)
Theorem splitters_cover_and_bound :
  (forall (Rec : Type) (marshal : list Rec -> error + bytes) (d : Dispatcher)
          (dataType : string) (decode : Buffer -> option (list Rec)),
      (forall l c, encodeRecords Rec marshal d l = inr c -> decode c = Some l) ->
      forall data : list Rec,
        (forall fuel chunks,
            marshalAndCompressData Rec marshal fuel d data dataType = Ok chunks ->
            chunks_cover Rec decode chunks data /\
            chunks_within maxPayloadSizeBytes chunks) /\
        (data <> [] ->
         (forall r, In r data ->
                    fits Rec (encodeRecords Rec marshal d) maxPayloadSizeBytes [r] = true) ->
         (forall l, exists c, encodeRecords Rec marshal d l = inr c) ->
         exists chunks,
           marshalAndCompressData Rec marshal (List.length data) d data dataType = Ok chunks))
  /\
  (forall (functionName invokedFunctionARN : string)
          (decode : Buffer -> option (list LogsEvent)),
      (forall l c, encodeLogs functionName invokedFunctionARN l = inr c -> decode c = Some l) ->
      forall logsEvents : list LogsEvent,
        (forall fuel chunks,
            CompressedPayloadsForLogEvents fuel logsEvents functionName invokedFunctionARN
            = Ok chunks ->
            chunks_cover LogsEvent decode chunks logsEvents /\
            chunks_within maxCompressedPayloadLen chunks) /\
        (logsEvents <> [] ->
         (forall r, In r logsEvents ->
                    fits LogsEvent (encodeLogs functionName invokedFunctionARN)
                      maxCompressedPayloadLen [r] = true) ->
         (forall l, exists c, encodeLogs functionName invokedFunctionARN l = inr c) ->
         exists chunks,
           CompressedPayloadsForLogEvents (List.length logsEvents) logsEvents
             functionName invokedFunctionARN = Ok chunks)).
Proof.
  split.
  - intros Rec marshal d dataType decode Hdec data. split.
    + intros fuel chunks H. rewrite marshalAndCompressData_bisect in H.
      eapply bisect_cover; eauto.
    + intros Hne Hfit Htot. rewrite marshalAndCompressData_bisect.
      apply bisect_returns; auto.
      destruct data; [congruence | simpl; lia].
  - intros functionName invokedFunctionARN decode Hdec logsEvents. split.
    + intros fuel chunks H. rewrite CompressedPayloadsForLogEvents_bisect in H.
      eapply bisect_cover; eauto.
    + intros Hne Hfit Htot. rewrite CompressedPayloadsForLogEvents_bisect.
      apply bisect_returns; auto.
      destruct logsEvents; [congruence | simpl; lia].
Qed.


End SplitterTheorems.

Lemma splitters_cover_and_bound_witness :
  (exists chunks,
      marshalAndCompressData (RT := Sample.world) byte Sample.byteRecords 3
        Sample.inflating Sample.threeRecords "logging" = Ok chunks /\
      List.length chunks = 3%nat /\
      chunks_cover byte Sample.decodeBytes chunks Sample.threeRecords /\
      chunks_within (RT := Sample.world) maxPayloadSizeBytes chunks)
  /\
  (exists chunks,
      CompressedPayloadsForLogEvents (RT := Sample.world) 2 Sample.twoLogsEvents
        "checkout" "arn:aws:lambda:us-east-1:123456789012:function:checkout" = Ok chunks /\
      List.length chunks = 2%nat /\
      chunks_cover LogsEvent Sample.decodeLogs chunks
        Sample.twoLogsEvents /\
      chunks_within (RT := Sample.world) maxCompressedPayloadLen chunks).
Proof.
  destruct (splitters_cover_and_bound (RT := Sample.world)) as [H1 H2]. split.
  - destruct (H1 byte Sample.byteRecords Sample.inflating "logging" Sample.decodeBytes)
      with (data := Sample.threeRecords) as [Hret Hrun].
    + intros l c E. injection E as <-. reflexivity.
    + destruct Hrun as [chunks E].
      * discriminate.
      * intros r [<- | [<- | [<- | []]]]; reflexivity.
      * intros l. eexists. reflexivity.
      * exists chunks. split; [exact E |]. split; [| exact (Hret _ _ E)].
        vm_compute in E. injection E as <-. reflexivity.
  - destruct (H2 "checkout" "arn:aws:lambda:us-east-1:123456789012:function:checkout"
                Sample.decodeLogs)
      with (logsEvents := Sample.twoLogsEvents) as [Hret Hrun].
    + apply decodeLogs_sound.
    + destruct Hrun as [chunks E].
      * discriminate.
      * intros r [<- | [<- | []]]; reflexivity.
      * intros l. eexists. reflexivity.
      * exists chunks. split; [exact E |]. split; [| exact (Hret _ _ E)].
        vm_compute in E. injection E as <-. reflexivity.
Defined.



(** ** The payload builder *)

Section BuilderFacts.

Context {Buffer : Type} {RT : Runtime Buffer}.

Lemma loopSpec_Panic {A : Type} (bad : bool) : loopSpec (A := A) false bad Panic.
Proof. repeat split; simpl; auto; discriminate. Qed.

Lemma loopSpec_Err {A : Type} (typed bad : bool) (s : string) (e : error) :
  time_Parse s = inl e -> loopSpec (A := A) typed bad (Err e).
Proof. intro H. repeat split; simpl; eauto; discriminate. Qed.

Lemma loopSpec_Ok {A : Type} (a : A) : loopSpec true false (Ok a).
Proof. repeat split; simpl; auto; discriminate. Qed.

Lemma spanFields_spec (fields : JMap) :
  forall attributes start,
    loopSpec (forallb fieldTyped fields) (badStart fields)
      (spanFields fields attributes start).
Proof.
  induction fields as [| [key v] rest IH]; intros attributes start.
  - apply loopSpec_Ok.
  - unfold badStart in *. simpl. unfold fieldTyped at 1. simpl.
    destruct (key =? "durationMs")%string eqn:Ed.
    + apply String.eqb_eq in Ed. subst key. simpl.
      destruct v; try apply loopSpec_Panic. apply IH.
    + destruct (key =? "start")%string eqn:Es.
      * destruct v; try apply loopSpec_Panic. simpl.
        destruct (time_Parse s) as [err | t] eqn:Ep; simpl.
        -- eapply loopSpec_Err; eauto.
        -- apply IH.
      * destruct v; try apply loopSpec_Panic. simpl. apply IH.
Qed.

Lemma loopSpec_bind {A B : Type} (t1 t2 b1 b2 : bool) (m : outcome A)
  (k : A -> outcome B) :
  loopSpec t1 b1 m ->
  (forall a, m = Ok a -> loopSpec t2 b2 (k a)) ->
  loopSpec (t1 && t2) (b1 || b2) (bind m k).
Proof.
  intros (Hb & Ht & Hu & Hx) Hk.
  destruct m as [a | e | | | ]; simpl in *; try contradiction.
  - specialize (Hk a eq_refl). destruct Hk as (Kb & Kt & Ku & Kx).
    assert (t1 = true) by (destruct t1; auto; specialize (Hu eq_refl); discriminate).
    assert (b1 = false) by (destruct b1; auto; specialize (Hx eq_refl); discriminate).
    subst. simpl. repeat split; auto.
  - repeat split; auto; discriminate.
  - repeat split; auto.
    intro H. apply andb_true_iff in H. destruct H as [H _].
    exfalso. exact (Ht H eq_refl).
Qed.

Lemma buildSpans_spec (typ rid extension_name : string) (val : list Value) :
  forall data ids,
    loopSpec (forallb spanTyped val) (existsb badSpan val)
      (buildSpans typ rid extension_name val data ids).
Proof.
  induction val as [| span rest IH]; intros data ids.
  - apply loopSpec_Ok.
  - simpl. destruct span; try apply loopSpec_Panic.
    apply loopSpec_bind; [apply spanFields_spec |].
    intros a _. apply IH.
Qed.

Lemma buildEvent_spec (d : Dispatcher) (RequestID : string)
  (event : LambdaTelemetryEvent) (msInt : Z) (data : Payloads) (ids : nat) :
  loopSpec (recordTyped (ev_Record event)) (existsb badSpan (spansOf (ev_Record event)))
    (buildEvent d RequestID event msInt data ids).
Proof.
  unfold buildEvent.
  destruct (ev_Record event) as [| s | f | n | m | l | m | tag | tag]; simpl;
    try apply loopSpec_Ok; try apply loopSpec_Panic.
  destruct (lookup "spans" m) as [[| | | | | val | | |] |]; simpl;
    try apply loopSpec_Ok.
  apply buildSpans_spec.
Qed.

Lemma buildLoop_spec (d : Dispatcher) (RequestID : string) (logEntries : list LogEntry) :
  forall data ids,
    loopSpec (wellTyped logEntries) (anyBadTime logEntries)
      (buildLoop d RequestID logEntries data ids).
Proof.
  unfold wellTyped, anyBadTime.
  induction logEntries as [| entry rest IH]; intros data ids.
  - apply loopSpec_Ok.
  - simpl. destruct entry as [event | v]; [| apply loopSpec_Panic].
    simpl. destruct (time_Parse (ev_Time event)) as [err | msInt] eqn:Ep; simpl.
    + eapply loopSpec_Err; eauto.
    + apply loopSpec_bind; [apply buildEvent_spec |].
      intros a _. apply IH.
Qed.

Lemma buildPayloads_spec (logEntries : list LogEntry) (d : Dispatcher) (RequestID : string) :
  loopSpec (wellTyped logEntries) (anyBadTime logEntries)
    (buildPayloads logEntries d RequestID).
Proof. apply buildLoop_spec. Qed.

End BuilderFacts.

Section BuilderTheorems.

Context {Buffer : Type} {RT : Runtime Buffer}.

(** C10, as amended.  [buildPayloads] does not fault when every input entry
    is a [LambdaTelemetryEvent] whose body, if of map kind, is a
    [map[string]interface{}], and every element of its spans list is an
    object in which ["durationMs"] is a float and ["start"] and every
    remaining field are strings: it then returns payloads or an error
    value.  On an input that violates this precondition it returns no
    payloads: it faults on a failed type assertion, unless it returns the
    error of a timestamp that does not parse. *)
Theorem buildPayloads_faults_on_untyped :
  forall (logEntries : list LogEntry) (d : Dispatcher) (RequestID : string),
    (wellTyped logEntries = true ->
     (exists data, buildPayloads logEntries d RequestID = Ok data) \/
     (exists e, buildPayloads logEntries d RequestID = Err e)) /\
    (wellTyped logEntries = false ->
     buildPayloads logEntries d RequestID = Panic \/
     (exists e s, buildPayloads logEntries d RequestID = Err e /\ time_Parse s = inl e)).
Proof.
  intros logEntries d RequestID.
  destruct (buildPayloads_spec logEntries d RequestID) as (Hb & Ht & Hu & _).
  split; intro H.
  - specialize (Ht H).
    destruct (buildPayloads logEntries d RequestID) as [data | e | | | ];
      simpl in Hb; try contradiction; eauto.
  - specialize (Hu H).
    destruct (buildPayloads logEntries d RequestID) as [data | e | | | ];
      simpl in Hb, Hu; try contradiction; try discriminate; auto.
    right. destruct Hb as [s Hs]. eauto.
Qed.

End BuilderTheorems.

Lemma buildPayloads_faults_on_untyped_witness :
  ((exists data,
       buildPayloads (RT := Sample.world) [Sample.undated] Sample.inflating "req-1" = Ok data) \/
   (exists e,
       buildPayloads (RT := Sample.world) [Sample.undated] Sample.inflating "req-1" = Err e))
  /\
  (buildPayloads (RT := Sample.world) [Sample.stringSpan] Sample.inflating "req-1" = Panic \/
   (exists e s,
       buildPayloads (RT := Sample.world) [Sample.stringSpan] Sample.inflating "req-1" = Err e /\
       Sample.parseUTC s = inl e)).
Proof.
  split.
  - apply (buildPayloads_faults_on_untyped (RT := Sample.world) [Sample.undated]).
    reflexivity.
  - apply (buildPayloads_faults_on_untyped (RT := Sample.world) [Sample.stringSpan]).
    reflexivity.
Defined.

(** C10, as stated, fails in both directions.  An entry whose spans list
    holds a string satisfies the stated precondition (there is no span
    object in it), and the builder faults on it; an input whose second
    entry is not a [LambdaTelemetryEvent] violates the precondition, and the
    builder returns an error value for it, the first entry's timestamp
    having failed to parse. *)
Lemma buildPayloads_stated_precondition_fails :
  (statedTyped [Sample.stringSpan] = true /\
   buildPayloads (RT := Sample.world) [Sample.stringSpan] Sample.inflating "req-1" = Panic)
  /\
  (statedTyped [Sample.undated; Sample.rawLine] = false /\
   buildPayloads (RT := Sample.world) [Sample.undated; Sample.rawLine] Sample.inflating "req-1"
   = Err "parsing time yesterday as RFC3339").
Proof. repeat split. Qed.

(** ** The end-to-end example *)

(** The six orders in which three fields can be visited. *)
Lemma Permutation_three {A : Type} (a b c : A) (l : list A) :
  Permutation l [a; b; c] ->
  l = [a; b; c] \/ l = [a; c; b] \/ l = [b; a; c] \/
  l = [b; c; a] \/ l = [c; a; b] \/ l = [c; b; a].
Proof.
  intro H.
  destruct (Permutation_vs_cons_inv H) as (l1 & l2 & ->).
  apply Permutation_sym, Permutation_cons_app_inv in H.
  apply Permutation_length_2_inv in H.
  destruct l1 as [| x [| y [| z l1]]]; simpl in *;
    destruct H as [H | H]; try discriminate;
    try (injection H as -> ->); try (injection H as -> -> ->); subst; auto 10;
    try (destruct l2; discriminate).
  all: destruct l2; try discriminate; injection H as -> ->; auto 10.
Qed.

(** *** The cut of a log message *)

Lemma substring_length (n : nat) :
  forall s, String.length (substring 0 n s) = Nat.min n (String.length s).
Proof.
  induction n as [| n IH]; intros [| c s]; cbn [substring String.length Nat.min];
    try reflexivity.
  rewrite IH. reflexivity.
Qed.

Lemma truncateMsg_len (msg : string) :
  len (truncateMsg msg) = Z.min (len msg) maxLogMsgLen.
Proof.
  unfold truncateMsg, len. destruct (Z.gtb_spec (Z.of_nat (String.length msg)) maxLogMsgLen).
  - rewrite substring_length.
    assert (0 <= maxLogMsgLen) by (unfold maxLogMsgLen; lia). lia.
  - lia.
Qed.

Lemma truncateMsg_prefix (msg : string) :
  String.prefix (truncateMsg msg) msg = true.
Proof.
  unfold truncateMsg. destruct (len msg >? maxLogMsgLen).
  - generalize (Z.to_nat maxLogMsgLen). intros n. revert msg.
    induction n as [| n IH]; intros [| c s]; cbn [substring String.prefix]; try reflexivity.
    destruct (ascii_dec c c); [apply IH | congruence].
  - induction msg as [| c s IH]; cbn [String.prefix]; [reflexivity |].
    destruct (ascii_dec c c); [exact IH | congruence].
Qed.

Lemma truncateMsg_short (msg : string) :
  len msg <= 14094 -> truncateMsg msg = msg.
Proof.
  intros H. unfold truncateMsg.
  destruct (Z.gtb_spec (len msg) maxLogMsgLen) as [Hgt | _]; [| reflexivity].
  unfold maxLogMsgLen in Hgt. lia.
Qed.

Section ExampleTheorem.

Context {Buffer : Type} {RT : Runtime Buffer}.

(** C7.  Building payloads from the one raw record of the example, whatever
    the order in which the fields of its span are visited, yields exactly
    one event record, one logging record whose message is the (possibly
    truncated) rendering of the body (a prefix of the rendering, of the
    rendering's length or of 14094 bytes, whichever is smaller, hence the
    rendering itself when that is at most 14094 bytes long), one metric
    record named ["aws.telemetry.lambda_ext.duration"] with value 120.5,
    and one trace span record whose attributes map ["duration.ms"] to 5 and
    ["name"] to ["seg1"]. *)
Theorem buildPayloads_example :
  forall (d : Dispatcher) (RequestID typ : string) (fields : JMap) (t : Z),
    time_Parse "2024-01-01T00:00:00Z" = inr t ->
    Permutation fields exampleFields ->
    exists data,
      buildPayloads [exampleRecord typ fields] d RequestID = Ok data /\
      (exists event, collection data "events" = [event]) /\
      (exists log msg,
          collection data "logging" = [log] /\
          lookup "message" log = Some (VString msg) /\
          String.prefix msg (fmt_Sprint (exampleBody fields)) = true /\
          len msg = Z.min (len (fmt_Sprint (exampleBody fields))) 14094 /\
          (len (fmt_Sprint (exampleBody fields)) <= 14094 ->
           msg = fmt_Sprint (exampleBody fields))) /\
      (exists metric,
          collection data "metrics" = [metric] /\
          lookup "name" metric = Some (VString "aws.telemetry.lambda_ext.duration") /\
          lookup "value" metric = Some (VFloat 120.5%float)) /\
      (exists span attributes,
          collection data "traces" = [span] /\
          lookup "attributes" span = Some (VMap attributes) /\
          lookup "duration.ms" attributes = Some (VFloat 5%float) /\
          lookup "name" attributes = Some (VString "seg1")).
Proof.
  intros d RequestID typ fields t Hparse Hperm.
  apply Permutation_three in Hperm.
  unfold buildPayloads, exampleRecord.
  cbn -[truncateMsg exampleBody len Z.min String.prefix Z.le]. rewrite Hparse.
  destruct Hperm as [-> | [-> | [-> | [-> | [-> | ->]]]]];
    cbn -[truncateMsg len Z.min String.prefix Z.le]; rewrite Hparse;
    cbn -[truncateMsg len Z.min String.prefix Z.le];
    (eexists; split; [reflexivity |]);
    (split; [eexists; reflexivity |]);
    (split;
     [do 2 eexists; split; [reflexivity |]; split; [reflexivity |];
      split; [apply truncateMsg_prefix |];
      split; [apply truncateMsg_len | apply truncateMsg_short] |]);
    (split; [eexists; repeat split |]);
    (do 2 eexists; repeat split).
Qed.

End ExampleTheorem.

Lemma buildPayloads_example_witness :
  exists data,
    buildPayloads (RT := Sample.world)
      [exampleRecord "platform.report" exampleFields] Sample.inflating "req-1" = Ok data /\
    (exists event, collection data "events" = [event]) /\
    (exists log msg,
        collection data "logging" = [log] /\
        lookup "message" log = Some (VString msg) /\
        String.prefix msg (fmt_Sprint (Runtime := Sample.world) (exampleBody exampleFields))
        = true /\
        len msg
        = Z.min (len (fmt_Sprint (Runtime := Sample.world) (exampleBody exampleFields)))
            14094 /\
        (len (fmt_Sprint (Runtime := Sample.world) (exampleBody exampleFields)) <= 14094 ->
         msg = fmt_Sprint (Runtime := Sample.world) (exampleBody exampleFields))) /\
    (exists metric,
        collection data "metrics" = [metric] /\
        lookup "name" metric = Some (VString "aws.telemetry.lambda_ext.duration") /\
        lookup "value" metric = Some (VFloat 120.5%float)) /\
    (exists span attributes,
        collection data "traces" = [span] /\
        lookup "attributes" span = Some (VMap attributes) /\
        lookup "duration.ms" attributes = Some (VFloat 5%float) /\
        lookup "name" attributes = Some (VString "seg1")).
Proof.
  apply (buildPayloads_example (RT := Sample.world) Sample.inflating "req-1"
           "platform.report" exampleFields 1704067200000).
  - reflexivity.
  - apply Permutation_refl.
Defined.

(** ** The delivery client *)

Section DeliveryTheorems.

Context {Buffer : Type} {RT : Runtime Buffer}.

(** C8, as amended.  For every delivery call whose request can be
    constructed exactly one HTTP attempt is made, with no retry: a
    transport failure yields an error; a response with status code >= 300
    yields an error, which carries the response status and the response
    body when the body can be read and is the read error otherwise; any
    other response yields success.  When the request cannot be constructed
    the construction error is returned and no attempt is made. *)
Theorem sendData_one_attempt :
  forall (d : Dispatcher) (uri dataType : string) (body : Buffer),
    (forall err,
        http_NewRequest "POST" uri = Some err ->
        sendData d uri dataType body = ([], Err err)) /\
    (http_NewRequest "POST" uri = None ->
     exists req,
       fst (sendData d uri dataType body) = [req] /\
       req_method req = "POST" /\ req_uri req = uri /\ req_body req = body /\
       (forall e,
           snd (httpClient d req) = Some e ->
           snd (sendData d uri dataType body)
           = Err ("[telemetryApi:sendBatch] Telemetry client error: " ++ e)) /\
       (forall r,
           httpClient d req = (Some r, None) -> 300 <= StatusCode r ->
           (forall b,
               Body r = inr b ->
               snd (sendData d uri dataType body)
               = Err ("[telemtryApi:sendBatch] Telemetry client response: ["
                      ++ Status r ++ "] " ++ sprintBytes b)) /\
           (forall e,
               Body r = inl e -> snd (sendData d uri dataType body) = Err e)) /\
       (forall r,
           httpClient d req = (Some r, None) -> StatusCode r < 300 ->
           snd (sendData d uri dataType body) = Ok tt)).
Proof.
  intros d uri dataType body. unfold sendData. split.
  - intros err H. rewrite H. reflexivity.
  - intros H. rewrite H. eexists. split; [reflexivity |].
    cbn [fst snd req_method req_uri req_body].
    split; [reflexivity |]. split; [reflexivity |]. split; [reflexivity |].
    split; [| split].
    + intros e He. unfold detecteErrorSendingBatch. rewrite He. reflexivity.
    + intros r Hr Hge. rewrite Hr. cbn [fst snd]. unfold detecteErrorSendingBatch.
      destruct (Z.geb_spec (StatusCode r) 300) as [_ | Hlt]; [| lia].
      split; [intros b Hb; rewrite Hb | intros e He; rewrite He]; reflexivity.
    + intros r Hr Hlt. rewrite Hr. cbn [fst snd]. unfold detecteErrorSendingBatch.
      destruct (Z.geb_spec (StatusCode r) 300) as [Hge | _]; [lia | reflexivity].
Qed.

End DeliveryTheorems.

Lemma sendData_one_attempt_witness :
  exists req,
    fst (sendData (RT := Sample.world) Sample.inflating LogEndpointUS "logging"
           {| Sample.payload := []; Sample.padding := 0 |}) = [req] /\
    snd (sendData (RT := Sample.world) Sample.inflating LogEndpointUS "logging"
           {| Sample.payload := []; Sample.padding := 0 |}) = Ok tt.
Proof.
  destruct (sendData_one_attempt (RT := Sample.world) Sample.inflating LogEndpointUS "logging"
              {| Sample.payload := []; Sample.padding := 0 |}) as [_ H].
  destruct H as (req & Hreq & _ & _ & _ & _ & _ & Hok); [reflexivity |].
  exists req. split; [exact Hreq |].
  apply (Hok Sample.accepted).
  - injection Hreq as <-. reflexivity.
  - reflexivity.
Defined.

(** C8, as stated, fails twice.  A response with status 500 whose body
    cannot be read yields the read error, which carries neither the status
    nor a body; and a delivery to the events endpoint of an account
    identifier that ends in a line feed returns the error of the request
    constructor without any HTTP attempt. *)
Lemma sendData_unread_body_and_unbuilt_request :
  (detecteErrorSendingBatch (Some Sample.brokenBody) None = Err "unexpected EOF" /\
   Contains "unexpected EOF" "500" = false)
  /\
  (exists err,
      sendData (RT := Sample.world) Sample.inflating
        (EventsEndpointUS ++ Sample.accountWithNewline ++ "/events") "events"
        {| Sample.payload := []; Sample.padding := 0 |}
      = ([], Err err)).
Proof.
  split.
  - split; reflexivity.
  - eexists. reflexivity.
Qed.

(** ** The dispatcher *)

Section DispatcherFacts.

Context {Buffer : Type} {RT : Runtime Buffer}.

Local Abbreviation Flight := (@Flight Buffer) (only parsing).
Local Abbreviation Task := (@Task Buffer) (only parsing).
Local Abbreviation step := (@step Buffer) (only parsing).
Local Abbreviation Dispatcher := (@Dispatcher Buffer) (only parsing).

Lemma launchLogs_spec (d : Dispatcher) (logPayloads : list Buffer) :
  forall rest fl,
    launchLogs d logPayloads rest fl =
    {| wg := wg fl + Z.of_nat (List.length rest) * Z.of_nat (List.length logPayloads);
       launched := (launched fl ++ map (logTask d) rest)%list;
       warnings := warnings fl |}.
Proof.
  induction rest as [| p rest IH]; intros fl.
  - destruct fl as [w l ws]. simpl. f_equal; [lia | symmetry; apply app_nil_r].
  - cbn [launchLogs]. rewrite IH. unfold go, wgAdd.
    cbn -[Z.mul Z.add Z.of_nat]. rewrite Nat2Z.inj_succ.
    f_equal; [lia | rewrite <- app_assoc; reflexivity].
Qed.

Lemma launchEvents_spec (d : Dispatcher) :
  forall (eventPayloads : list Buffer) (fl : Flight),
    launchEvents d eventPayloads fl =
    {| wg := wg fl;
       launched := (launched fl ++ map (eventTask d) eventPayloads)%list;
       warnings := warnings fl |}.
Proof.
  induction eventPayloads as [| p rest IH]; intros fl.
  - destruct fl as [w l ws]. simpl. f_equal. symmetry. apply app_nil_r.
  - cbn [launchEvents]. rewrite IH. unfold go. simpl.
    f_equal. rewrite <- app_assoc. reflexivity.
Qed.

(** *** How the steps compose *)

Lemma andThen_fst (P : Flight -> Prop) (r : step) (k : Flight -> step) :
  P (fst r) -> (forall fl, P fl -> P (fst (k fl))) -> P (fst (andThen r k)).
Proof.
  intros Hr Hk. unfold andThen. destruct (snd r); auto.
Qed.

Lemma andThen_step (P : step -> Prop) (r : step) (k : Flight -> step) :
  (snd r = Ok tt \/ (snd r = OutOfFuel /\ P r)) ->
  (forall fl, P (k fl)) -> P (andThen r k).
Proof.
  intros [Hr | [Hr HP]] Hk; unfold andThen; rewrite Hr; auto.
Qed.

(** *** What the goroutines leave on the channel *)

Lemma runTask_sent (d : Dispatcher) (t : Task) :
  (exists sent,
      runTask d t = Ok sent /\
      List.length sent = (if failed d t then 1 else 0)%nat) \/
  runTask d t = Panic.
Proof.
  unfold runTask, failed, sendData.
  destruct (http_NewRequest "POST" (task_uri t)); cbn [snd]; [eauto |].
  unfold detecteErrorSendingBatch.
  destruct (snd (httpClient d _)); [eauto |].
  destruct (fst (httpClient d _)) as [response |]; [| auto].
  destruct (StatusCode response >=? 300); [| eauto].
  destruct (Body response); eauto.
Qed.

Lemma runTasks_sent (d : Dispatcher) (tasks : list Task) :
  (exists sent,
      runTasks d tasks = Ok sent /\ List.length sent = failures d tasks) \/
  runTasks d tasks = Panic.
Proof.
  unfold failures. induction tasks as [| t rest IH]; simpl.
  - left. exists []. split; reflexivity.
  - destruct (runTask_sent d t) as [(s1 & E1 & L1) | E1];
      rewrite E1; simpl; auto.
    destruct IH as [(s2 & E2 & L2) | E2]; rewrite E2; simpl; auto.
    left. eexists. split; [reflexivity |].
    rewrite length_app, L1, L2. destruct (failed d t); reflexivity.
Qed.

Lemma failures_Permutation (d : Dispatcher) (l l' : list Task) :
  Permutation l l' -> failures d l = failures d l'.
Proof.
  unfold failures. induction 1 as [| t l l' _ IH | t u l | l l' l'' _ IH1 _ IH2]; simpl.
  - reflexivity.
  - destruct (failed d t); simpl; congruence.
  - destruct (failed d t), (failed d u); reflexivity.
  - congruence.
Qed.

Lemma drain_shape (err : error) (errChan : list (option error)) :
  forall i, drain err i errChan = Ok tt \/ drain err i errChan = Panic.
Proof.
  induction errChan as [| x rest IH]; intros i; simpl; auto.
  destruct (i <? S (List.length rest))%nat; auto.
  destruct x; auto.
Qed.

(** What [collect] returns says how many deliveries failed. *)
Lemma collect_returns (completion : list Task -> list Task) (d : Dispatcher) (fl : Flight) :
  (forall l, Permutation (completion l) l) ->
  (collect completion d fl = Ok tt -> failures d (launched fl) = 0%nat) /\
  (forall e,
      collect completion d fl = Err e ->
      (0 < failures d (launched fl))%nat /\
      e = aggregateError (failures d (launched fl))).
Proof.
  intros Hperm. unfold collect, await.
  rewrite <- (failures_Permutation d _ _ (Hperm (launched fl))).
  destruct (runTasks_sent d (completion (launched fl)))
    as [(sent & E & L) | E]; rewrite E; simpl;
    try (split; [discriminate | intros e H; discriminate]).
  destruct (wg fl <? Z.of_nat (List.length (launched fl))); simpl;
    [split; [discriminate | intros e H; discriminate] |].
  destruct (Z.of_nat (List.length (launched fl)) <? wg fl); simpl;
    [split; [discriminate | intros e H; discriminate] |].
  destruct (errChanCap <? List.length sent)%nat; simpl;
    [split; [discriminate | intros e H; discriminate] |].
  rewrite <- L. destruct sent as [| x sent].
  - split; [reflexivity | intros e H; discriminate].
  - change (0 <? List.length (x :: sent))%nat with true. cbv iota.
    destruct (drain_shape (aggregateError (List.length (x :: sent))) (x :: sent) 0)
      as [D | D]; rewrite D; simpl.
    + split; [discriminate |]. intros e H. injection H as <-. split; [lia | reflexivity].
    + split; [discriminate | intros e H; discriminate].
Qed.

Lemma collect_takeoff (completion : list Task -> list Task) (d : Dispatcher) :
  (forall l, Permutation (completion l) l) ->
  collect completion d takeoff = Ok tt.
Proof.
  intros Hperm. unfold collect, await. simpl.
  rewrite (Permutation_nil (Permutation_sym (Hperm []))). reflexivity.
Qed.

End DispatcherFacts.

Section CycleFacts.

Context {Buffer : Type} {RT : Runtime Buffer}.

Local Abbreviation Flight := (@Flight Buffer) (only parsing).
Local Abbreviation Task := (@Task Buffer) (only parsing).
Local Abbreviation step := (@step Buffer) (only parsing).
Local Abbreviation Dispatcher := (@Dispatcher Buffer) (only parsing).

(** A bisection returns chunks, returns an error of its encoder, or runs
    out of budget. *)
Lemma bisect_shape (Rec : Type) (encode : list Rec -> error + Buffer) (limit : Z)
  (fuel : nat) :
  forall data,
    (exists chunks, bisect Rec encode limit fuel data = Ok chunks) \/
    (exists e l, bisect Rec encode limit fuel data = Err e /\ encode l = inl e) \/
    bisect Rec encode limit fuel data = OutOfFuel.
Proof.
  induction fuel as [| fuel IH]; intros data; [right; right; reflexivity |].
  rewrite bisect_S. destruct (encode data) as [err | compressed] eqn:Eenc.
  - right. left. eauto.
  - destruct (Len compressed <=? limit); [left; eauto |].
    destruct (IH (firstn (List.length data / 2) data))
      as [(c1 & E1) | [(e & l & E1 & El) | E1]]; rewrite E1; cbn [bind]; eauto 6.
    destruct (IH (skipn (List.length data / 2) data))
      as [(c2 & E2) | [(e & l & E2 & El) | E2]]; rewrite E2; cbn [bind]; eauto 6.
Qed.

Section TotalCompressor.

Variable d : Dispatcher.
Hypothesis compress_total : forall b, exists c, compressTool d b = inr c.

Lemma split_total (fuel : nat) (data : list JMap) (dataType : string) :
  (exists chunks,
      marshalAndCompressData JMap marshalRecords fuel d data dataType = Ok chunks) \/
  marshalAndCompressData JMap marshalRecords fuel d data dataType = OutOfFuel.
Proof.
  rewrite marshalAndCompressData_bisect.
  destruct (bisect_shape JMap (encodeRecords JMap marshalRecords d) maxPayloadSizeBytes
              fuel data) as [H | [(e & l & _ & El) | H]]; auto.
  unfold encodeRecords in El.
  destruct (compress_total (marshalled JMap marshalRecords l)) as [c Ec].
  congruence.
Qed.

Lemma sendLogs_step (fuel : nat) (data : Payloads) (fl : Flight) :
  snd (sendLogs fuel d data fl) = Ok tt \/ snd (sendLogs fuel d data fl) = OutOfFuel.
Proof.
  unfold sendLogs. destruct (0 <? _)%nat; [| left; reflexivity].
  destruct (split_total fuel (collection data "logging") "logging") as [[c E] | E];
    rewrite E; simpl; auto.
Qed.

Lemma sendMetrics_step (data : Payloads) (fl : Flight) :
  snd (sendMetrics d data fl) = Ok tt.
Proof.
  unfold sendMetrics. destruct (0 <? _)%nat; [| reflexivity].
  match goal with
  | |- context [compressTool d ?b] => destruct (compress_total b) as [c E]; rewrite E
  end.
  reflexivity.
Qed.

Lemma sendEvents_step (fuel : nat) (data : Payloads) (fl : Flight) :
  snd (sendEvents fuel d data fl) = Ok tt \/ snd (sendEvents fuel d data fl) = OutOfFuel.
Proof.
  unfold sendEvents. destruct (0 <? _)%nat; [| left; reflexivity].
  destruct (0 <? len (accountID d)); [| left; reflexivity].
  destruct (split_total fuel (collection data "events") "logging") as [[c E] | E];
    rewrite E; simpl; auto.
Qed.

Lemma sendTraces_step (data : Payloads) (fl : Flight) :
  snd (sendTraces d data fl) = Ok tt.
Proof.
  unfold sendTraces. destruct (0 <? _)%nat; [| reflexivity].
  match goal with
  | |- context [compressTool d ?b] => destruct (compress_total b) as [c E]; rewrite E
  end.
  reflexivity.
Qed.

(** With a compressor that does not fail, a cycle whose payloads were built
    ends in [collect] on everything it launched, unless a splitter ran out
    of budget. *)
Lemma cycle_end (fuel : nat) (completion : list Task -> list Task)
  (logEntries : list LogEntry) (RequestID : string) (data : Payloads) :
  (forall l, Permutation (completion l) l) ->
  buildPayloads logEntries d RequestID = Ok data ->
  snd (sendDataToNR fuel completion logEntries d RequestID) = OutOfFuel \/
  snd (sendDataToNR fuel completion logEntries d RequestID)
  = collect completion d (fst (sendDataToNR fuel completion logEntries d RequestID)).
Proof.
  intros Hperm Hbuild. unfold sendDataToNR. rewrite Hbuild.
  destruct (0 <? List.length data)%nat;
    [| right; simpl; symmetry; apply collect_takeoff; exact Hperm].
  set (P := fun r : step => snd r = OutOfFuel \/ snd r = collect completion d (fst r)).
  change (P (andThen (sendLogs fuel d data takeoff) (fun fl =>
             andThen (sendMetrics d data fl) (fun fl =>
             andThen (sendEvents fuel d data fl) (fun fl =>
             andThen (sendTraces d data fl) (fun fl =>
             (fl, collect completion d fl))))))).
  apply andThen_step.
  { destruct (sendLogs_step fuel data takeoff) as [H | H]; [left | right; split; [| left]]; exact H. }
  intros fl1. apply andThen_step; [left; apply sendMetrics_step |].
  intros fl2. apply andThen_step.
  { destruct (sendEvents_step fuel data fl2) as [H | H]; [left | right; split; [| left]]; exact H. }
  intros fl3. apply andThen_step; [left; apply sendTraces_step |].
  intros fl4. right. reflexivity.
Qed.

End TotalCompressor.

(** *** Nothing is launched for events without an account *)

Lemma fst_stopWith {A : Type} (fl : Flight) (r : outcome A) : fst (stopWith fl r) = fl.
Proof. reflexivity. Qed.

Lemma noEventTask_app (fl : Flight) (w : Z) (ws : list string) (tasks : list Task) :
  noEventTask fl ->
  Forall (fun t => task_type t <> "events") tasks ->
  noEventTask {| wg := w; launched := (launched fl ++ tasks)%list; warnings := ws |}.
Proof.
  intros H1 H2. unfold noEventTask. simpl. apply Forall_app. split; assumption.
Qed.

Lemma sendLogs_noEventTask (fuel : nat) (d : Dispatcher) (data : Payloads) (fl : Flight) :
  noEventTask fl -> noEventTask (fst (sendLogs fuel d data fl)).
Proof.
  intros H. unfold sendLogs. destruct (0 <? _)%nat; [| exact H].
  destruct (marshalAndCompressData _ _ _ _ _ _) as [ps | e | | | ]; try exact H.
  simpl. rewrite launchLogs_spec. apply noEventTask_app; [exact H |].
  apply Forall_forall. intros t Hin. apply in_map_iff in Hin.
  destruct Hin as (p & <- & _). discriminate.
Qed.

Lemma sendMetrics_noEventTask (d : Dispatcher) (data : Payloads) (fl : Flight) :
  noEventTask fl -> noEventTask (fst (sendMetrics d data fl)).
Proof.
  intros H. unfold sendMetrics. destruct (0 <? _)%nat; [| exact H].
  destruct (compressTool d _); simpl; [exact H |].
  apply noEventTask_app; [exact H |].
  constructor; [discriminate | constructor].
Qed.

Lemma sendEvents_without_account (fuel : nat) (d : Dispatcher) (data : Payloads) (fl : Flight) :
  accountID d = "" ->
  sendEvents fuel d data fl =
  (if (0 <? List.length (collection data "events"))%nat
   then warn "[telemetryApi:sendDataToNR] NEW_RELIC_ACCOUNT_ID is not set, therefore no events data sent" fl
   else fl,
   Ok tt).
Proof.
  intros H. unfold sendEvents. rewrite H.
  destruct (0 <? _)%nat; reflexivity.
Qed.

Lemma sendTraces_noEventTask (d : Dispatcher) (data : Payloads) (fl : Flight) :
  noEventTask fl -> noEventTask (fst (sendTraces d data fl)).
Proof.
  intros H. unfold sendTraces. destruct (0 <? _)%nat; [| exact H].
  destruct (compressTool d _); simpl; [exact H |].
  apply noEventTask_app; [exact H |].
  constructor; [discriminate | constructor].
Qed.

Lemma sendTraces_warnings (d : Dispatcher) (data : Payloads) (fl : Flight) :
  warnings (fst (sendTraces d data fl)) = warnings fl.
Proof.
  unfold sendTraces. destruct (0 <? _)%nat; [| reflexivity].
  destruct (compressTool d _); reflexivity.
Qed.

Lemma sendLogs_warnings (fuel : nat) (d : Dispatcher) (data : Payloads) (fl : Flight) :
  warnings (fst (sendLogs fuel d data fl)) = warnings fl.
Proof.
  unfold sendLogs. destruct (0 <? _)%nat; [| reflexivity].
  destruct (marshalAndCompressData _ _ _ _ _ _) as [ps | e | | | ]; try reflexivity.
  cbn [fst]. rewrite launchLogs_spec. reflexivity.
Qed.

Lemma sendMetrics_warnings (d : Dispatcher) (data : Payloads) (fl : Flight) :
  warnings (fst (sendMetrics d data fl)) = warnings fl.
Proof.
  unfold sendMetrics. destruct (0 <? _)%nat; [| reflexivity].
  destruct (compressTool d _); reflexivity.
Qed.

Lemma outcome_unit_cases (o : outcome unit) : o = Ok tt \/ o <> Ok tt.
Proof.
  destruct o as [[] | e | | | ]; [left; reflexivity | right; discriminate ..].
Qed.

Lemma andThen_not_Ok (r : step) (k : Flight -> step) :
  snd r <> Ok tt -> andThen r k = r.
Proof.
  intro H. unfold andThen. destruct (snd r) as [[] | e | | | ]; try reflexivity.
  exfalso. apply H. reflexivity.
Qed.

Lemma andThen_Ok (r : step) (k : Flight -> step) :
  snd r = Ok tt -> andThen r k = k (fst r).
Proof. intro H. unfold andThen. rewrite H. reflexivity. Qed.

Lemma andThen_OutOfFuel (r : step) (k : Flight -> step) :
  snd r = OutOfFuel -> andThen r k = r.
Proof. intro H. unfold andThen. rewrite H. reflexivity. Qed.

End CycleFacts.


(** *** The builder up to the first timestamp that fails to parse *)

Section FirstFailureFacts.

Context {Buffer : Type} {RT : Runtime Buffer}.

Local Abbreviation Dispatcher := (@Dispatcher Buffer) (only parsing).

Lemma isErr_false {A B : Type} (r : A + B) : isErr r = false -> exists b, r = inr b.
Proof.
  destruct r as [a | b]; [discriminate | eauto].
Qed.

Lemma spanFields_app :
  forall good attributes start,
    cleanFields good ->
    exists attributes' start',
      forall rest,
        spanFields (good ++ rest)%list attributes start = spanFields rest attributes' start'.
Proof.
  unfold cleanFields, badStart.
  induction good as [| [key v] good IH]; intros attributes start [Ht Hb].
  - exists attributes, start. reflexivity.
  - cbn [forallb] in Ht. apply andb_prop in Ht. destruct Ht as [Ht1 Ht2].
    cbn [existsb fst snd] in Hb. apply orb_false_elim in Hb. destruct Hb as [Hb1 Hb2].
    unfold fieldTyped in Ht1. cbn [fst snd] in Ht1.
    cbn [app spanFields].
    destruct (key =? "durationMs")%string.
    + destruct v; try discriminate Ht1. apply IH. split; assumption.
    + destruct v as [| s | f | n | m | l | m | tag | tag]; try discriminate Ht1.
      destruct (key =? "start")%string.
      * cbn [andb] in Hb1. apply isErr_false in Hb1. destruct Hb1 as [t ->].
        apply IH. split; assumption.
      * apply IH. split; assumption.
Qed.

Lemma spanFields_bad_start (good rest : JMap) (s : string) (err : error)
  (attributes : JMap) (start : Z) :
  cleanFields good ->
  time_Parse s = inl err ->
  spanFields (good ++ ("start", VString s) :: rest)%list attributes start = Err err.
Proof.
  intros Hgood Hparse.
  destruct (spanFields_app good attributes start Hgood) as (a & t & ->).
  cbn [spanFields String.eqb Ascii.eqb Bool.eqb]. rewrite Hparse. reflexivity.
Qed.

Lemma buildSpans_app (typ rid extension_name : string) :
  forall good data ids,
    cleanSpans good ->
    exists data' ids',
      forall rest,
        buildSpans typ rid extension_name (good ++ rest)%list data ids
        = buildSpans typ rid extension_name rest data' ids'.
Proof.
  unfold cleanSpans.
  induction good as [| span good IH]; intros data ids [Ht Hb].
  - exists data, ids. reflexivity.
  - cbn [forallb] in Ht. apply andb_prop in Ht. destruct Ht as [Ht1 Ht2].
    cbn [existsb] in Hb. apply orb_false_elim in Hb. destruct Hb as [Hb1 Hb2].
    destruct span as [| s | f | n | fields | l | m | tag | tag]; try discriminate Ht1.
    cbn [spanTyped badSpan] in Ht1, Hb1. cbn [app buildSpans].
    destruct (spanFields_app fields
                (assign "service.name" (VString extension_name)
                   (assign "event" (VString typ) [])) zeroTimeUnixMilli
                (conj Ht1 Hb1)) as (a & t & Hf).
    specialize (Hf []). rewrite app_nil_r in Hf. rewrite Hf. cbn [spanFields bind fst snd].
    apply IH. split; assumption.
Qed.

Lemma buildSpans_bad_start (typ rid extension_name : string)
  (goodSpans restSpans : list Value) (goodFields restFields : JMap) (s : string)
  (err : error) (data : Payloads) (ids : nat) :
  cleanSpans goodSpans ->
  cleanFields goodFields ->
  time_Parse s = inl err ->
  buildSpans typ rid extension_name
    (goodSpans ++ VMap (goodFields ++ ("start", VString s) :: restFields) :: restSpans)%list
    data ids
  = Err err.
Proof.
  intros Hspans Hfields Hparse.
  destruct (buildSpans_app typ rid extension_name goodSpans data ids Hspans)
    as (data' & ids' & ->).
  cbn [buildSpans]. rewrite (spanFields_bad_start _ _ _ _ _ _ Hfields Hparse).
  reflexivity.
Qed.

Lemma buildEvent_clean (d : Dispatcher) (RequestID : string) (event : LambdaTelemetryEvent)
  (msInt : Z) (data : Payloads) (ids : nat) :
  recordTyped (ev_Record event) = true ->
  existsb badSpan (spansOf (ev_Record event)) = false ->
  exists r, buildEvent d RequestID event msInt data ids = Ok r.
Proof.
  intros Ht Hb. unfold buildEvent.
  destruct (ev_Record event) as [| s | f | n | eventRecord | l | m | tag | tag];
    cbn [notNil kindIsMap]; try discriminate Ht; eauto.
  cbn [recordTyped spansOf] in Ht, Hb.
  destruct (lookup "spans" eventRecord) as [[| s | f | n | m | val | m | tag | tag] |]; eauto.
  match goal with
  | |- context [buildSpans ?t ?r ?x val ?dt ids] =>
    destruct (buildSpans_app t r x val dt ids (conj Ht Hb)) as (data' & ids' & Hs)
  end.
  specialize (Hs []). rewrite app_nil_r in Hs. rewrite Hs. cbn [buildSpans]. eauto.
Qed.

Lemma buildLoop_app (d : Dispatcher) (RequestID : string) :
  forall good data ids,
    clean good ->
    exists data' ids',
      forall rest,
        buildLoop d RequestID (good ++ rest)%list data ids
        = buildLoop d RequestID rest data' ids'.
Proof.
  unfold clean, wellTyped, anyBadTime.
  induction good as [| e good IH]; intros data ids [Ht Hb].
  - exists data, ids. reflexivity.
  - cbn [forallb] in Ht. apply andb_prop in Ht. destruct Ht as [Ht1 Ht2].
    cbn [existsb] in Hb. apply orb_false_elim in Hb. destruct Hb as [Hb1 Hb2].
    destruct e as [event | v]; [| discriminate Ht1].
    cbn [entryTyped badTime] in Ht1, Hb1.
    apply orb_false_elim in Hb1. destruct Hb1 as [Hb0 Hb1].
    apply isErr_false in Hb0. destruct Hb0 as [msInt Hparse].
    cbn [app buildLoop]. rewrite Hparse.
    destruct (buildEvent_clean d RequestID event msInt data ids Ht1 Hb1) as [r ->].
    cbn [bind]. apply IH. split; assumption.
Qed.

(** At the first timestamp that fails to parse the builder returns the
    error of the parse. *)
Lemma buildPayloads_first_failure (logEntries : list LogEntry) (d : Dispatcher)
  (RequestID : string) (err : error) :
  firstFailure logEntries err ->
  buildPayloads logEntries d RequestID = Err err.
Proof.
  intros (good & e & rest & -> & Hgood & Hfail). unfold buildPayloads.
  match goal with
  | |- buildLoop d RequestID _ ?dt ?i = _ =>
    destruct (buildLoop_app d RequestID good dt i Hgood) as (data' & ids' & ->)
  end.
  destruct Hfail as [(event & -> & Hparse) | Hstart].
  - cbn [buildLoop]. rewrite Hparse. reflexivity.
  - destruct Hstart as (event & eventRecord & goodSpans & goodFields & s & restFields
                        & restSpans & -> & Htime & Hrec & Hspans & Hgs & Hgf & Hparse).
    apply isErr_false in Htime. destruct Htime as [msInt Htime].
    cbn [buildLoop]. rewrite Htime. unfold buildEvent. rewrite Hrec.
    cbn [notNil kindIsMap]. rewrite Hspans.
    rewrite (buildSpans_bad_start _ _ _ _ _ _ _ _ _ _ _ Hgs Hgf Hparse). reflexivity.
Qed.

End FirstFailureFacts.

Section CycleTheorems.

Context {Buffer : Type} {RT : Runtime Buffer}.

Local Abbreviation Flight := (@Flight Buffer) (only parsing).
Local Abbreviation Task := (@Task Buffer) (only parsing).
Local Abbreviation Dispatcher := (@Dispatcher Buffer) (only parsing).

(** C2 (what the code does).  The loop over the [k] compressed log chunks
    calls [waitForSend.Add(len(logPayloads))] in every iteration: it starts
    [k] goroutines and adds [k * k] to the counter.  When the counter
    agreed with the goroutines before the loop and [k > 1], the counter
    never comes back to zero: the wait blocks for ever (or the process dies
    of a panic in a goroutine). *)
Theorem log_loop_adds_k_per_chunk :
  forall (d : Dispatcher) (logPayloads : list Buffer) (fl : Flight)
         (completion : list Task -> list Task),
    wg (launchLogs d logPayloads logPayloads fl)
    = wg fl + Z.of_nat (List.length logPayloads) * Z.of_nat (List.length logPayloads) /\
    List.length (launched (launchLogs d logPayloads logPayloads fl))
    = (List.length (launched fl) + List.length logPayloads)%nat /\
    (wg fl = Z.of_nat (List.length (launched fl)) ->
     (1 < List.length logPayloads)%nat ->
     await completion d (launchLogs d logPayloads logPayloads fl) = Blocked \/
     await completion d (launchLogs d logPayloads logPayloads fl) = Panic).
Proof.
  intros d logPayloads fl completion. rewrite launchLogs_spec. cbn [wg launched].
  split; [reflexivity |]. split; [rewrite length_app, length_map; reflexivity |].
  intros Hwg Hk. unfold await. cbn [wg launched].
  destruct (runTasks_sent d (completion (launched fl ++ map (logTask d) logPayloads)%list))
    as [(sent & E & _) | E]; rewrite E; cbn [bind]; [| right; reflexivity].
  rewrite length_app, length_map, Hwg.
  destruct (Z.ltb_spec
              (Z.of_nat (List.length (launched fl))
               + Z.of_nat (List.length logPayloads) * Z.of_nat (List.length logPayloads))
              (Z.of_nat (List.length (launched fl) + List.length logPayloads)))
    as [Hlt | _]; [nia |].
  destruct (Z.ltb_spec
              (Z.of_nat (List.length (launched fl) + List.length logPayloads))
              (Z.of_nat (List.length (launched fl))
               + Z.of_nat (List.length logPayloads) * Z.of_nat (List.length logPayloads)))
    as [_ | Hge]; [left; reflexivity | nia].
Qed.

(** The loop over the event chunks adds to the counter once, before it
    starts its goroutines. *)
Lemma event_loop_adds_once (d : Dispatcher) (eventPayloads : list Buffer) (fl : Flight) :
  wg (launchEvents d eventPayloads (wgAdd (Z.of_nat (List.length eventPayloads)) fl))
  = wg fl + Z.of_nat (List.length eventPayloads) /\
  List.length (launched (launchEvents d eventPayloads
                           (wgAdd (Z.of_nat (List.length eventPayloads)) fl)))
  = (List.length (launched fl) + List.length eventPayloads)%nat.
Proof.
  rewrite launchEvents_spec. cbn [wg launched wgAdd].
  split; [reflexivity | rewrite length_app, length_map; reflexivity].
Qed.

(** C5, as amended.  If a record's primary timestamp, or the start of one
    of its spans, fails to parse as RFC 3339, [buildPayloads] returns no
    payloads, and [sendDataToNR] starts no delivery and makes no HTTP
    request.  When everything the builder visits before the first timestamp
    that fails to parse passes its type assertions (in particular on input
    that passes them all), [buildPayloads] returns the error of that parse,
    and [sendDataToNR] returns that error. *)
Theorem bad_timestamp_aborts_cycle :
  forall (logEntries : list LogEntry) (d : Dispatcher) (RequestID : string),
    anyBadTime logEntries = true ->
    (forall data, buildPayloads logEntries d RequestID <> Ok data) /\
    (forall fuel completion,
        launched (fst (sendDataToNR fuel completion logEntries d RequestID)) = [] /\
        deliveries d (fst (sendDataToNR fuel completion logEntries d RequestID)) = []) /\
    (wellTyped logEntries = true ->
     exists e,
       buildPayloads logEntries d RequestID = Err e /\
       forall fuel completion,
         sendDataToNR fuel completion logEntries d RequestID = (takeoff, Err e)) /\
    (forall err,
        firstFailure logEntries err ->
        buildPayloads logEntries d RequestID = Err err /\
        forall fuel completion,
          sendDataToNR fuel completion logEntries d RequestID = (takeoff, Err err)).
Proof.
  intros logEntries d RequestID Hbad.
  destruct (buildPayloads_spec logEntries d RequestID) as (Hb & Ht & _ & Hx).
  specialize (Hx Hbad).
  assert (Hnone : forall fuel completion,
             fst (sendDataToNR fuel completion logEntries d RequestID) = takeoff).
  { intros fuel completion. unfold sendDataToNR.
    destruct (buildPayloads logEntries d RequestID); try discriminate; reflexivity. }
  split; [| split; [| split]].
  - intros data H. rewrite H in Hx. discriminate.
  - intros fuel completion. unfold deliveries. rewrite Hnone. split; reflexivity.
  - intros Htyped. specialize (Ht Htyped). unfold sendDataToNR.
    destruct (buildPayloads logEntries d RequestID) as [data | e | | | ];
      simpl in Hb; try discriminate; try contradiction; try congruence.
    exists e. split; reflexivity.
  - intros err Hfirst.
    pose proof (buildPayloads_first_failure logEntries d RequestID err Hfirst) as Herr.
    split; [exact Herr |].
    intros fuel completion. unfold sendDataToNR. rewrite Herr. reflexivity.
Qed.


(** C9, as amended.  With an empty account identifier: the events step of
    the cycle starts nothing, adds nothing to the counter, logs the warning
    when the events collection is not empty, and goes on without an error;
    no cycle starts a delivery of events; a cycle whose built events
    collection is not empty has logged the warning exactly when the call
    got to the events step, that is when neither the logs step nor the
    metrics step ended it; and when no compression and no delivery fails
    the cycle does not return an error. *)
Theorem events_skipped_without_account :
  forall (fuel : nat) (completion : list Task -> list Task)
         (logEntries : list LogEntry) (d : Dispatcher) (RequestID : string),
    accountID d = "" ->
    (forall data fl,
        collection data "events" <> [] ->
        sendEvents fuel d data fl
        = (warn "[telemetryApi:sendDataToNR] NEW_RELIC_ACCOUNT_ID is not set, therefore no events data sent" fl,
           Ok tt)) /\
    Forall (fun t => task_type t <> "events")
      (launched (fst (sendDataToNR fuel completion logEntries d RequestID))) /\
    (forall data,
        buildPayloads logEntries d RequestID = Ok data ->
        collection data "events" <> [] ->
        (In "[telemetryApi:sendDataToNR] NEW_RELIC_ACCOUNT_ID is not set, therefore no events data sent"
            (warnings (fst (sendDataToNR fuel completion logEntries d RequestID)))
         <-> reachesEvents fuel d data)) /\
    ((forall l, Permutation (completion l) l) ->
     (forall b, exists c, compressTool d b = inr c) ->
     forall data,
       buildPayloads logEntries d RequestID = Ok data ->
       (collection data "events" <> [] ->
        snd (sendDataToNR fuel completion logEntries d RequestID) <> OutOfFuel ->
        In "[telemetryApi:sendDataToNR] NEW_RELIC_ACCOUNT_ID is not set, therefore no events data sent"
           (warnings (fst (sendDataToNR fuel completion logEntries d RequestID)))) /\
       (failures d (launched (fst (sendDataToNR fuel completion logEntries d RequestID))) = 0%nat ->
        forall e, snd (sendDataToNR fuel completion logEntries d RequestID) <> Err e)).
Proof.
  intros fuel completion logEntries d RequestID Hacc.
  split; [| split; [| split]].
  - intros data fl Hne. rewrite sendEvents_without_account by exact Hacc.
    destruct (collection data "events"); [congruence | reflexivity].
  - change (noEventTask (fst (sendDataToNR fuel completion logEntries d RequestID))).
    unfold sendDataToNR.
    destruct (buildPayloads logEntries d RequestID) as [data | e | | | ];
      try (simpl; constructor).
    destruct (0 <? List.length data)%nat; [| constructor].
    apply andThen_fst; [apply sendLogs_noEventTask; constructor |].
    intros fl1 H1. apply andThen_fst; [apply sendMetrics_noEventTask; exact H1 |].
    intros fl2 H2. apply andThen_fst;
      [rewrite sendEvents_without_account by exact Hacc;
       destruct (0 <? _)%nat; exact H2 |].
    intros fl3 H3. apply andThen_fst; [apply sendTraces_noEventTask; exact H3 |].
    intros fl4 H4. exact H4.
  - intros data Hbuild Hne. unfold reachesEvents, sendDataToNR. rewrite Hbuild.
    destruct (0 <? List.length data)%nat eqn:Hlen;
      [| destruct data; [exfalso; apply Hne; reflexivity | discriminate]].
    destruct (outcome_unit_cases (snd (sendLogs fuel d data takeoff))) as [E1 | E1].
    2: { rewrite (andThen_not_Ok _ _ E1). rewrite sendLogs_warnings.
         split; [intros [] | intros [H _]; contradiction]. }
    rewrite (andThen_Ok _ _ E1).
    destruct (outcome_unit_cases
                (snd (sendMetrics d data (fst (sendLogs fuel d data takeoff)))))
      as [E2 | E2].
    2: { rewrite (andThen_not_Ok _ _ E2). rewrite sendMetrics_warnings, sendLogs_warnings.
         split; [intros [] | intros [_ H]; contradiction]. }
    rewrite (andThen_Ok _ _ E2).
    split; [intros _; split; assumption | intros _].
    rewrite sendEvents_without_account by exact Hacc.
    destruct (collection data "events") as [| ev evs] eqn:Hev; [congruence |].
    cbn [List.length Nat.ltb Nat.leb].
    rewrite andThen_Ok by reflexivity. cbn [fst].
    apply (andThen_fst (fun fl => In _ (warnings fl))).
    + rewrite sendTraces_warnings. unfold warn. cbn [warnings].
      apply in_or_app. right. left. reflexivity.
    + intros fl H. exact H.
  - intros Hperm Htot data Hbuild. split.
    + intros Hne. unfold sendDataToNR. rewrite Hbuild.
      destruct (0 <? List.length data)%nat eqn:Hlen.
      * destruct (sendLogs_step d Htot fuel data takeoff) as [E1 | E1];
          [rewrite (andThen_Ok _ _ E1) | rewrite (andThen_OutOfFuel _ _ E1); congruence].
        rewrite (andThen_Ok _ _ (sendMetrics_step d Htot data _)).
        rewrite sendEvents_without_account by exact Hacc.
        destruct (collection data "events") as [| ev evs] eqn:Hev; [congruence |].
        cbn [List.length Nat.ltb Nat.leb].
        rewrite andThen_Ok by reflexivity. cbn [fst].
        rewrite (andThen_Ok _ _ (sendTraces_step d Htot data _)). cbn [fst].
        intros _. rewrite sendTraces_warnings. unfold warn. cbn [warnings].
        apply in_or_app. right. left. reflexivity.
      * destruct data; [| discriminate]. exfalso. apply Hne. reflexivity.
    + intros Hnone e H.
      destruct (cycle_end d Htot fuel completion logEntries RequestID data Hperm Hbuild)
        as [E | E]; rewrite E in H; [discriminate |].
      destruct (collect_returns completion d
                  (fst (sendDataToNR fuel completion logEntries d RequestID)) Hperm)
        as [_ HErr].
      destruct (HErr e H) as [Hpos _]. lia.
Qed.

End CycleTheorems.

Lemma log_loop_adds_k_per_chunk_witness :
  wg (launchLogs Sample.inflating Sample.twoChunks Sample.twoChunks takeoff)
  = 0 + 2 * 2 /\
  List.length
    (launched (launchLogs Sample.inflating Sample.twoChunks
                 Sample.twoChunks takeoff)) = (0 + 2)%nat /\
  (await (RT := Sample.world) Sample.inStartOrder Sample.inflating
     (launchLogs Sample.inflating Sample.twoChunks Sample.twoChunks takeoff)
   = Blocked \/
   await (RT := Sample.world) Sample.inStartOrder Sample.inflating
     (launchLogs Sample.inflating Sample.twoChunks Sample.twoChunks takeoff)
   = Panic).
Proof.
  destruct (log_loop_adds_k_per_chunk (RT := Sample.world) Sample.inflating
              Sample.twoChunks takeoff Sample.inStartOrder) as (Hwg & Hlaunched & Hwait).
  split; [exact Hwg |]. split; [exact Hlaunched |].
  apply Hwait; [reflexivity | simpl; lia].
Defined.

(** The cycle over two log records that do not fit one payload: two
    goroutines, a counter of four, and a wait that does not return. *)
Lemma two_log_chunks_block_the_cycle :
  snd Sample.twoChunkCycle = Blocked /\
  wg (fst Sample.twoChunkCycle) = 4 /\
  map task_type (launched (fst Sample.twoChunkCycle)) = ["logging"; "logging"].
Proof. split; [| split]; vm_compute; reflexivity. Qed.

Lemma bad_timestamp_aborts_cycle_witness :
  ((forall data,
       buildPayloads (RT := Sample.world) [Sample.undated] Sample.inflating "req-1" <> Ok data) /\
   (forall fuel completion,
       launched (fst (sendDataToNR (RT := Sample.world) fuel completion [Sample.undated]
                        Sample.inflating "req-1")) = [] /\
       deliveries (RT := Sample.world) Sample.inflating
         (fst (sendDataToNR (RT := Sample.world) fuel completion [Sample.undated]
                 Sample.inflating "req-1")) = []) /\
   (exists e,
       buildPayloads (RT := Sample.world) [Sample.undated] Sample.inflating "req-1" = Err e /\
       forall fuel completion,
         sendDataToNR (RT := Sample.world) fuel completion [Sample.undated]
           Sample.inflating "req-1" = (takeoff, Err e)))
  /\
  (exists e,
      buildPayloads (RT := Sample.world) [Sample.undated; Sample.rawLine]
        Sample.inflating "req-1" = Err e /\
      forall fuel completion,
        sendDataToNR (RT := Sample.world) fuel completion [Sample.undated; Sample.rawLine]
          Sample.inflating "req-1" = (takeoff, Err e))
  /\
  (exists e,
      buildPayloads (RT := Sample.world) [Sample.textEntry; SampleMore.badStartEntry]
        Sample.inflating "req-1" = Err e /\
      forall fuel completion,
        sendDataToNR (RT := Sample.world) fuel completion
          [Sample.textEntry; SampleMore.badStartEntry] Sample.inflating "req-1"
        = (takeoff, Err e)).
Proof.
  split; [| split].
  - destruct (bad_timestamp_aborts_cycle (RT := Sample.world) [Sample.undated]
                Sample.inflating "req-1") as (H1 & H2 & H3 & _); [reflexivity |].
    split; [exact H1 |]. split; [exact H2 |]. apply H3. reflexivity.
  - destruct (bad_timestamp_aborts_cycle (RT := Sample.world)
                [Sample.undated; Sample.rawLine] Sample.inflating "req-1")
      as (_ & _ & _ & H4); [reflexivity |].
    eexists. apply H4.
    exists [], Sample.undated, [Sample.rawLine].
    split; [reflexivity |]. split; [split; reflexivity |].
    left. eexists. split; [reflexivity | vm_compute; reflexivity].
  - destruct (bad_timestamp_aborts_cycle (RT := Sample.world)
                [Sample.textEntry; SampleMore.badStartEntry] Sample.inflating "req-1")
      as (_ & _ & _ & H4); [reflexivity |].
    eexists. apply H4.
    exists [Sample.textEntry], SampleMore.badStartEntry, [].
    split; [reflexivity |]. split; [split; reflexivity |].
    right.
    eexists _, _, [], [ ("name", VString "seg1") ], "noon",
      [ ("durationMs", VString "5") ], [ VString "seg2" ].
    split; [reflexivity |]. split; [reflexivity |]. split; [reflexivity |].
    split; [reflexivity |]. split; [split; reflexivity |]. split; [split; reflexivity |].
    vm_compute. reflexivity.
Defined.

(** C5, as stated, fails: in the cycle over an entry whose only span is not
    an object, followed by an entry whose timestamp is not RFC 3339, the
    assertion on the span panics before the timestamp is parsed:
    [buildPayloads] returns no error, and neither does [sendDataToNR]. *)
Lemma untyped_span_panics_before_bad_timestamp :
  anyBadTime (RT := Sample.world) [Sample.stringSpan; Sample.undated] = true /\
  buildPayloads (RT := Sample.world) [Sample.stringSpan; Sample.undated]
    Sample.inflating "req-1" = Panic /\
  sendDataToNR (RT := Sample.world) 2 Sample.inStartOrder
    [Sample.stringSpan; Sample.undated] Sample.inflating "req-1" = (takeoff, Panic).
Proof.
  repeat split; vm_compute; reflexivity.
Qed.



(** When only the delivery of the traces fails, its goroutine puts the nil
    error of the compression on the channel, and the drain loop panics on
    it. *)
Lemma lone_trace_failure_panics :
  map task_type (launched (fst Sample.traceFailureCycle)) = ["logging"; "metrics"; "traces"] /\
  snd Sample.traceFailureCycle = Panic.
Proof. split; vm_compute; reflexivity. Qed.

Lemma events_skipped_without_account_witness :
  Forall (fun t => task_type t <> "events") (launched (fst Sample.quietCycle)) /\
  In "[telemetryApi:sendDataToNR] NEW_RELIC_ACCOUNT_ID is not set, therefore no events data sent"
     (warnings (fst Sample.quietCycle)) /\
  (forall e, snd Sample.quietCycle <> Err e).
Proof.
  destruct (events_skipped_without_account (RT := Sample.world) 2 Sample.inStartOrder
              [Sample.textEntry] Sample.inflating "req-1" eq_refl)
    as (_ & Hnone & Hiff & Hrest).
  split; [exact Hnone |].
  split.
  - eapply Hiff; [reflexivity | vm_compute; discriminate | split; reflexivity].
  - edestruct Hrest as [_ Hquiet].
    + intros l. apply Permutation_refl.
    + intros b. eexists. reflexivity.
    + reflexivity.
    + apply Hquiet. reflexivity.
Defined.

(** C9, as stated, fails: in the cycle over one text entry with an empty
    account identifier and a compressor that fails on the one log record,
    the built events collection is not empty, but [sendDataToNR] returns
    the compressor's error from the logs step, before the events step: no
    warning is logged. *)
Lemma warning_not_logged_when_logs_fail :
  accountID SampleMore.picky = "" /\
  (exists data,
      buildPayloads (RT := Sample.world) [Sample.textEntry] SampleMore.picky "req-1"
      = Ok data /\
      collection data "events" <> []) /\
  warnings (fst SampleMore.pickyCycle) = [] /\
  launched (fst SampleMore.pickyCycle) = [] /\
  snd SampleMore.pickyCycle = Err "flate: write failed".
Proof.
  split; [reflexivity |]. split.
  - eexists. split; [vm_compute; reflexivity | discriminate].
  - repeat split; vm_compute; reflexivity.
Qed.

(** ** The agent telemetry dispatcher *)


(** With nothing waiting on the channel, or with collection switched on, a
    forced [Dispatch] harvests the whole batch and hands it to the client. *)
Lemma forced_dispatch_harvests (now : Z) (disp : agentTelemetry.AgentTelemetryDispatcher)
  (res : agentTelemetry.NextEventResponse) :
  agentTelemetry.telemetryChan disp = [] \/ agentTelemetry.collectData disp = true ->
  agentTelemetry.invocations (agentTelemetry.batch (agentTelemetry.Dispatch now disp res true))
  = [].
Proof.
  intros [Hchan | Hcollect]; unfold agentTelemetry.Dispatch.
  - rewrite Hchan. reflexivity.
  - destruct (agentTelemetry.telemetryChan disp); [reflexivity |].
    simpl. rewrite Hcollect. reflexivity.
Qed.


(** * Further properties of the code *)

(** ** The splitters: budget, oversized records, fan-out *)

Section MoreBisectFacts.

Context {Buffer : Type} {RT : Runtime Buffer}.
Variable Rec : Type.
Variable encode : list Rec -> error + Buffer.
Variable limit : Z.

Lemma bisect_empty_shape (c0 : Buffer) :
  encode [] = inr c0 ->
  forall fuel,
    (exists chunks, bisect Rec encode limit fuel [] = Ok chunks) \/
    bisect Rec encode limit fuel [] = OutOfFuel.
Proof.
  intros E0. induction fuel as [| fuel IH]; [right; reflexivity |].
  rewrite bisect_S, E0. destruct (Len c0 <=? limit); [left; eauto |].
  cbn [List.length Nat.div Nat.divmod fst firstn skipn].
  destruct IH as [[chunks E] | E]; rewrite E; cbn [bind]; eauto.
Qed.

(** One record that does not fit is bisected into nothing and itself. *)
Lemma bisect_single_oversize (r : Rec) (c c0 : Buffer) :
  encode [r] = inr c -> limit < Len c -> encode [] = inr c0 ->
  forall fuel, bisect Rec encode limit fuel [r] = OutOfFuel.
Proof.
  intros E Hgt E0. induction fuel as [| fuel IH]; [reflexivity |].
  rewrite bisect_S, E.
  destruct (Z.leb_spec (Len c) limit) as [Hle | _]; [lia |].
  cbn [List.length Nat.div Nat.divmod fst firstn skipn].
  rewrite IH.
  destruct (bisect_empty_shape c0 E0 fuel) as [[chunks E1] | E1]; rewrite E1; reflexivity.
Qed.

(** Every chunk of a non-empty collection whose records fit one by one
    holds at least one record. *)
Lemma bisect_count (fuel : nat) :
  forall data chunks,
    (forall r, In r data -> fits Rec encode limit [r] = true) ->
    (1 <= List.length data)%nat ->
    bisect Rec encode limit fuel data = Ok chunks ->
    (1 <= List.length chunks <= List.length data)%nat.
Proof.
  induction fuel as [| fuel IH]; intros data chunks Hfit Hlen H; [discriminate |].
  rewrite bisect_S in H.
  destruct (encode data) as [err | compressed] eqn:Eenc; [discriminate |].
  destruct (Z.leb_spec (Len compressed) limit) as [Hle | Hgt].
  - injection H as <-. simpl. lia.
  - assert (H2 : (2 <= List.length data)%nat)
      by (eapply single_fits_length; eauto).
    destruct (halves_shorter Rec data (pred (List.length data))) as [Hl Hr]; [lia |].
    apply bind_Ok_inv in H. destruct H as (leftRet & El & H).
    apply bind_Ok_inv in H. destruct H as (rightRet & Er & H).
    injection H as <-.
    assert (Ll := IH _ _ (fun r Hin => Hfit r (in_firstn Rec _ _ _ Hin)) (proj1 Hl) El).
    assert (Lr := IH _ _ (fun r Hin => Hfit r (in_skipn Rec _ _ _ Hin)) (proj1 Hr) Er).
    rewrite length_app.
    pose proof (f_equal (@List.length Rec) (firstn_skipn (List.length data / 2) data)) as Hsum.
    rewrite length_app in Hsum. lia.
Qed.

End MoreBisectFacts.

Section MoreSplitterTheorems.

Context {Buffer : Type} {RT : Runtime Buffer}.

Local Abbreviation Dispatcher := (@Dispatcher Buffer) (only parsing).

(** X2.  A collection of one record whose compressed serialisation exceeds
    the limit is never returned from: the midpoint is 0, the right half is
    the collection itself, and every recursion budget is exhausted (the
    compressor not failing on the empty left half). *)
Theorem splitters_diverge_on_oversized_record :
  (forall (Rec : Type) (marshal : list Rec -> error + bytes) (d : Dispatcher)
          (dataType : string) (r : Rec) (c c0 : Buffer),
      encodeRecords Rec marshal d [r] = inr c ->
      maxPayloadSizeBytes < Len c ->
      encodeRecords Rec marshal d [] = inr c0 ->
      forall fuel, marshalAndCompressData Rec marshal fuel d [r] dataType = OutOfFuel)
  /\
  (forall (functionName invokedFunctionARN : string) (r : LogsEvent) (c c0 : Buffer),
      encodeLogs functionName invokedFunctionARN [r] = inr c ->
      maxCompressedPayloadLen < Len c ->
      encodeLogs functionName invokedFunctionARN [] = inr c0 ->
      forall fuel,
        CompressedPayloadsForLogEvents fuel [r] functionName invokedFunctionARN = OutOfFuel).
Proof.
  split.
  - intros Rec marshal d dataType r c c0 E Hgt E0 fuel.
    rewrite marshalAndCompressData_bisect. eapply bisect_single_oversize; eauto.
  - intros functionName invokedFunctionARN r c c0 E Hgt E0 fuel.
    rewrite CompressedPayloadsForLogEvents_bisect. eapply bisect_single_oversize; eauto.
Qed.

(** X3.  For a non-empty collection whose records fit the limit one by
    one, a splitter returns at least one chunk and at most as many chunks
    as there are records: every chunk holds at least one record. *)
Theorem splitters_chunk_count :
  (forall (Rec : Type) (marshal : list Rec -> error + bytes) (d : Dispatcher)
          (dataType : string) (data : list Rec) (fuel : nat) (chunks : list Buffer),
      (forall r, In r data ->
                 fits Rec (encodeRecords Rec marshal d) maxPayloadSizeBytes [r] = true) ->
      data <> [] ->
      marshalAndCompressData Rec marshal fuel d data dataType = Ok chunks ->
      (1 <= List.length chunks <= List.length data)%nat)
  /\
  (forall (functionName invokedFunctionARN : string) (logsEvents : list LogsEvent)
          (fuel : nat) (chunks : list Buffer),
      (forall r, In r logsEvents ->
                 fits LogsEvent (encodeLogs functionName invokedFunctionARN)
                   maxCompressedPayloadLen [r] = true) ->
      logsEvents <> [] ->
      CompressedPayloadsForLogEvents fuel logsEvents functionName invokedFunctionARN
      = Ok chunks ->
      (1 <= List.length chunks <= List.length logsEvents)%nat).
Proof.
  split.
  - intros Rec marshal d dataType data fuel chunks Hfit Hne H.
    rewrite marshalAndCompressData_bisect in H.
    eapply bisect_count; eauto. destruct data; [congruence | simpl; lia].
  - intros functionName invokedFunctionARN logsEvents fuel chunks Hfit Hne H.
    rewrite CompressedPayloadsForLogEvents_bisect in H.
    eapply bisect_count; eauto. destruct logsEvents; [congruence | simpl; lia].
Qed.

End MoreSplitterTheorems.

Lemma splitters_diverge_on_oversized_record_witness :
  (forall fuel,
      marshalAndCompressData (RT := Sample.world) byte Sample.byteRecords fuel
        SampleMore.bloating [x61] "logging" = OutOfFuel)
  /\
  (forall fuel,
      CompressedPayloadsForLogEvents (RT := Sample.world) fuel [SampleMore.longEvent]
        "checkout" "" = OutOfFuel).
Proof.
  destruct (splitters_diverge_on_oversized_record (RT := Sample.world)) as [H1 H2]. split.
  - eapply H1; [reflexivity | vm_compute; reflexivity | reflexivity].
  - eapply H2; [reflexivity | vm_compute; reflexivity | reflexivity].
Defined.

Lemma splitters_chunk_count_witness :
  (exists chunks,
      marshalAndCompressData (RT := Sample.world) byte Sample.byteRecords 3
        Sample.inflating Sample.threeRecords "logging" = Ok chunks /\
      (1 <= List.length chunks <= 3)%nat)
  /\
  (exists chunks,
      CompressedPayloadsForLogEvents (RT := Sample.world) 2 Sample.twoLogsEvents
        "checkout" "" = Ok chunks /\
      (1 <= List.length chunks <= 2)%nat).
Proof.
  destruct (splitters_chunk_count (RT := Sample.world)) as [H1 H2]. split.
  - eexists. split; [vm_compute; reflexivity |].
    apply (H1 byte Sample.byteRecords Sample.inflating "logging" Sample.threeRecords
             3%nat);
      [intros r [<- | [<- | [<- | []]]]; reflexivity | discriminate | reflexivity].
  - eexists. split; [vm_compute; reflexivity |].
    apply (H2 "checkout" "" Sample.twoLogsEvents 2%nat);
      [intros r [<- | [<- | []]]; reflexivity | discriminate | reflexivity].
Defined.

(** C1, as stated, fails: it promises chunks that cover the collection for
    every collection, with the fit of the single records as a hypothesis of
    the size bound only.  For the collection of one record that compresses
    above the limit [marshalAndCompressData] returns no chunks at all: it
    bisects the collection into nothing and itself and exhausts every
    recursion budget.  And where the compressor fails on a record it
    returns the error, and no chunks. *)
Lemma splitter_returns_no_chunks :
  (forall fuel,
      marshalAndCompressData (RT := Sample.world) byte Sample.byteRecords fuel
        SampleMore.bloating [x61] "logging" = OutOfFuel)
  /\
  (forall fuel chunks,
      marshalAndCompressData (RT := Sample.world) byte Sample.byteRecords fuel
        SampleMore.bloating [x61] "logging" <> Ok chunks)
  /\
  (forall fuel chunks,
      marshalAndCompressData (RT := Sample.world) byte Sample.byteRecords fuel
        SampleMore.picky [x61] "logging" <> Ok chunks).
Proof.
  assert (H : forall fuel,
             marshalAndCompressData (RT := Sample.world) byte Sample.byteRecords fuel
               SampleMore.bloating [x61] "logging" = OutOfFuel).
  { intros fuel. rewrite marshalAndCompressData_bisect.
    eapply bisect_single_oversize; [reflexivity | vm_compute; reflexivity | reflexivity]. }
  split; [exact H |]. split.
  - intros fuel chunks. rewrite H. discriminate.
  - intros [| fuel] chunks; discriminate.
Qed.

(** ** What the builder builds *)

Section MoreBuilderFacts.

Context {Buffer : Type} {RT : Runtime Buffer}.

Local Abbreviation Dispatcher := (@Dispatcher Buffer) (only parsing).

Lemma lookup_assign_same {V : Type} (k : string) (v : V) (m : list (string * V)) :
  lookup k (assign k v m) = Some v.
Proof.
  induction m as [| [a w] m IH]; simpl.
  - rewrite String.eqb_refl. reflexivity.
  - destruct (a =? k)%string eqn:E; simpl; rewrite E; [reflexivity | exact IH].
Qed.

Lemma lookup_assign_other {V : Type} (k k' : string) (v : V) (m : list (string * V)) :
  k <> k' -> lookup k' (assign k v m) = lookup k' m.
Proof.
  intros Hne. apply String.eqb_neq in Hne.
  induction m as [| [a w] m IH]; simpl.
  - rewrite Hne. reflexivity.
  - destruct (a =? k)%string eqn:E; simpl.
    + apply String.eqb_eq in E. subst a. rewrite Hne. reflexivity.
    + destruct (a =? k')%string; [reflexivity | exact IH].
Qed.

Lemma collection_appendTo_same (k : string) (el : JMap) (data : Payloads) :
  collection (appendTo k el data) k = (collection data k ++ [el])%list.
Proof.
  unfold collection at 1, appendTo. rewrite lookup_assign_same. reflexivity.
Qed.

Lemma collection_appendTo_other (k k' : string) (el : JMap) (data : Payloads) :
  k <> k' -> collection (appendTo k el data) k' = collection data k'.
Proof.
  intros Hne. unfold collection, appendTo. rewrite lookup_assign_other by exact Hne.
  reflexivity.
Qed.

Lemma buildMetrics_view (d : Dispatcher) (typ rid : string) (msInt : Z) (val : JMap) :
  forall keys data,
    (forall k, k <> "metrics" ->
               collection (buildMetrics d typ rid msInt val keys data) k = collection data k) /\
    exists news,
      collection (buildMetrics d typ rid msInt val keys data) "metrics"
      = (collection data "metrics" ++ news)%list /\
      Forall2 (fun kv metric =>
                 lookup "name" metric = Some (VString ("aws.telemetry.lambda_ext." ++ fst kv)) /\
                 lookup "value" metric = Some (valueAt (fst kv) val) /\
                 lookup "timestamp" metric = Some (VInt msInt))
        keys news.
Proof.
  induction keys as [| [key v] rest IH]; intros data; cbn [buildMetrics].
  - split; [reflexivity |]. exists []. split; [symmetry; apply app_nil_r | constructor].
  - destruct (IH (appendTo "metrics"
                    [ ("name", VString ("aws.telemetry.lambda_ext." ++ key));
                      ("value", valueAt key val);
                      ("timestamp", VInt msInt);
                      ("attributes", VMap
                         [ ("plugin", VString util_Id);
                           ("faas.arn", VString (arn d));
                           ("faas.name", VString (functionName d));
                           ("lambda.logevent.type", VString typ);
                           ("requestId", VString rid);
                           ("extension.name", VString (functionName d));
                           ("extension.version", VString util_Version);
                           ("lambda.name", VString (functionName d)) ]) ]
                    data)) as (Hframe & news & Hnews & Hshape).
    split.
    + intros k Hk. rewrite Hframe by exact Hk.
      apply collection_appendTo_other. congruence.
    + eexists (_ :: news). split.
      * rewrite Hnews, collection_appendTo_same, <- app_assoc. reflexivity.
      * constructor; [| exact Hshape]. repeat split.
Qed.

Lemma spanFields_no_start :
  forall fields attributes start r,
    spanFields fields attributes start = Ok r ->
    lookup "start" fields = None ->
    snd r = start.
Proof.
  induction fields as [| [key v] rest IH]; intros attributes start r H Hnone;
    cbn [spanFields] in H.
  - injection H as <-. reflexivity.
  - cbn [lookup] in Hnone.
    destruct (key =? "durationMs")%string.
    + destruct (key =? "start")%string; [discriminate Hnone |].
      destruct v; try discriminate H. exact (IH _ _ _ H Hnone).
    + destruct (key =? "start")%string; [discriminate Hnone |].
      destruct v; try discriminate H. exact (IH _ _ _ H Hnone).
Qed.

Lemma lookup_absent {V : Type} (key : string) (m : list (string * V)) :
  ~ In key (map fst m) -> lookup key m = None.
Proof.
  induction m as [| [k v] m IH]; cbn [lookup map fst In]; [reflexivity |].
  intros Hno. destruct (String.eqb_spec k key) as [-> | _].
  - exfalso. apply Hno. left. reflexivity.
  - apply IH. intros Hin. apply Hno. right. exact Hin.
Qed.

Lemma spanFields_start :
  forall fields attributes start r s t,
    spanFields fields attributes start = Ok r ->
    NoDup (map fst fields) ->
    lookup "start" fields = Some (VString s) ->
    time_Parse s = inr t ->
    snd r = t.
Proof.
  induction fields as [| [key v] rest IH]; intros attributes start r s t H Hnd Hsome Hparse;
    cbn [spanFields] in H; [discriminate Hsome |].
  cbn [lookup] in Hsome. cbn [map fst] in Hnd. inversion Hnd as [| ? ? Hnotin Hnd']; subst.
  destruct (String.eqb_spec key "start") as [-> | Hne].
  - cbn [String.eqb Ascii.eqb Bool.eqb] in H. injection Hsome as ->.
    rewrite Hparse in H.
    apply (spanFields_no_start _ _ _ _ H). apply lookup_absent. exact Hnotin.
  - destruct (key =? "durationMs")%string.
    + destruct v; try discriminate H. exact (IH _ _ _ _ _ H Hnd' Hsome Hparse).
    + destruct v; try discriminate H. exact (IH _ _ _ _ _ H Hnd' Hsome Hparse).
Qed.

Lemma buildSpans_view (typ rid extension_name : string) :
  forall val data ids data' ids',
    buildSpans typ rid extension_name val data ids = Ok (data', ids') ->
    ids' = (ids + List.length val)%nat /\
    (forall k, k <> "traces" -> collection data' k = collection data k) /\
    exists news,
      collection data' "traces" = (collection data "traces" ++ news)%list /\
      Forall2 (fun span trace =>
                 lookup "trace.id" trace = Some (VString rid) /\ spanStamped span trace)
        val news /\
      map (lookup "id") news = draws ids (List.length val).
Proof.
  induction val as [| span rest IH]; intros data ids data' ids' H; cbn [buildSpans] in H.
  - injection H as <- <-. split; [cbn [List.length]; lia |]. split; [reflexivity |].
    exists []. split; [symmetry; apply app_nil_r |]. split; [constructor | reflexivity].
  - destruct span as [| s | f | n | fields | l | m | tag | tag]; try discriminate.
    apply bind_Ok_inv in H. destruct H as (r & Hr & H).
    apply IH in H. destruct H as (Hids & Hframe & news & Hnews & Hshape & Hdraws).
    split; [cbn [List.length]; lia |]. split.
    + intros k Hk. rewrite Hframe by exact Hk.
      apply collection_appendTo_other. congruence.
    + eexists (_ :: news). split.
      * rewrite Hnews, collection_appendTo_same, <- app_assoc. reflexivity.
      * split.
        { constructor; [| exact Hshape]. split; [reflexivity |].
          intros fields' Hf. injection Hf as <-. split.
          - intros Hnone. rewrite (spanFields_no_start _ _ _ _ Hr Hnone). reflexivity.
          - intros s t Hnd Hsome Hparse.
            rewrite (spanFields_start _ _ _ _ s t Hr Hnd Hsome Hparse). reflexivity. }
        cbn [map List.length]. unfold draws in *. cbn [seq map]. rewrite Hdraws. reflexivity.
Qed.

Lemma buildEvent_view (d : Dispatcher) (RequestID : string) (ev : LambdaTelemetryEvent)
  (msInt : Z) (data : Payloads) (ids : nat) (r : Payloads * nat) :
  time_Parse (ev_Time ev) = inr msInt ->
  buildEvent d RequestID ev msInt data ids = Ok r ->
  (exists event,
      collection (fst r) "events" = (collection data "events" ++ [event])%list /\
      eventShape (IsEvent ev) event) /\
  (exists logs,
      collection (fst r) "logging" = (collection data "logging" ++ logs)%list /\
      Forall2 logShape (withBody [IsEvent ev]) logs) /\
  (exists metrics,
      collection (fst r) "metrics" = (collection data "metrics" ++ metrics)%list /\
      Forall2 (metricShape (IsEvent ev)) (metricsOf (ev_Record ev)) metrics) /\
  (exists traces,
      collection (fst r) "traces" = (collection data "traces" ++ traces)%list /\
      Forall2 (traceShape (IsEvent ev)) (spansOf (ev_Record ev)) traces /\
      map (lookup "id") traces = draws ids (List.length (spansOf (ev_Record ev)))) /\
  snd r = (ids + List.length (spansOf (ev_Record ev)))%nat.
Proof.
  intros Ht H. destruct ev as [tm ty body]. unfold buildEvent in H.
  cbn [ev_Record ev_Type ev_Time] in *.
  unfold withBody. cbn [filter bodyOf ev_Record].
  set (e := IsEvent {| ev_Time := tm; ev_Type := ty; ev_Record := body |}).
  assert (Hinstant : instantOf e = msInt).
  { unfold e, instantOf. cbn [ev_Time]. rewrite Ht. reflexivity. }
  set (data1 := appendTo "events" _ data) in H.
  assert (Hevents : exists event,
             collection data1 "events" = (collection data "events" ++ [event])%list /\
             eventShape e event).
  { eexists. split; [apply collection_appendTo_same |].
    unfold eventShape. rewrite Hinstant. repeat split. }
  assert (Hframe1 : forall k, k <> "events" -> collection data1 k = collection data k).
  { intros k Hk. apply collection_appendTo_other. congruence. }
  destruct (notNil body) eqn:Hnil.
  2: { injection H as <-. cbn [fst snd].
       assert (Hbody : body = VNil) by (destruct body; try discriminate; reflexivity).
       subst body. cbn [metricsOf spansOf List.length].
       split; [exact Hevents |].
       split; [exists []; rewrite Hframe1 by discriminate; rewrite app_nil_r;
               split; [reflexivity | constructor] |].
       split; [exists []; rewrite Hframe1 by discriminate; rewrite app_nil_r;
               split; [reflexivity | constructor] |].
       split; [exists []; rewrite Hframe1 by discriminate; rewrite app_nil_r;
               split; [reflexivity | split; [constructor | reflexivity]] |].
       lia. }
  set (data2 := appendTo "logging" _ data1) in H.
  assert (Hlogs : exists logs,
             collection data2 "logging" = (collection data "logging" ++ logs)%list /\
             Forall2 logShape [e] logs).
  { eexists [_]. split.
    - unfold data2. rewrite collection_appendTo_same, Hframe1 by discriminate. reflexivity.
    - constructor; [| constructor]. unfold logShape. rewrite Hinstant.
      split; reflexivity. }
  assert (Hframe2 : forall k, k <> "logging" -> collection data2 k = collection data1 k).
  { intros k Hk. apply collection_appendTo_other. congruence. }
  assert (Hevents2 : exists event,
             collection data2 "events" = (collection data "events" ++ [event])%list /\
             eventShape e event).
  { rewrite Hframe2 by discriminate. exact Hevents. }
  destruct (kindIsMap body) eqn:Hkind.
  2: { injection H as <-. cbn [fst snd].
       assert (Hm : metricsOf body = []) by (destruct body; try discriminate; reflexivity).
       assert (Hs : spansOf body = []) by (destruct body; try discriminate; reflexivity).
       rewrite Hm, Hs. cbn [List.length].
       split; [exact Hevents2 |].
       split; [exact Hlogs |].
       split; [exists []; rewrite Hframe2, Hframe1 by discriminate; rewrite app_nil_r;
               split; [reflexivity | constructor] |].
       split; [exists []; rewrite Hframe2, Hframe1 by discriminate; rewrite app_nil_r;
               split; [reflexivity | split; [constructor | reflexivity]] |].
       lia. }
  destruct body as [| s | f | n | eventRecord | l | m | tag | tag]; try discriminate.
  set (rid := match lookup "requestId" eventRecord with
              | Some (VString v) => v
              | _ => ""
              end) in *.
  set (data3 := match lookup "metrics" eventRecord with
                | Some (VMap val) => buildMetrics d ty rid msInt val val data2
                | _ => data2
                end) in H.
  assert (Hdata3 : data3 = buildMetrics d ty rid msInt (metricsOf (VMap eventRecord))
                             (metricsOf (VMap eventRecord)) data2).
  { unfold data3, metricsOf. destruct (lookup "metrics" eventRecord) as [[] |]; reflexivity. }
  assert (Hspans : buildSpans ty rid util_Name (spansOf (VMap eventRecord)) data3 ids = Ok r).
  { unfold spansOf. destruct (lookup "spans" eventRecord) as [[] |]; exact H. }
  clear H. destruct r as [data' ids'].
  apply buildSpans_view in Hspans.
  destruct Hspans as (Hids & Hframe4 & traces & Htraces & Hshape4 & Hdraws).
  destruct (buildMetrics_view d ty rid msInt (metricsOf (VMap eventRecord))
              (metricsOf (VMap eventRecord)) data2) as (Hframe3 & metrics & Hmetrics & Hshape3).
  rewrite <- Hdata3 in Hframe3, Hmetrics. cbn [fst snd requestIdOf].
  split; [rewrite Hframe4, Hframe3 by discriminate; exact Hevents2 |].
  split; [rewrite Hframe4, Hframe3 by discriminate; exact Hlogs |].
  split.
  { exists metrics. split.
    - rewrite Hframe4, Hmetrics, Hframe2, Hframe1 by discriminate. reflexivity.
    - unfold metricShape. rewrite Hinstant. exact Hshape3. }
  split; [| exact Hids].
  exists traces. split.
  - rewrite Htraces, Hframe3, Hframe2, Hframe1 by discriminate. reflexivity.
  - split; [exact Hshape4 | exact Hdraws].
Qed.

Lemma draws_app (i n m : nat) :
  (draws i n ++ draws (i + n) m)%list = draws i (n + m).
Proof.
  unfold draws. rewrite <- map_app, <- seq_app. reflexivity.
Qed.

Lemma Forall2_map_pair {A B C : Type} (a : A) (R : A -> B -> C -> Prop)
  (l : list B) (l' : list C) :
  Forall2 (R a) l l' ->
  Forall2 (fun p c => R (fst p) (snd p) c) (map (pair a) l) l'.
Proof.
  induction 1; cbn [map]; constructor; auto.
Qed.

Lemma buildLoop_view (d : Dispatcher) (RequestID : string) :
  forall logEntries data ids data',
    buildLoop d RequestID logEntries data ids = Ok data' ->
    (exists events,
        collection data' "events" = (collection data "events" ++ events)%list /\
        Forall2 eventShape logEntries events) /\
    (exists logs,
        collection data' "logging" = (collection data "logging" ++ logs)%list /\
        Forall2 logShape (withBody logEntries) logs) /\
    (exists metrics,
        collection data' "metrics" = (collection data "metrics" ++ metrics)%list /\
        Forall2 (fun p metric => metricShape (fst p) (snd p) metric)
          (metricsIn logEntries) metrics) /\
    (exists traces,
        collection data' "traces" = (collection data "traces" ++ traces)%list /\
        Forall2 (fun p trace => traceShape (fst p) (snd p) trace)
          (spansIn logEntries) traces /\
        map (lookup "id") traces = draws ids (List.length traces)).
Proof.
  induction logEntries as [| e rest IH]; intros data ids data' H; cbn [buildLoop] in H.
  - injection H as <-.
    split; [exists []; rewrite app_nil_r; split; [reflexivity | constructor] |].
    split; [exists []; rewrite app_nil_r; split; [reflexivity | constructor] |].
    split; [exists []; rewrite app_nil_r; split; [reflexivity | constructor] |].
    exists []; rewrite app_nil_r; split; [reflexivity | split; [constructor | reflexivity]].
  - destruct e as [ev | v]; [| discriminate].
    destruct (time_Parse (ev_Time ev)) as [err | msInt] eqn:Ht; [discriminate |].
    apply bind_Ok_inv in H. destruct H as (r & Hev & H).
    apply (buildEvent_view _ _ _ _ _ _ _ Ht) in Hev.
    destruct Hev as ((event & He1 & He2) & (logs1 & Hl1 & Hl2) & (metrics1 & Hm1 & Hm2)
                     & (traces1 & Ht1 & Ht2 & Ht3) & Hids).
    apply IH in H.
    destruct H as ((events & He3 & He4) & (logs & Hl3 & Hl4) & (metrics & Hm3 & Hm4)
                   & (traces & Ht4 & Ht5 & Ht6)).
    split.
    { exists (event :: events). split.
      - rewrite He3, He1, <- app_assoc. reflexivity.
      - constructor; assumption. }
    split.
    { exists (logs1 ++ logs)%list. split.
      - rewrite Hl3, Hl1, <- app_assoc. reflexivity.
      - change (IsEvent ev :: rest) with ([IsEvent ev] ++ rest)%list.
        unfold withBody in *. rewrite filter_app.
        apply Forall2_app; assumption. }
    split.
    { exists (metrics1 ++ metrics)%list. split.
      - rewrite Hm3, Hm1, <- app_assoc. reflexivity.
      - unfold metricsIn. cbn [flat_map]. apply Forall2_app; [| exact Hm4].
        apply (Forall2_map_pair (IsEvent ev) metricShape). exact Hm2. }
    exists (traces1 ++ traces)%list. split.
    { rewrite Ht4, Ht1, <- app_assoc. reflexivity. }
    split.
    { unfold spansIn. cbn [flat_map]. apply Forall2_app; [| exact Ht5].
      apply (Forall2_map_pair (IsEvent ev) traceShape).
      exact Ht2. }
    rewrite Hids, (Forall2_length Ht2) in Ht6. rewrite (Forall2_length Ht2) in Ht3.
    rewrite map_app, length_app, <- draws_app. f_equal; [exact Ht3 | exact Ht6].
Qed.

Lemma buildPayloads_view (d : Dispatcher) (RequestID : string)
  (logEntries : list LogEntry) (data : Payloads) :
  buildPayloads logEntries d RequestID = Ok data ->
  Forall2 eventShape logEntries (collection data "events") /\
  Forall2 logShape (withBody logEntries) (collection data "logging") /\
  Forall2 (fun p metric => metricShape (fst p) (snd p) metric)
    (metricsIn logEntries) (collection data "metrics") /\
  Forall2 (fun p trace => traceShape (fst p) (snd p) trace)
    (spansIn logEntries) (collection data "traces") /\
  map (lookup "id") (collection data "traces") = draws 0 (count data "traces").
Proof.
  intros H. unfold buildPayloads in H. apply buildLoop_view in H.
  destruct H as ((events & He1 & He2) & (logs & Hl1 & Hl2) & (metrics & Hm1 & Hm2)
                 & (traces & Ht1 & Ht2 & Ht3)).
  unfold count. cbn in He1, Hl1, Hm1, Ht1. rewrite He1, Hl1, Hm1, Ht1.
  repeat split; assumption.
Qed.

Lemma length_withMap {A B : Type} (g : A -> list B) (l : list A) :
  List.length (flat_map (fun e => map (pair e) (g e)) l)
  = list_sum (map (fun e => List.length (g e)) l).
Proof.
  induction l as [| a l IH]; cbn [flat_map map list_sum]; [reflexivity |].
  rewrite length_app, length_map, IH. reflexivity.
Qed.

Lemma replaceDots_no_dot (s : string) : hasDot (replaceDots s) = false.
Proof.
  unfold hasDot. induction s as [| c s IH]; [reflexivity |].
  cbn [replaceDots Contains String.prefix]. rewrite IH.
  destruct (c =? ".")%char eqn:E.
  - reflexivity.
  - destruct (ascii_dec "." c) as [<- | Hne]; [discriminate E | reflexivity].
Qed.

Lemma replaceDots_length (s : string) :
  String.length (replaceDots s) = String.length s.
Proof.
  induction s as [| c s IH]; cbn [replaceDots String.length]; congruence.
Qed.

Lemma buildPayloads_dated (d : Dispatcher) (RequestID : string)
  (logEntries : list LogEntry) (data : Payloads) :
  buildPayloads logEntries d RequestID = Ok data ->
  Forall (fun e => dated e (instantOf e)) logEntries.
Proof.
  unfold buildPayloads. generalize 0%nat at 1.
  generalize (assign "metrics" (@nil JMap)
                (assign "logging" [] (assign "traces" [] (assign "events" [] [])))).
  revert data. induction logEntries as [| e rest IH]; intros data data0 ids H.
  - constructor.
  - cbn [buildLoop] in H. destruct e as [ev | v]; [| discriminate].
    destruct (time_Parse (ev_Time ev)) as [err | msInt] eqn:Ht; [discriminate |].
    apply bind_Ok_inv in H. destruct H as (r & _ & H). constructor.
    + exists ev. split; [reflexivity |]. unfold instantOf. rewrite Ht. reflexivity.
    + exact (IH _ _ _ H).
Qed.

End MoreBuilderFacts.

Section MoreBuilderTheorems.

Context {Buffer : Type} {RT : Runtime Buffer}.

Local Abbreviation Dispatcher := (@Dispatcher Buffer) (only parsing).

(** X4.  When the builder returns, the four collections have these sizes:
    one event record per entry; one logging record per entry whose body is
    not nil; one metric record per key of each body's ["metrics"] map; one
    trace record per element of each body's ["spans"] slice. *)
Theorem buildPayloads_counts :
  forall (logEntries : list LogEntry) (d : Dispatcher) (RequestID : string)
         (data : Payloads),
    buildPayloads logEntries d RequestID = Ok data ->
    count data "events" = List.length logEntries /\
    count data "logging" = List.length (withBody logEntries) /\
    count data "metrics"
    = list_sum (map (fun e => List.length (metricsOf (bodyOf e))) logEntries) /\
    count data "traces"
    = list_sum (map (fun e => List.length (spansOf (bodyOf e))) logEntries).
Proof.
  intros logEntries d RequestID data H. apply buildPayloads_view in H.
  destruct H as (He & Hl & Hm & Ht & _). unfold count.
  rewrite <- (Forall2_length He), <- (Forall2_length Hl),
    <- (Forall2_length Hm), <- (Forall2_length Ht).
  unfold metricsIn, spansIn. rewrite !length_withMap. repeat split.
Qed.

(** X5.  When the builder returns, every entry is an event whose [Time]
    parsed, and the event records are those of the entries, in input order:
    the timestamp is the parsed instant in milliseconds, the event type is
    ["TelemetryApiEvent"], and ["lambda.logevent.type"] is the entry's type
    with every dot replaced by an underscore, so it holds no dot and has
    the length of the entry's type. *)
Theorem buildPayloads_events_in_order :
  forall (logEntries : list LogEntry) (d : Dispatcher) (RequestID : string)
         (data : Payloads),
    buildPayloads logEntries d RequestID = Ok data ->
    Forall2
      (fun e event =>
         exists t typ,
           dated e t /\
           lookup "timestamp" event = Some (VInt t) /\
           lookup "eventType" event = Some (VString "TelemetryApiEvent") /\
           lookup "lambda.logevent.type" event = Some (VString typ) /\
           typ = replaceDots (typeOf e) /\
           hasDot typ = false /\
           String.length typ = String.length (typeOf e))
      logEntries (collection data "events").
Proof.
  intros logEntries d RequestID data H.
  pose proof (buildPayloads_dated _ _ _ _ H) as Hdated.
  apply buildPayloads_view in H. destruct H as (He & _).
  induction He as [| e event entries events (Ht & Hty & Hlt) _ IH]; [constructor |].
  inversion Hdated as [| ? ? Hd Hrest]; subst. constructor; [| exact (IH Hrest)].
  exists (instantOf e), (replaceDots (typeOf e)).
  repeat split; try assumption.
  - apply replaceDots_no_dot.
  - apply replaceDots_length.
Qed.

(** X6.  When the builder returns, the logging records are those of the
    entries with a body, in input order, and the message of each is the
    rendering of the body cut at [maxLogMsgLen] bytes: a prefix of the
    rendering, whose length is the smaller of the rendering's length and
    14094. *)
Theorem buildPayloads_messages_truncated :
  forall (logEntries : list LogEntry) (d : Dispatcher) (RequestID : string)
         (data : Payloads),
    buildPayloads logEntries d RequestID = Ok data ->
    Forall2
      (fun e log =>
         exists msg,
           lookup "message" log = Some (VString msg) /\
           lookup "timestamp" log = Some (VInt (instantOf e)) /\
           String.prefix msg (fmt_Sprint (bodyOf e)) = true /\
           len msg = Z.min (len (fmt_Sprint (bodyOf e))) 14094)
      (withBody logEntries) (collection data "logging").
Proof.
  intros logEntries d RequestID data H.
  apply buildPayloads_view in H. destruct H as (_ & Hl & _).
  induction Hl as [| e log entries logs (Ht & Hmsg) _ IH]; constructor; [| exact IH].
  exists (truncateMsg (fmt_Sprint (bodyOf e))).
  split; [exact Hmsg |]. split; [exact Ht |].
  split; [apply truncateMsg_prefix | apply truncateMsg_len].
Qed.

(** X7.  When the builder returns, the metric records are, in input order,
    one per key of the ["metrics"] map of each entry's body: named
    ["aws.telemetry.lambda_ext."] followed by the key, with the value the
    map holds under the key and the instant of the entry as timestamp. *)
Theorem buildPayloads_metrics_named :
  forall (logEntries : list LogEntry) (d : Dispatcher) (RequestID : string)
         (data : Payloads),
    buildPayloads logEntries d RequestID = Ok data ->
    Forall2
      (fun p metric =>
         lookup "name" metric
         = Some (VString ("aws.telemetry.lambda_ext." ++ fst (snd p))) /\
         lookup "value" metric
         = Some (valueAt (fst (snd p)) (metricsOf (bodyOf (fst p)))) /\
         lookup "timestamp" metric = Some (VInt (instantOf (fst p))))
      (metricsIn logEntries) (collection data "metrics").
Proof.
  intros logEntries d RequestID data H.
  apply buildPayloads_view in H. destruct H as (_ & _ & Hm & _).
  exact Hm.
Qed.

(** X8.  When the builder returns, the trace records are, in input order,
    one per span of each entry's body; the identifier of the i-th record
    is the i-th value drawn from [uuid.New] in the call, and its trace
    identifier is the ["requestId"] string of its entry's body (the empty
    string when the body has none). *)
Theorem buildPayloads_span_identifiers :
  forall (logEntries : list LogEntry) (d : Dispatcher) (RequestID : string)
         (data : Payloads),
    buildPayloads logEntries d RequestID = Ok data ->
    map (lookup "id") (collection data "traces") = draws 0 (count data "traces") /\
    Forall2
      (fun p trace =>
         lookup "trace.id" trace = Some (VString (requestIdOf (bodyOf (fst p)))))
      (spansIn logEntries) (collection data "traces").
Proof.
  intros logEntries d RequestID data H.
  apply buildPayloads_view in H. destruct H as (_ & _ & _ & Ht & Hids).
  split; [exact Hids |].
  eapply Forall2_impl; [| exact Ht]. intros p trace [Hid _]. exact Hid.
Qed.

(** X21.  When the builder returns, the timestamp of the trace record of a
    span object is read from the span alone, not from its entry: it is the
    zero time of Go (1 January of year 1, -62135596800000 ms) when the
    span has no ["start"] field, and the parsed instant of the ["start"]
    field when the span has one. *)
Theorem buildPayloads_span_timestamps :
  forall (logEntries : list LogEntry) (d : Dispatcher) (RequestID : string)
         (data : Payloads),
    buildPayloads logEntries d RequestID = Ok data ->
    Forall2
      (fun p trace =>
         forall fields,
           snd p = VMap fields ->
           (lookup "start" fields = None ->
            lookup "timestamp" trace = Some (VInt (-62135596800000))) /\
           (forall s t,
               NoDup (map fst fields) ->
               lookup "start" fields = Some (VString s) ->
               time_Parse s = inr t ->
               lookup "timestamp" trace = Some (VInt t)))
      (spansIn logEntries) (collection data "traces").
Proof.
  intros logEntries d RequestID data H.
  apply buildPayloads_view in H. destruct H as (_ & _ & _ & Ht & _).
  eapply Forall2_impl; [| exact Ht]. intros p trace [_ Hstamp]. exact Hstamp.
Qed.

End MoreBuilderTheorems.

Lemma buildPayloads_counts_witness :
  exists data,
    buildPayloads (RT := Sample.world) SampleMore.threeEntries Sample.inflating "req-1"
    = Ok data /\
    count data "events" = 3%nat /\
    count data "logging" = 2%nat /\
    count data "metrics" = 3%nat /\
    count data "traces" = 1%nat.
Proof.
  eexists. split; [vm_compute; reflexivity |].
  apply (buildPayloads_counts (RT := Sample.world) SampleMore.threeEntries
           Sample.inflating "req-1").
  vm_compute. reflexivity.
Defined.

Lemma buildPayloads_events_in_order_witness :
  exists data,
    buildPayloads (RT := Sample.world) SampleMore.threeEntries Sample.inflating "req-1"
    = Ok data /\
    Forall2
      (fun e event =>
         exists t typ,
           dated (RT := Sample.world) e t /\
           lookup "timestamp" event = Some (VInt t) /\
           lookup "eventType" event = Some (VString "TelemetryApiEvent") /\
           lookup "lambda.logevent.type" event = Some (VString typ) /\
           typ = replaceDots (typeOf e) /\
           hasDot typ = false /\
           String.length typ = String.length (typeOf e))
      SampleMore.threeEntries (collection data "events").
Proof.
  eexists. split; [vm_compute; reflexivity |].
  apply (buildPayloads_events_in_order (RT := Sample.world) SampleMore.threeEntries
           Sample.inflating "req-1").
  vm_compute. reflexivity.
Defined.

Lemma buildPayloads_messages_truncated_witness :
  exists data,
    buildPayloads (RT := Sample.world) SampleMore.threeEntries Sample.inflating "req-1"
    = Ok data /\
    Forall2
      (fun e log =>
         exists msg,
           lookup "message" log = Some (VString msg) /\
           lookup "timestamp" log = Some (VInt (instantOf (RT := Sample.world) e)) /\
           String.prefix msg (fmt_Sprint (Runtime := Sample.world) (bodyOf e)) = true /\
           len msg = Z.min (len (fmt_Sprint (Runtime := Sample.world) (bodyOf e))) 14094)
      (withBody SampleMore.threeEntries) (collection data "logging").
Proof.
  eexists. split; [vm_compute; reflexivity |].
  apply (buildPayloads_messages_truncated (RT := Sample.world) SampleMore.threeEntries
           Sample.inflating "req-1").
  vm_compute. reflexivity.
Defined.

Lemma buildPayloads_metrics_named_witness :
  exists data,
    buildPayloads (RT := Sample.world) SampleMore.threeEntries Sample.inflating "req-1"
    = Ok data /\
    Forall2
      (fun p metric =>
         lookup "name" metric
         = Some (VString ("aws.telemetry.lambda_ext." ++ fst (snd p))) /\
         lookup "value" metric
         = Some (valueAt (fst (snd p)) (metricsOf (bodyOf (fst p)))) /\
         lookup "timestamp" metric = Some (VInt (instantOf (RT := Sample.world) (fst p))))
      (metricsIn SampleMore.threeEntries) (collection data "metrics").
Proof.
  eexists. split; [vm_compute; reflexivity |].
  apply (buildPayloads_metrics_named (RT := Sample.world) SampleMore.threeEntries
           Sample.inflating "req-1").
  vm_compute. reflexivity.
Defined.

Lemma buildPayloads_span_identifiers_witness :
  exists data,
    buildPayloads (RT := Sample.world) SampleMore.threeEntries Sample.inflating "req-1"
    = Ok data /\
    map (lookup "id") (collection data "traces")
    = draws (RT := Sample.world) 0 (count data "traces") /\
    Forall2
      (fun p trace =>
         lookup "trace.id" trace = Some (VString (requestIdOf (bodyOf (fst p)))))
      (spansIn SampleMore.threeEntries) (collection data "traces").
Proof.
  eexists. split; [vm_compute; reflexivity |].
  apply (buildPayloads_span_identifiers (RT := Sample.world) SampleMore.threeEntries
           Sample.inflating "req-1").
  vm_compute. reflexivity.
Defined.

(** ** What a cycle starts and how it ends *)

Section MoreCycleFacts.

Context {Buffer : Type} {RT : Runtime Buffer}.

Local Abbreviation Flight := (@Flight Buffer) (only parsing).
Local Abbreviation Task := (@Task Buffer) (only parsing).
Local Abbreviation step := (@step Buffer) (only parsing).
Local Abbreviation Dispatcher := (@Dispatcher Buffer) (only parsing).

Lemma andThen_stopped (d : Dispatcher) (r : step) (k : Flight -> step) :
  stopped d (snd r) -> andThen r k = r.
Proof.
  unfold andThen. intros [H | (e & b & _ & [H | H])]; rewrite H; reflexivity.
Qed.

Lemma sendLogs_flight (fuel : nat) (d : Dispatcher) (data : Payloads) (fl : Flight) :
  exists ps,
    launched (fst (sendLogs fuel d data fl)) = (launched fl ++ map (logTask d) ps)%list /\
    ((snd (sendLogs fuel d data fl) = Ok tt /\
      wg (fst (sendLogs fuel d data fl))
      = wg fl + Z.of_nat (List.length ps) * Z.of_nat (List.length ps)) \/
     (stopped d (snd (sendLogs fuel d data fl)) /\
      snd (sendLogs fuel d data fl) <> Panic)).
Proof.
  unfold sendLogs. destruct (0 <? _)%nat.
  - rewrite marshalAndCompressData_bisect.
    destruct (bisect_shape JMap (encodeRecords JMap marshalRecords d) maxPayloadSizeBytes
                fuel (collection data "logging")) as [(c & E) | [(e & l & E & El) | E]];
      rewrite E; cbn [fst snd stopWith].
    + exists c. rewrite launchLogs_spec. cbn [launched wg]. split; [reflexivity |].
      left. split; reflexivity.
    + exists []. cbn [map]. rewrite app_nil_r. split; [reflexivity |]. right.
      split; [| discriminate]. right. exists e, (marshalled JMap marshalRecords l).
      split; [exact El | left; reflexivity].
    + exists []. cbn [map]. rewrite app_nil_r. split; [reflexivity |]. right.
      split; [left; reflexivity | discriminate].
  - exists []. cbn [map fst snd List.length]. rewrite app_nil_r. split; [reflexivity |].
    left. split; [reflexivity | lia].
Qed.

Lemma sendMetrics_flight (d : Dispatcher) (data : Payloads) (fl : Flight) :
  exists ps,
    (List.length ps <= 1)%nat /\
    launched (fst (sendMetrics d data fl)) = (launched fl ++ map (metricsTask d) ps)%list /\
    ((snd (sendMetrics d data fl) = Ok tt /\
      wg (fst (sendMetrics d data fl)) = wg fl + Z.of_nat (List.length ps)) \/
     (stopped d (snd (sendMetrics d data fl)) /\
      snd (sendMetrics d data fl) <> Panic)).
Proof.
  unfold sendMetrics. destruct (0 <? _)%nat.
  - match goal with
    | |- context [compressTool d ?b] => destruct (compressTool d b) as [err | c] eqn:E
    end; cbn [fst snd go wgAdd launched wg].
    + exists []. cbn [map List.length]. rewrite app_nil_r.
      split; [lia |]. split; [reflexivity |]. right.
      split; [| discriminate]. right. eexists _, _. split; [exact E | left; reflexivity].
    + exists [c]. cbn [map List.length]. split; [lia |]. split; [reflexivity |].
      left. split; reflexivity.
  - exists []. cbn [map fst snd List.length]. rewrite app_nil_r.
    split; [lia |]. split; [reflexivity |]. left. split; [reflexivity | lia].
Qed.

Lemma len_positive (s : string) : (0 <? len s) = negb (s =? "")%string.
Proof.
  destruct s; reflexivity.
Qed.

Lemma sendEvents_flight (fuel : nat) (d : Dispatcher) (data : Payloads) (fl : Flight) :
  exists ps,
    (accountID d = "" -> ps = []) /\
    launched (fst (sendEvents fuel d data fl)) = (launched fl ++ map (eventTask d) ps)%list /\
    ((snd (sendEvents fuel d data fl) = Ok tt /\
      wg (fst (sendEvents fuel d data fl)) = wg fl + Z.of_nat (List.length ps)) \/
     (stopped d (snd (sendEvents fuel d data fl)) /\
      snd (sendEvents fuel d data fl) <> Panic)).
Proof.
  unfold sendEvents. destruct (0 <? _)%nat.
  - rewrite len_positive. destruct (String.eqb_spec (accountID d) "") as [Hacc | Hacc];
      cbn [negb].
    + exists []. cbn [map fst snd List.length warn launched wg]. rewrite app_nil_r.
      split; [reflexivity |]. split; [reflexivity |]. left. split; [reflexivity | lia].
    + rewrite marshalAndCompressData_bisect.
      destruct (bisect_shape JMap (encodeRecords JMap marshalRecords d) maxPayloadSizeBytes
                  fuel (collection data "events")) as [(c & E) | [(e & l & E & El) | E]];
        rewrite E; cbn [fst snd stopWith].
      * exists c. rewrite launchEvents_spec. cbn [launched wg wgAdd].
        split; [intros H; contradiction |]. split; [reflexivity |].
        left. split; reflexivity.
      * exists []. cbn [map]. rewrite app_nil_r. split; [reflexivity |].
        split; [reflexivity |]. right.
        split; [| discriminate]. right. exists e, (marshalled JMap marshalRecords l).
        split; [exact El | left; reflexivity].
      * exists []. cbn [map]. rewrite app_nil_r. split; [reflexivity |].
        split; [reflexivity |]. right. split; [left; reflexivity | discriminate].
  - exists []. cbn [map fst snd List.length]. rewrite app_nil_r.
    split; [reflexivity |]. split; [reflexivity |]. left. split; [reflexivity | lia].
Qed.

Lemma sendTraces_flight (d : Dispatcher) (data : Payloads) (fl : Flight) :
  exists ps,
    (List.length ps <= 1)%nat /\
    launched (fst (sendTraces d data fl))
    = (launched fl ++ map (fun p => tracesTask d p None) ps)%list /\
    ((snd (sendTraces d data fl) = Ok tt /\
      wg (fst (sendTraces d data fl)) = wg fl + Z.of_nat (List.length ps)) \/
     (stopped d (snd (sendTraces d data fl)) /\ ps = [])).
Proof.
  unfold sendTraces. destruct (0 <? _)%nat.
  - match goal with
    | |- context [compressTool d ?b] => destruct (compressTool d b) as [err | c] eqn:E
    end; cbn [fst snd go wgAdd launched wg].
    + exists []. cbn [map List.length]. rewrite app_nil_r.
      split; [lia |]. split; [reflexivity |]. right.
      split; [| reflexivity]. right. eexists _, _. split; [exact E | right; reflexivity].
    + exists [c]. cbn [map List.length]. split; [lia |]. split; [reflexivity |].
      left. split; reflexivity.
  - exists []. cbn [map fst snd List.length]. rewrite app_nil_r.
    split; [lia |]. split; [reflexivity |]. left. split; [reflexivity | lia].
Qed.

(** The flight of a cycle whose payloads were built: what was started, and
    whether the call reached the wait. *)
Lemma cycle_flight (fuel : nat) (completion : list Task -> list Task)
  (logEntries : list LogEntry) (d : Dispatcher) (RequestID : string) (data : Payloads) :
  buildPayloads logEntries d RequestID = Ok data ->
  exists ls ms es ts,
    launched (fst (sendDataToNR fuel completion logEntries d RequestID))
    = cycleTasks d ls ms es ts /\
    (List.length ms <= 1)%nat /\
    (List.length ts <= 1)%nat /\
    (accountID d = "" -> es = []) /\
    ((snd (sendDataToNR fuel completion logEntries d RequestID)
      = collect completion d (fst (sendDataToNR fuel completion logEntries d RequestID)) /\
      wg (fst (sendDataToNR fuel completion logEntries d RequestID))
      = Z.of_nat (List.length ls * List.length ls + List.length ms
                  + List.length es + List.length ts)) \/
     (stopped d (snd (sendDataToNR fuel completion logEntries d RequestID)) /\ ts = []) \/
     (sendDataToNR fuel completion logEntries d RequestID = (takeoff, Ok tt) /\
      ls = [] /\ ms = [] /\ es = [] /\ ts = [])).
Proof.
  intros Hbuild. unfold sendDataToNR. rewrite Hbuild.
  destruct (0 <? List.length data)%nat.
  2: { exists [], [], [], []. cbn [fst snd launched takeoff List.length].
       split; [reflexivity |]. split; [lia |]. split; [lia |]. split; [reflexivity |].
       right. right. repeat split. }
  unfold cycleTasks.
  destruct (sendLogs_flight fuel d data takeoff) as (ls & Hl1 & [(Hs1 & Hw1) | (Hs1 & _)]).
  2: { rewrite (andThen_stopped d _ _ Hs1). exists ls, [], [], []. cbn [map List.length].
       rewrite Hl1, !app_nil_r. split; [reflexivity |]. split; [lia |]. split; [lia |].
       split; [reflexivity |]. right. left. split; [exact Hs1 | reflexivity]. }
  rewrite (andThen_Ok _ _ Hs1).
  destruct (sendMetrics_flight d data (fst (sendLogs fuel d data takeoff)))
    as (ms & Hms & Hl2 & [(Hs2 & Hw2) | (Hs2 & _)]).
  2: { rewrite (andThen_stopped d _ _ Hs2). exists ls, ms, [], []. cbn [map List.length].
       rewrite Hl2, Hl1, !app_nil_r. split; [reflexivity |]. split; [exact Hms |].
       split; [lia |]. split; [reflexivity |]. right. left. split; [exact Hs2 | reflexivity]. }
  rewrite (andThen_Ok _ _ Hs2).
  destruct (sendEvents_flight fuel d data
              (fst (sendMetrics d data (fst (sendLogs fuel d data takeoff)))))
    as (es & Hes & Hl3 & [(Hs3 & Hw3) | (Hs3 & _)]).
  2: { rewrite (andThen_stopped d _ _ Hs3). exists ls, ms, es, []. cbn [map List.length].
       rewrite Hl3, Hl2, Hl1, !app_nil_r, <- !app_assoc.
       split; [reflexivity |]. split; [exact Hms |].
       split; [lia |]. split; [exact Hes |]. right. left. split; [exact Hs3 | reflexivity]. }
  rewrite (andThen_Ok _ _ Hs3).
  destruct (sendTraces_flight d data
              (fst (sendEvents fuel d data
                      (fst (sendMetrics d data (fst (sendLogs fuel d data takeoff)))))))
    as (ts & Hts & Hl4 & [(Hs4 & Hw4) | (Hs4 & Hnil)]).
  2: { rewrite (andThen_stopped d _ _ Hs4). exists ls, ms, es, ts.
       rewrite Hl4, Hl3, Hl2, Hl1, <- !app_assoc.
       split; [reflexivity |]. split; [exact Hms |].
       split; [exact Hts |]. split; [exact Hes |]. right. left.
       split; [exact Hs4 | exact Hnil]. }
  rewrite (andThen_Ok _ _ Hs4). cbn [fst snd].
  exists ls, ms, es, ts. rewrite Hl4, Hl3, Hl2, Hl1, <- !app_assoc.
  split; [reflexivity |]. split; [exact Hms |].
  split; [exact Hts |]. split; [exact Hes |]. left. split; [reflexivity |].
  rewrite Hw4, Hw3, Hw2, Hw1. cbn [wg takeoff]. lia.
Qed.

End MoreCycleFacts.

Section MoreCollectFacts.

Context {Buffer : Type} {RT : Runtime Buffer}.

Local Abbreviation Flight := (@Flight Buffer) (only parsing).
Local Abbreviation Task := (@Task Buffer) (only parsing).
Local Abbreviation step := (@step Buffer) (only parsing).
Local Abbreviation Dispatcher := (@Dispatcher Buffer) (only parsing).
Local Abbreviation Request := (@Request Buffer) (only parsing).

Lemma Permutation_filter {A : Type} (f : A -> bool) (l l' : list A) :
  Permutation l l' -> Permutation (filter f l) (filter f l').
Proof.
  induction 1 as [| x l l' _ IH | x y l | l l' l'' _ IH1 _ IH2]; cbn [filter].
  - constructor.
  - destruct (f x); [constructor |]; exact IH.
  - destruct (f x), (f y); auto using perm_swap, Permutation_refl.
  - eapply Permutation_trans; eassumption.
Qed.

Lemma filter_map_const {A B : Type} (f : B -> bool) (g : A -> B) (b : bool) (l : list A) :
  (forall a, f (g a) = b) ->
  filter f (map g l) = if b then map g l else [].
Proof.
  intros H. induction l as [| a l IH]; cbn [map filter].
  - destruct b; reflexivity.
  - rewrite H, IH. destruct b; reflexivity.
Qed.

Lemma filter_logging (d : Dispatcher) (ls ms es ts : list Buffer) :
  filter (fun t : Task => (task_type t =? "logging")%string) (cycleTasks d ls ms es ts)
  = map (logTask d) ls.
Proof.
  unfold cycleTasks. rewrite !filter_app.
  rewrite (filter_map_const _ (logTask d) true) by reflexivity.
  rewrite (filter_map_const _ (metricsTask d) false) by reflexivity.
  rewrite (filter_map_const _ (eventTask d) false) by reflexivity.
  rewrite (filter_map_const _ (fun p => tracesTask d p None) false) by reflexivity.
  cbn [app]. apply app_nil_r.
Qed.

Lemma length_cycleTasks (d : Dispatcher) (ls ms es ts : list Buffer) :
  List.length (cycleTasks d ls ms es ts)
  = (List.length ls + List.length ms + List.length es + List.length ts)%nat.
Proof.
  unfold cycleTasks. rewrite !length_app, !length_map. lia.
Qed.

Lemma in_cycleTasks (d : Dispatcher) (ls ms es ts : list Buffer) (t : Task) :
  In t (cycleTasks d ls ms es ts) ->
  (exists p, In p ls /\ t = logTask d p) \/
  (exists p, In p ms /\ t = metricsTask d p) \/
  (exists p, In p es /\ t = eventTask d p) \/
  (exists p, In p ts /\ t = tracesTask d p None).
Proof.
  unfold cycleTasks. intros H.
  apply in_app_or in H. destruct H as [H | H].
  { apply in_map_iff in H. destruct H as (p & <- & Hp). left. eauto. }
  apply in_app_or in H. destruct H as [H | H].
  { apply in_map_iff in H. destruct H as (p & <- & Hp). right. left. eauto. }
  apply in_app_or in H. destruct H as [H | H].
  { apply in_map_iff in H. destruct H as (p & <- & Hp). right. right. left. eauto. }
  apply in_map_iff in H. destruct H as (p & <- & Hp). right. right. right. eauto.
Qed.

Lemma stopped_total (d : Dispatcher) (o : outcome unit) :
  (forall b, exists c, compressTool d b = inr c) -> stopped d o -> o = OutOfFuel.
Proof.
  intros Htot [H | (e & b & Hc & _)]; [exact H |].
  destruct (Htot b) as [c Hb]. congruence.
Qed.

Lemma runTasks_reports (d : Dispatcher) (tasks : list Task) :
  forall sent,
    runTasks d tasks = Ok sent ->
    Forall2 (fun t s => exists e, s = task_report t e) (filter (failed d) tasks) sent.
Proof.
  induction tasks as [| t rest IH]; intros sent H; cbn [runTasks] in H.
  - injection H as <-. constructor.
  - apply bind_Ok_inv in H. destruct H as (s1 & H1 & H).
    apply bind_Ok_inv in H. destruct H as (s2 & H2 & H). injection H as <-.
    cbn [filter]. unfold failed. unfold runTask in H1.
    destruct (snd (sendData d (task_uri t) (task_type t) (task_body t))) as [u | e | | | ];
      try discriminate; injection H1 as <-; cbn [app].
    + apply IH. exact H2.
    + constructor; [eauto | apply IH; exact H2].
Qed.

Lemma runTasks_delivered (d : Dispatcher) (tasks : list Task) :
  Forall (delivered d) tasks -> runTasks d tasks = Ok [].
Proof.
  induction 1 as [| t rest Ht _ IH]; cbn [runTasks]; [reflexivity |].
  unfold runTask. rewrite Ht. cbn [bind]. rewrite IH. reflexivity.
Qed.

Lemma delivered_once (d : Dispatcher) (t : Task) :
  delivered d t ->
  exists req, fst (sendData d (task_uri t) (task_type t) (task_body t)) = [req].
Proof.
  unfold delivered, sendData. destruct (http_NewRequest "POST" (task_uri t));
    [discriminate |].
  intros _. eexists. reflexivity.
Qed.

(** How the wait and the drain end. *)
Lemma collect_cases (completion : list Task -> list Task) (d : Dispatcher) (fl : Flight) :
  collect completion d fl = Panic \/
  exists sent,
    runTasks d (completion (launched fl)) = Ok sent /\
    List.length sent = failures d (completion (launched fl)) /\
    collect completion d fl =
    if wg fl <? Z.of_nat (List.length (launched fl)) then Panic
    else if Z.of_nat (List.length (launched fl)) <? wg fl then Blocked
    else if (errChanCap <? List.length sent)%nat then Blocked
    else if (0 <? List.length sent)%nat then
      bind (drain (aggregateError (List.length sent)) 0 sent)
        (fun _ => Err (aggregateError (List.length sent)))
    else Ok tt.
Proof.
  unfold collect, await.
  destruct (runTasks_sent d (completion (launched fl))) as [(sent & E & L) | E];
    rewrite E; cbn [bind]; [| left; reflexivity].
  right. exists sent. split; [reflexivity |]. split; [exact L |].
  destruct (wg fl <? Z.of_nat (List.length (launched fl))); [reflexivity |].
  destruct (Z.of_nat (List.length (launched fl)) <? wg fl); [reflexivity |].
  destruct (errChanCap <? List.length sent)%nat; reflexivity.
Qed.

Lemma build_failed_flight (fuel : nat) (completion : list Task -> list Task)
  (logEntries : list LogEntry) (d : Dispatcher) (RequestID : string) :
  (forall data, buildPayloads logEntries d RequestID <> Ok data) ->
  sendDataToNR fuel completion logEntries d RequestID
  = stopWith takeoff (buildPayloads logEntries d RequestID).
Proof.
  intros H. unfold sendDataToNR.
  destruct (buildPayloads logEntries d RequestID) as [data | e | | | ]; try reflexivity.
  exfalso. exact (H data eq_refl).
Qed.

Lemma sendData_request (d : Dispatcher) (uri dataType : string) (body : Buffer)
  (req : Request) :
  In req (fst (sendData d uri dataType body)) ->
  req_method req = "POST" /\ req_uri req = uri /\ req_body req = body /\
  header req "Content-Type" = Some "application/json" /\
  header req "Api-Key" = Some (licenseKey d) /\
  header req "Content-Encoding" = Some "GZIP" /\
  header req "Data-Format" = (if Contains uri "trace" then Some "newrelic" else None) /\
  header req "Data-Format-Version" = (if Contains uri "trace" then Some "1" else None).
Proof.
  unfold sendData. destruct (http_NewRequest "POST" uri); [intros [] |].
  intros [<- | []]. unfold header. cbn [req_method req_uri req_body req_headers].
  destruct (Contains uri "trace"); repeat split.
Qed.

Lemma cycle_launch_order_shape (fuel : nat) (completion : list Task -> list Task)
  (logEntries : list LogEntry) (d : Dispatcher) (RequestID : string) :
  exists ls ms es ts,
    launched (fst (sendDataToNR fuel completion logEntries d RequestID))
    = cycleTasks d ls ms es ts.
Proof.
  destruct (buildPayloads logEntries d RequestID) as [data | e | | | ] eqn:Hbuild;
    try (rewrite build_failed_flight by (rewrite Hbuild; discriminate);
         exists [], [], [], []; reflexivity).
  destruct (cycle_flight fuel completion logEntries d RequestID data Hbuild)
    as (ls & ms & es & ts & Hl & _).
  exists ls, ms, es, ts. exact Hl.
Qed.

End MoreCollectFacts.

Section MoreCycleTheorems.

Context {Buffer : Type} {RT : Runtime Buffer}.

Local Abbreviation Flight := (@Flight Buffer) (only parsing).
Local Abbreviation Task := (@Task Buffer) (only parsing).
Local Abbreviation Dispatcher := (@Dispatcher Buffer) (only parsing).
Local Abbreviation Request := (@Request Buffer) (only parsing).

(** X9.  The goroutines of a cycle are started in the order logs, metrics,
    events, traces, whatever the input and however the call ends.  There
    is at most one metrics and one traces goroutine: these two payloads
    are never split, whatever their size.  Without an account identifier
    there is no events goroutine. *)
Theorem cycle_launch_order :
  forall (fuel : nat) (completion : list Task -> list Task)
         (logEntries : list LogEntry) (d : Dispatcher) (RequestID : string),
  exists logs metrics events traces,
    launched (fst (sendDataToNR fuel completion logEntries d RequestID))
    = cycleTasks d logs metrics events traces /\
    (List.length metrics <= 1)%nat /\
    (List.length traces <= 1)%nat /\
    (accountID d = "" -> events = []).
Proof.
  intros fuel completion logEntries d RequestID.
  destruct (buildPayloads logEntries d RequestID) as [data | e | | | ] eqn:Hbuild.
  - destruct (cycle_flight fuel completion logEntries d RequestID data Hbuild)
      as (ls & ms & es & ts & Hl & Hms & Hts & Hes & _).
    exists ls, ms, es, ts. auto.
  - rewrite build_failed_flight by (rewrite Hbuild; discriminate).
    exists [], [], [], []. cbn. auto.
  - rewrite build_failed_flight by (rewrite Hbuild; discriminate).
    exists [], [], [], []. cbn. auto.
  - rewrite build_failed_flight by (rewrite Hbuild; discriminate).
    exists [], [], [], []. cbn. auto.
  - rewrite build_failed_flight by (rewrite Hbuild; discriminate).
    exists [], [], [], []. cbn. auto.
Qed.

(** X10.  Every HTTP request of a cycle is a POST with the headers
    [Content-Type: application/json], [Api-Key:] the license key and
    [Content-Encoding: GZIP].  It goes to the log, metric, event or trace
    endpoint of the region of the license key (the event endpoint followed
    by the account identifier and ["/events"]); a request to the log or
    metric endpoint has no [Data-Format] header, a request to the trace
    endpoint has [Data-Format: newrelic] and [Data-Format-Version: 1]. *)
Theorem cycle_requests_well_formed :
  forall (fuel : nat) (completion : list Task -> list Task)
         (logEntries : list LogEntry) (d : Dispatcher) (RequestID : string)
         (req : Request),
    In req (deliveries d (fst (sendDataToNR fuel completion logEntries d RequestID))) ->
    req_method req = "POST" /\
    header req "Content-Type" = Some "application/json" /\
    header req "Api-Key" = Some (licenseKey d) /\
    header req "Content-Encoding" = Some "GZIP" /\
    ((req_uri req = (if HasPrefix (licenseKey d) "eu" then LogEndpointEU else LogEndpointUS) /\
      header req "Data-Format" = None) \/
     (req_uri req
      = (if HasPrefix (licenseKey d) "eu" then MetricsEndpointEU else MetricsEndpointUS) /\
      header req "Data-Format" = None) \/
     (req_uri req
      = (if HasPrefix (licenseKey d) "eu" then EventsEndpointEU else EventsEndpointUS)
        ++ accountID d ++ "/events") \/
     (req_uri req
      = (if HasPrefix (licenseKey d) "eu" then TracesEndpointEU else TracesEndpointUS) /\
      header req "Data-Format" = Some "newrelic" /\
      header req "Data-Format-Version" = Some "1")).
Proof.
  intros fuel completion logEntries d RequestID req Hin.
  unfold deliveries in Hin. apply in_flat_map in Hin. destruct Hin as (t & Ht & Hin).
  apply sendData_request in Hin.
  destruct Hin as (Hm & Huri & _ & Hct & Hkey & Hce & Hdf & Hdv).
  split; [exact Hm |]. split; [exact Hct |]. split; [exact Hkey |]. split; [exact Hce |].
  destruct (cycle_launch_order_shape fuel completion logEntries d RequestID)
    as (ls & ms & es & ts & Hl).
  rewrite Hl in Ht. apply in_cycleTasks in Ht.
  destruct Ht as [(p & _ & ->) | [(p & _ & ->) | [(p & _ & ->) | (p & _ & ->)]]];
    cbn [task_uri logTask metricsTask eventTask tracesTask] in *;
    unfold getEndpointURL in *; cbn [String.eqb Ascii.eqb Bool.eqb negb] in *.
  - left. destruct (HasPrefix (licenseKey d) "eu"); split; assumption.
  - right. left. destruct (HasPrefix (licenseKey d) "eu"); split; assumption.
  - right. right. left. exact Huri.
  - right. right. right. destruct (HasPrefix (licenseKey d) "eu"); repeat split; assumption.
Qed.

(** X11.  With a compressor that does not fail, a cycle that starts two or
    more log goroutines (the logging collection was split into two or more
    chunks) never returns: the counter of the wait group was raised by the
    number of chunks once per chunk, and the wait blocks (or a goroutine
    panics first). *)
Theorem cycle_never_returns_when_logs_split :
  forall (fuel : nat) (completion : list Task -> list Task)
         (logEntries : list LogEntry) (d : Dispatcher) (RequestID : string),
    (forall b, exists c, compressTool d b = inr c) ->
    (2 <= List.length
            (tasksOf "logging"
               (fst (sendDataToNR fuel completion logEntries d RequestID))))%nat ->
    ~ returned (snd (sendDataToNR fuel completion logEntries d RequestID)).
Proof.
  intros fuel completion logEntries d RequestID Htot Hlogs. unfold tasksOf in Hlogs.
  destruct (buildPayloads logEntries d RequestID) as [data | e | | | ] eqn:Hbuild;
    try (rewrite build_failed_flight in Hlogs by (rewrite Hbuild; discriminate);
         cbn in Hlogs; lia).
  destruct (cycle_flight fuel completion logEntries d RequestID data Hbuild)
    as (ls & ms & es & ts & Hl & _ & _ & _ & Hcase).
  rewrite Hl, filter_logging, length_map in Hlogs.
  destruct Hcase as [(Hc & Hw) | [(Hstop & _) | (_ & -> & _)]].
  - rewrite Hc.
    destruct (collect_cases completion d
                (fst (sendDataToNR fuel completion logEntries d RequestID)))
      as [-> | (sent & _ & _ & ->)]; [intros [] |].
    rewrite Hw, Hl, length_cycleTasks.
    destruct (Z.ltb_spec
                (Z.of_nat (List.length ls * List.length ls + List.length ms
                           + List.length es + List.length ts))
                (Z.of_nat (List.length ls + List.length ms
                           + List.length es + List.length ts))); [intros [] |].
    destruct (Z.ltb_spec
                (Z.of_nat (List.length ls + List.length ms
                           + List.length es + List.length ts))
                (Z.of_nat (List.length ls * List.length ls + List.length ms
                           + List.length es + List.length ts))); [intros [] |].
    exfalso. nia.
  - rewrite (stopped_total d _ Htot Hstop). intros [].
  - cbn in Hlogs. lia.
Qed.

(** X12.  With a compressor that does not fail and a scheduler that lets
    every goroutine run, a cycle whose payloads were built, whose splitters
    ended, whose logs fit one chunk and whose deliveries all succeed returns
    the nil error, after exactly one HTTP request per goroutine. *)
Theorem cycle_succeeds :
  forall (fuel : nat) (completion : list Task -> list Task)
         (logEntries : list LogEntry) (d : Dispatcher) (RequestID : string)
         (data : Payloads),
    (forall b, exists c, compressTool d b = inr c) ->
    (forall l, Permutation (completion l) l) ->
    buildPayloads logEntries d RequestID = Ok data ->
    snd (sendDataToNR fuel completion logEntries d RequestID) <> OutOfFuel ->
    (List.length
       (tasksOf "logging"
          (fst (sendDataToNR fuel completion logEntries d RequestID))) <= 1)%nat ->
    Forall (delivered d)
      (launched (fst (sendDataToNR fuel completion logEntries d RequestID))) ->
    snd (sendDataToNR fuel completion logEntries d RequestID) = Ok tt /\
    List.length (deliveries d (fst (sendDataToNR fuel completion logEntries d RequestID)))
    = List.length (launched (fst (sendDataToNR fuel completion logEntries d RequestID))).
Proof.
  intros fuel completion logEntries d RequestID data Htot Hperm Hbuild Hfuel Hlogs Hdel.
  split.
  - unfold tasksOf in Hlogs.
    destruct (cycle_flight fuel completion logEntries d RequestID data Hbuild)
      as (ls & ms & es & ts & Hl & _ & _ & _ & Hcase).
    rewrite Hl, filter_logging, length_map in Hlogs.
    destruct Hcase as [(Hc & Hw) | [(Hstop & _) | (Heq & _)]].
    + rewrite Hc. unfold collect, await.
      rewrite runTasks_delivered.
      2: { eapply Permutation_Forall; [apply Permutation_sym, Hperm | exact Hdel]. }
      cbn [bind]. rewrite Hw, Hl, length_cycleTasks.
      assert (Hsq : (List.length ls * List.length ls = List.length ls)%nat) by nia.
      rewrite Hsq, !Z.ltb_irrefl. reflexivity.
    + exfalso. apply Hfuel. exact (stopped_total d _ Htot Hstop).
    + rewrite Heq. reflexivity.
  - unfold deliveries. induction Hdel as [| t rest Ht _ IH]; cbn [flat_map]; [reflexivity |].
    destruct (delivered_once d t Ht) as [req ->]. cbn [app List.length]. rewrite IH.
    reflexivity.
Qed.

(** X13.  With a compressor that does not fail and a scheduler that lets
    every goroutine run, a cycle in which more than four deliveries fail
    never returns: the error channel holds four errors, the fifth goroutine
    blocks on its send, and the wait blocks with it (or a goroutine panics
    first). *)
Theorem cycle_blocks_beyond_four_failures :
  forall (fuel : nat) (completion : list Task -> list Task)
         (logEntries : list LogEntry) (d : Dispatcher) (RequestID : string),
    (forall b, exists c, compressTool d b = inr c) ->
    (forall l, Permutation (completion l) l) ->
    (4 < failures d
           (launched (fst (sendDataToNR fuel completion logEntries d RequestID))))%nat ->
    ~ returned (snd (sendDataToNR fuel completion logEntries d RequestID)).
Proof.
  intros fuel completion logEntries d RequestID Htot Hperm Hfail.
  destruct (buildPayloads logEntries d RequestID) as [data | e | | | ] eqn:Hbuild;
    try (rewrite build_failed_flight in Hfail by (rewrite Hbuild; discriminate);
         cbn in Hfail; lia).
  destruct (cycle_flight fuel completion logEntries d RequestID data Hbuild)
    as (ls & ms & es & ts & Hl & _ & _ & _ & Hcase).
  destruct Hcase as [(Hc & _) | [(Hstop & _) | (_ & -> & -> & -> & ->)]].
  - rewrite Hc.
    destruct (collect_cases completion d
                (fst (sendDataToNR fuel completion logEntries d RequestID)))
      as [-> | (sent & _ & Hlen & ->)]; [intros [] |].
    rewrite (failures_Permutation d _ _ (Hperm _)) in Hlen.
    destruct (_ <? _); [intros [] |].
    destruct (_ <? _); [intros [] |].
    destruct (Nat.ltb_spec errChanCap (List.length sent)) as [_ | Hle]; [intros [] |].
    exfalso. unfold errChanCap in Hle. lia.
  - rewrite (stopped_total d _ Htot Hstop). intros [].
  - rewrite Hl in Hfail. cbn in Hfail. lia.
Qed.

(** X14.  With a compressor that does not fail and a scheduler that lets
    every goroutine run, a cycle whose only failed delivery is that of the
    traces does not return the failure: its goroutine sends the nil error
    of the compression on the channel, and the call panics on it (or
    blocks on the counter of the wait group). *)
Theorem cycle_lone_trace_failure :
  forall (fuel : nat) (completion : list Task -> list Task)
         (logEntries : list LogEntry) (d : Dispatcher) (RequestID : string)
         (t : Task),
    (forall b, exists c, compressTool d b = inr c) ->
    (forall l, Permutation (completion l) l) ->
    filter (failed d)
      (launched (fst (sendDataToNR fuel completion logEntries d RequestID))) = [t] ->
    task_type t = "traces" ->
    snd (sendDataToNR fuel completion logEntries d RequestID) = Panic \/
    snd (sendDataToNR fuel completion logEntries d RequestID) = Blocked.
Proof.
  intros fuel completion logEntries d RequestID t Htot Hperm Hone Hty.
  destruct (buildPayloads logEntries d RequestID) as [data | e | | | ] eqn:Hbuild;
    try (rewrite build_failed_flight in Hone by (rewrite Hbuild; discriminate);
         discriminate Hone).
  destruct (cycle_flight fuel completion logEntries d RequestID data Hbuild)
    as (ls & ms & es & ts & Hl & _ & _ & _ & Hcase).
  assert (Hin : In t (filter (failed d)
                        (launched (fst (sendDataToNR fuel completion logEntries d
                                          RequestID)))))
    by (rewrite Hone; left; reflexivity).
  apply filter_In in Hin. destruct Hin as [Hin _]. rewrite Hl in Hin.
  apply in_cycleTasks in Hin.
  destruct Hin as [(p & _ & ->) | [(p & _ & ->) | [(p & _ & ->) | (p & Hp & ->)]]];
    try discriminate Hty.
  destruct Hcase as [(Hc & _) | [(_ & ->) | (_ & _ & _ & _ & ->)]]; try contradiction.
  rewrite Hc.
  destruct (collect_cases completion d
              (fst (sendDataToNR fuel completion logEntries d RequestID)))
    as [-> | (sent & Hrun & _ & ->)]; [left; reflexivity |].
  apply runTasks_reports in Hrun.
  pose proof (Permutation_filter (failed d) _ _ (Hperm
                (launched (fst (sendDataToNR fuel completion logEntries d RequestID)))))
    as Hpf.
  rewrite Hone in Hpf. apply Permutation_sym, Permutation_length_1_inv in Hpf.
  rewrite Hpf in Hrun.
  inversion Hrun as [| ? s ? rest (e & He) Hrest]; subst.
  inversion Hrest; subst. cbn [task_report tracesTask].
  destruct (_ <? _); [left; reflexivity |].
  destruct (_ <? _); [right; reflexivity |].
  left. reflexivity.
Qed.

(** X15.  With a scheduler that lets every goroutine run, an error that
    [sendDataToNR] returns is the error of a timestamp that did not parse,
    an error of the compressor, or the aggregate message with the number
    of failed deliveries, which is then not zero.  (No error of the JSON
    serialiser is ever returned.) *)
Theorem cycle_error_taxonomy :
  forall (fuel : nat) (completion : list Task -> list Task)
         (logEntries : list LogEntry) (d : Dispatcher) (RequestID : string)
         (e : error),
    (forall l, Permutation (completion l) l) ->
    snd (sendDataToNR fuel completion logEntries d RequestID) = Err e ->
    (exists s, time_Parse s = inl e) \/
    (exists b, compressTool d b = inl e) \/
    ((0 < failures d
            (launched (fst (sendDataToNR fuel completion logEntries d RequestID))))%nat /\
     e = aggregateError
           (failures d
              (launched (fst (sendDataToNR fuel completion logEntries d RequestID))))).
Proof.
  intros fuel completion logEntries d RequestID e Hperm H.
  destruct (buildPayloads logEntries d RequestID) as [data | e0 | | | ] eqn:Hbuild;
    try (rewrite build_failed_flight in H by (rewrite Hbuild; discriminate);
         rewrite Hbuild in H; discriminate H).
  - destruct (cycle_flight fuel completion logEntries d RequestID data Hbuild)
      as (ls & ms & es & ts & _ & _ & _ & _ & Hcase).
    destruct Hcase as [(Hc & _) | [(Hstop & _) | (Heq & _)]].
    + rewrite Hc in H. right. right.
      exact (proj2 (collect_returns completion d _ Hperm) e H).
    + rewrite H in Hstop.
      destruct Hstop as [Hs | (e' & b & Hb & [Hs | Hs])]; try discriminate Hs.
      injection Hs as <-. right. left. exists b. exact Hb.
    + rewrite Heq in H. discriminate H.
  - rewrite build_failed_flight in H by (rewrite Hbuild; discriminate).
    rewrite Hbuild in H. injection H as <-. left.
    destruct (buildPayloads_spec logEntries d RequestID) as (Hout & _).
    rewrite Hbuild in Hout. exact Hout.
Qed.

End MoreCycleTheorems.

Lemma cycle_requests_well_formed_witness :
  exists req,
    In req (deliveries (RT := Sample.world) SampleMore.withAccount
              (fst SampleMore.servedCycle)) /\
    req_uri req = TracesEndpointUS /\
    header req "Api-Key" = Some "0123456789abcdef0123456789abcdef01234567" /\
    header req "Data-Format" = Some "newrelic".
Proof.
  eexists. split; [vm_compute; do 3 right; left; reflexivity |].
  destruct (cycle_requests_well_formed (RT := Sample.world) 3 Sample.inStartOrder
              [exampleRecord "platform.report" exampleFields] SampleMore.withAccount
              "req-1"
              {| req_method := "POST"; req_uri := TracesEndpointUS;
                 req_headers := [ ("Content-Type", "application/json");
                                  ("Api-Key", "0123456789abcdef0123456789abcdef01234567");
                                  ("Content-Encoding", "GZIP");
                                  ("Data-Format", "newrelic");
                                  ("Data-Format-Version", "1") ];
                 req_body := {| Sample.payload := [x2c]; Sample.padding := 600000 |} |})
    as (_ & _ & Hkey & _ & _).
  - vm_compute. do 3 right. left. reflexivity.
  - split; [reflexivity |]. split; [exact Hkey | reflexivity].
Defined.

Lemma cycle_never_returns_when_logs_split_witness :
  ~ returned (snd Sample.twoChunkCycle).
Proof.
  apply (cycle_never_returns_when_logs_split (RT := Sample.world) 2 Sample.inStartOrder
           [Sample.textEntry; Sample.textEntry] Sample.inflating "req-1").
  - intros b. eexists. reflexivity.
  - vm_compute. apply le_n.
Defined.

Lemma cycle_succeeds_witness :
  snd SampleMore.servedCycle = Ok tt /\
  List.length (deliveries (RT := Sample.world) SampleMore.withAccount
                 (fst SampleMore.servedCycle))
  = List.length (launched (fst SampleMore.servedCycle)).
Proof.
  eapply (cycle_succeeds (RT := Sample.world) 3 Sample.inStartOrder
            [exampleRecord "platform.report" exampleFields] SampleMore.withAccount "req-1").
  - intros b. eexists. reflexivity.
  - intros l. apply Permutation_refl.
  - vm_compute. reflexivity.
  - vm_compute. discriminate.
  - vm_compute. apply le_n.
  - repeat constructor.
Defined.

Lemma cycle_blocks_beyond_four_failures_witness :
  ~ returned (snd SampleMore.floodedCycle).
Proof.
  apply (cycle_blocks_beyond_four_failures (RT := Sample.world) 5 Sample.inStartOrder
           SampleMore.fiveBare SampleMore.withAccountUnreachable "req-1").
  - intros b. eexists. reflexivity.
  - intros l. apply Permutation_refl.
  - vm_compute. apply le_n.
Defined.

Lemma cycle_lone_trace_failure_witness :
  snd Sample.traceFailureCycle = Panic \/ snd Sample.traceFailureCycle = Blocked.
Proof.
  eapply (cycle_lone_trace_failure (RT := Sample.world) 2 Sample.inStartOrder
            [exampleRecord "platform.report" exampleFields]
            (Sample.dispatcher "" (Sample.inflate 600000) Sample.refusingTraces) "req-1").
  - intros b. eexists. reflexivity.
  - intros l. apply Permutation_refl.
  - vm_compute. reflexivity.
  - reflexivity.
Defined.

Lemma cycle_error_taxonomy_witness :
  (exists s, time_Parse (Runtime := Sample.world) s
             = inl "1 errors occured while sending telemetry API payloads to New Relic") \/
  (exists b, compressTool Sample.unreachable b
             = inl "1 errors occured while sending telemetry API payloads to New Relic") \/
  ((0 < failures (RT := Sample.world) Sample.unreachable
          (launched (fst Sample.failedCycle)))%nat /\
   "1 errors occured while sending telemetry API payloads to New Relic"
   = aggregateError
       (failures (RT := Sample.world) Sample.unreachable
          (launched (fst Sample.failedCycle)))).
Proof.
  apply (cycle_error_taxonomy (RT := Sample.world) 2 Sample.inStartOrder
           [Sample.textEntry] Sample.unreachable "req-1").
  - intros l. apply Permutation_refl.
  - vm_compute. reflexivity.
Defined.

(** ** More on the splitters *)

Section BisectParts.

Context {Buffer : Type} {RT : Runtime Buffer}.
Variable Rec : Type.
Variable encode : list Rec -> error + Buffer.
Variable limit : Z.

(** An error of a bisection is the error of the encoder on a run of
    consecutive records of the collection. *)
Lemma bisect_error_part (fuel : nat) :
  forall data e,
    bisect Rec encode limit fuel data = Err e ->
    exists before part after,
      data = (before ++ part ++ after)%list /\ encode part = inl e.
Proof.
  induction fuel as [| fuel IH]; intros data e H; [discriminate |].
  rewrite bisect_S in H.
  destruct (encode data) as [err | compressed] eqn:Eenc.
  - injection H as <-. exists [], data, []. rewrite app_nil_r. auto.
  - destruct (Len compressed <=? limit); [discriminate |].
    destruct (bisect Rec encode limit fuel (firstn (List.length data / 2) data))
      as [l | e1 | | | ] eqn:E1; cbn [bind] in H; try discriminate.
    + destruct (bisect Rec encode limit fuel (skipn (List.length data / 2) data))
        as [l' | e2 | | | ] eqn:E2; cbn [bind] in H; try discriminate.
      injection H as <-. destruct (IH _ _ E2) as (b & p & a & Hd & He).
      exists (firstn (List.length data / 2) data ++ b)%list, p, a.
      split; [| exact He].
      rewrite <- app_assoc, <- Hd. symmetry. apply firstn_skipn.
    + injection H as <-. destruct (IH _ _ E1) as (b & p & a & Hd & He).
      exists b, p, (a ++ skipn (List.length data / 2) data)%list.
      split; [| exact He].
      rewrite !app_assoc. rewrite <- (app_assoc b p a), <- Hd. symmetry. apply firstn_skipn.
Qed.

(** The chunks of a non-empty collection whose records fit one by one are
    the encodings of non-empty runs of consecutive records. *)
Lemma bisect_nonempty_parts (fuel : nat) :
  forall data chunks,
    (forall r, In r data -> fits Rec encode limit [r] = true) ->
    (1 <= List.length data)%nat ->
    bisect Rec encode limit fuel data = Ok chunks ->
    exists parts,
      Forall2 (fun c part => encode part = inr c) chunks parts /\
      List.concat parts = data /\
      Forall (fun part => part <> []) parts.
Proof.
  induction fuel as [| fuel IH]; intros data chunks Hfit Hlen H; [discriminate |].
  rewrite bisect_S in H.
  destruct (encode data) as [err | compressed] eqn:Eenc; [discriminate |].
  destruct (Z.leb_spec (Len compressed) limit) as [Hle | Hgt].
  - injection H as <-. exists [data]. split; [constructor; [exact Eenc | constructor] |].
    split; [cbn [List.concat]; apply app_nil_r |].
    constructor; [| constructor]. intros ->. cbn in Hlen. lia.
  - assert (H2 : (2 <= List.length data)%nat)
      by (eapply single_fits_length; eauto).
    destruct (halves_shorter Rec data (pred (List.length data))) as [Hl Hr]; [lia |].
    apply bind_Ok_inv in H. destruct H as (leftRet & El & H).
    apply bind_Ok_inv in H. destruct H as (rightRet & Er & H).
    injection H as <-.
    destruct (IH _ _ (fun r Hin => Hfit r (in_firstn Rec _ _ _ Hin)) (proj1 Hl) El)
      as (pl & Fl & Cl & Nl).
    destruct (IH _ _ (fun r Hin => Hfit r (in_skipn Rec _ _ _ Hin)) (proj1 Hr) Er)
      as (pr & Fr & Cr & Nr).
    exists (pl ++ pr)%list. split; [apply Forall2_app; assumption |].
    split; [rewrite concat_app, Cl, Cr; apply firstn_skipn |].
    apply Forall_app. split; assumption.
Qed.

End BisectParts.

Section SplitterPartTheorems.

Context {Buffer : Type} {RT : Runtime Buffer}.

Local Abbreviation Dispatcher := (@Dispatcher Buffer) (only parsing).

(** X16.  For a non-empty collection whose records fit the limit one by
    one, the chunks a splitter returns are the encodings of non-empty runs
    of consecutive records that make up the collection: no chunk is the
    encoding of the empty collection.  Holds for both splitters. *)
Theorem splitters_no_empty_chunk :
  (forall (Rec : Type) (marshal : list Rec -> error + bytes) (d : Dispatcher)
          (dataType : string) (data : list Rec) (fuel : nat) (chunks : list Buffer),
      (forall r, In r data ->
                 fits Rec (encodeRecords Rec marshal d) maxPayloadSizeBytes [r] = true) ->
      data <> [] ->
      marshalAndCompressData Rec marshal fuel d data dataType = Ok chunks ->
      exists parts,
        Forall2 (fun c part => encodeRecords Rec marshal d part = inr c) chunks parts /\
        List.concat parts = data /\
        Forall (fun part => part <> []) parts)
  /\
  (forall (functionName invokedFunctionARN : string) (logsEvents : list LogsEvent)
          (fuel : nat) (chunks : list Buffer),
      (forall r, In r logsEvents ->
                 fits LogsEvent (encodeLogs functionName invokedFunctionARN)
                   maxCompressedPayloadLen [r] = true) ->
      logsEvents <> [] ->
      CompressedPayloadsForLogEvents fuel logsEvents functionName invokedFunctionARN
      = Ok chunks ->
      exists parts,
        Forall2 (fun c part => encodeLogs functionName invokedFunctionARN part = inr c)
          chunks parts /\
        List.concat parts = logsEvents /\
        Forall (fun part => part <> []) parts).
Proof.
  split.
  - intros Rec marshal d dataType data fuel chunks Hfit Hne H.
    rewrite marshalAndCompressData_bisect in H.
    eapply bisect_nonempty_parts; eauto. destruct data; [congruence | simpl; lia].
  - intros functionName invokedFunctionARN logsEvents fuel chunks Hfit Hne H.
    rewrite CompressedPayloadsForLogEvents_bisect in H.
    eapply bisect_nonempty_parts; eauto. destruct logsEvents; [congruence | simpl; lia].
Qed.

(** X17.  An error a splitter returns arose on a run of consecutive
    records of the collection.  For [marshalAndCompressData] it is the
    error of the compressor on the serialised run, where a run that does
    not serialise counts as the nil bytes: no error of the serialiser is
    returned.  For [CompressedPayloadsForLogEvents] it is an error of one of
    the two serialisations, or the error of the compressor behind the
    prefix ["error compressing data: "]. *)
Theorem splitters_error_origin :
  (forall (Rec : Type) (marshal : list Rec -> error + bytes) (d : Dispatcher)
          (dataType : string) (data : list Rec) (fuel : nat) (e : error),
      marshalAndCompressData Rec marshal fuel d data dataType = Err e ->
      exists before part after,
        data = (before ++ part ++ after)%list /\
        compressTool d (bytesOrNil (marshal part)) = inl e)
  /\
  (forall (functionName invokedFunctionARN : string) (logsEvents : list LogsEvent)
          (fuel : nat) (e : error),
      CompressedPayloadsForLogEvents fuel logsEvents functionName invokedFunctionARN
      = Err e ->
      exists before part after,
        logsEvents = (before ++ part ++ after)%list /\
        compressedLogEntry part functionName invokedFunctionARN = inl e /\
        ((exists logEntry, LogEvents logEntry = part /\
                           json_Marshal_LogsEntry logEntry = inl e) \/
         (exists requestData, json_Marshal_RequestData requestData = inl e) \/
         (exists uncompressed err,
             util_Compress uncompressed = inl err /\
             e = "error compressing data: " ++ err))).
Proof.
  split.
  - intros Rec marshal d dataType data fuel e H.
    rewrite marshalAndCompressData_bisect in H.
    apply bisect_error_part in H. exact H.
  - intros functionName invokedFunctionARN logsEvents fuel e H.
    rewrite CompressedPayloadsForLogEvents_bisect in H.
    apply bisect_error_part in H. destruct H as (b & p & a & Hd & He).
    exists b, p, a. split; [exact Hd |]. split; [exact He |].
    unfold encodeLogs, compressedLogEntry in He.
    match type of He with
    | context [json_Marshal_LogsEntry ?x] =>
      destruct (json_Marshal_LogsEntry x) as [err | entry] eqn:E1
    end.
    { injection He as <-. left. eexists. split; [| exact E1]. reflexivity. }
    match type of He with
    | context [json_Marshal_RequestData ?x] =>
      destruct (json_Marshal_RequestData x) as [err | uncompressed] eqn:E2
    end.
    { injection He as <-. right. left. eexists. exact E2. }
    destruct (util_Compress uncompressed) as [err | compressed] eqn:E3; [| discriminate].
    injection He as <-. right. right. eauto.
Qed.

End SplitterPartTheorems.

Lemma splitters_no_empty_chunk_witness :
  (exists chunks parts,
      marshalAndCompressData (RT := Sample.world) byte Sample.byteRecords 3
        Sample.inflating Sample.threeRecords "logging" = Ok chunks /\
      Forall2 (fun c part => encodeRecords byte Sample.byteRecords Sample.inflating part
                             = inr c) chunks parts /\
      List.concat parts = Sample.threeRecords /\
      Forall (fun part => part <> []) parts)
  /\
  (exists chunks parts,
      CompressedPayloadsForLogEvents (RT := Sample.world) 2 Sample.twoLogsEvents
        "checkout" "" = Ok chunks /\
      Forall2 (fun c part => encodeLogs (RT := Sample.world) "checkout" "" part = inr c)
        chunks parts /\
      List.concat parts = Sample.twoLogsEvents /\
      Forall (fun part => part <> []) parts).
Proof.
  destruct (splitters_no_empty_chunk (RT := Sample.world)) as [H1 H2]. split.
  - destruct (H1 byte Sample.byteRecords Sample.inflating "logging" Sample.threeRecords
                3%nat _
                ltac:(intros r [<- | [<- | [<- | []]]]; reflexivity)
                ltac:(discriminate)
                ltac:(vm_compute; reflexivity)) as (parts & Hparts).
    eexists _, parts. split; [vm_compute; reflexivity | exact Hparts].
  - destruct (H2 "checkout" "" Sample.twoLogsEvents 2%nat _
                ltac:(intros r [<- | [<- | []]]; reflexivity)
                ltac:(discriminate)
                ltac:(vm_compute; reflexivity)) as (parts & Hparts).
    eexists _, parts. split; [vm_compute; reflexivity | exact Hparts].
Defined.

Lemma splitters_error_origin_witness :
  (exists before part after,
      [x61; x62] = (before ++ part ++ after)%list /\
      compressTool SampleMore.picky (bytesOrNil (Sample.byteRecords part))
      = inl "flate: write failed")
  /\
  (exists before part after,
      Sample.twoLogsEvents = (before ++ part ++ after)%list /\
      compressedLogEntry (RT := SampleMore.brokenWorld) part "checkout" ""
      = inl "error compressing data: flate: write failed").
Proof.
  destruct (splitters_error_origin (RT := SampleMore.brokenWorld)) as [H1 H2]. split.
  - apply (H1 byte Sample.byteRecords SampleMore.picky "logging" [x61; x62] 2%nat).
    vm_compute. reflexivity.
  - destruct (H2 "checkout" "" Sample.twoLogsEvents 1%nat
                "error compressing data: flate: write failed"
                ltac:(vm_compute; reflexivity)) as (b & p & a & Hd & He & _).
    exists b, p, a. split; assumption.
Defined.

(** ** More on the delivery client *)

Section MoreDeliveryTheorems.

Context {Buffer : Type} {RT : Runtime Buffer}.

Local Abbreviation Dispatcher := (@Dispatcher Buffer) (only parsing).

(** X18.  [sendData] returns the nil error exactly when the request was
    built and the client answered, without an error, with a status below
    300; it panics exactly when the request was built and the client
    returned neither a response nor an error; it does nothing else than
    return or panic. *)
Theorem sendData_outcomes :
  forall (d : Dispatcher) (uri dataType : string) (body : Buffer),
    (snd (sendData d uri dataType body) = Ok tt <->
     exists req r,
       fst (sendData d uri dataType body) = [req] /\
       fst (httpClient d req) = Some r /\ snd (httpClient d req) = None /\
       StatusCode r < 300) /\
    (snd (sendData d uri dataType body) = Panic <->
     exists req,
       fst (sendData d uri dataType body) = [req] /\
       httpClient d req = (None, None)) /\
    snd (sendData d uri dataType body) <> Blocked /\
    snd (sendData d uri dataType body) <> OutOfFuel.
Proof.
  intros d uri dataType body. unfold sendData.
  destruct (http_NewRequest "POST" uri) as [err |]; cbn [fst snd].
  { split; [| split; [| split; discriminate]].
    - split; [discriminate | intros (req & r & H & _); discriminate H].
    - split; [discriminate | intros (req & H & _); discriminate H]. }
  match goal with
  | |- context [httpClient d ?r] => set (req := r)
  end.
  unfold detecteErrorSendingBatch.
  destruct (httpClient d req) as [[r |] [e |]] eqn:E; cbn [fst snd].
  - split; [| split; [| split; discriminate]].
    + split; [discriminate |].
      intros (req' & r' & H & _ & H' & _). injection H as <-. rewrite E in H'.
      discriminate H'.
    + split; [discriminate |].
      intros (req' & H & H'). injection H as <-. rewrite E in H'. discriminate H'.
  - destruct (Z.geb_spec (StatusCode r) 300) as [Hge | Hlt].
    + split; [| split; [| split; destruct (Body r); discriminate]].
      * split; [destruct (Body r); discriminate |].
        intros (req' & r' & H & H1 & _ & Hlt). injection H as <-. rewrite E in H1.
        injection H1 as <-. lia.
      * split; [destruct (Body r); discriminate |].
        intros (req' & H & H'). injection H as <-. rewrite E in H'. discriminate H'.
    + split; [| split; [| split; discriminate]].
      * split; [| reflexivity]. intros _. exists req, r. rewrite E. auto.
      * split; [discriminate |].
        intros (req' & H & H'). injection H as <-. rewrite E in H'. discriminate H'.
  - split; [| split; [| split; discriminate]].
    + split; [discriminate |].
      intros (req' & r' & H & H1 & _). injection H as <-. rewrite E in H1.
      discriminate H1.
    + split; [discriminate |].
      intros (req' & H & H'). injection H as <-. rewrite E in H'. discriminate H'.
  - split; [| split; [| split; discriminate]].
    + split; [discriminate |].
      intros (req' & r' & H & H1 & _). injection H as <-. rewrite E in H1.
      discriminate H1.
    + split; [| reflexivity]. intros _. exists req. auto.
Qed.

End MoreDeliveryTheorems.

(** ** More on the agent telemetry dispatcher *)

(** X19.  One call of [Dispatch] leaves the collection switch as it was and
    takes at most one chunk off the telemetry channel, the first.  When a
    chunk is received and the switch is off, the batch and the client are
    left as they were.  Otherwise, with [b1] the batch after the received
    chunk, if any, was added to it for the request of the event: the call
    harvests exactly when [force] is set or [b1] is ready; the batch is
    then what [Harvest] left of [b1], and [b1] if there was no harvest; and
    the telemetry client is called exactly when the harvest is not empty,
    once, for the ARN of the event, with the telemetry of the harvested
    invocations, invocation by invocation.  (Whatever [AddTelemetry],
    [ReadyToHarvest] and [Harvest] of the batch do.) *)
Theorem Dispatch_one_chunk_one_send :
  forall (now : Z) (disp : agentTelemetry.AgentTelemetryDispatcher)
         (res : agentTelemetry.NextEventResponse) (force : bool),
    agentTelemetry.collectData (agentTelemetry.Dispatch now disp res force)
    = agentTelemetry.collectData disp /\
    agentTelemetry.telemetryChan (agentTelemetry.Dispatch now disp res force)
    = tl (agentTelemetry.telemetryChan disp) /\
    ((exists telemetryBytes pending,
         agentTelemetry.telemetryChan disp = telemetryBytes :: pending /\
         agentTelemetry.collectData disp = false /\
         agentTelemetry.batch (agentTelemetry.Dispatch now disp res force)
         = agentTelemetry.batch disp /\
         agentTelemetry.telemetryClient (agentTelemetry.Dispatch now disp res force)
         = agentTelemetry.telemetryClient disp)
     \/
     (exists b1 harvested,
         (agentTelemetry.telemetryChan disp = [] /\ b1 = agentTelemetry.batch disp \/
          exists telemetryBytes pending,
            agentTelemetry.telemetryChan disp = telemetryBytes :: pending /\
            agentTelemetry.collectData disp = true /\
            b1 = agentTelemetry.AddTelemetry now (agentTelemetry.RequestID res)
                   telemetryBytes (agentTelemetry.batch disp)) /\
         (force || agentTelemetry.ReadyToHarvest now b1 = true /\
          harvested = fst (agentTelemetry.Harvest now force b1) /\
          agentTelemetry.batch (agentTelemetry.Dispatch now disp res force)
          = snd (agentTelemetry.Harvest now force b1)
          \/
          force || agentTelemetry.ReadyToHarvest now b1 = false /\
          harvested = [] /\
          agentTelemetry.batch (agentTelemetry.Dispatch now disp res force) = b1) /\
         agentTelemetry.telemetryClient (agentTelemetry.Dispatch now disp res force)
         = match harvested with
           | [] => agentTelemetry.telemetryClient disp
           | _ :: _ =>
             (agentTelemetry.telemetryClient disp
              ++ [ (agentTelemetry.InvokedFunctionArn res,
                    flat_map agentTelemetry.Telemetry harvested) ])%list
           end)).
Proof.
  intros now disp res force.
  assert (Hsend : forall (b1 : agentTelemetry.Batch) (client : agentTelemetry.Client)
                         (d' : agentTelemetry.AgentTelemetryDispatcher),
             agentTelemetry.batch d' = b1 ->
             agentTelemetry.telemetryClient d' = client ->
             exists harvested,
               (force || agentTelemetry.ReadyToHarvest now b1 = true /\
                harvested = fst (agentTelemetry.Harvest now force b1) /\
                agentTelemetry.batch (agentTelemetry.harvestAndSend now d' res force)
                = snd (agentTelemetry.Harvest now force b1)
                \/
                force || agentTelemetry.ReadyToHarvest now b1 = false /\
                harvested = [] /\
                agentTelemetry.batch (agentTelemetry.harvestAndSend now d' res force) = b1) /\
               agentTelemetry.telemetryClient (agentTelemetry.harvestAndSend now d' res force)
               = match harvested with
                 | [] => client
                 | _ :: _ =>
                   (client ++ [ (agentTelemetry.InvokedFunctionArn res,
                                 flat_map agentTelemetry.Telemetry harvested) ])%list
                 end).
  { intros b1 client d' <- <-. unfold agentTelemetry.harvestAndSend.
    destruct force; cbn [orb].
    - exists (fst (agentTelemetry.Harvest now true (agentTelemetry.batch d'))).
      cbn [agentTelemetry.batch agentTelemetry.telemetryClient].
      split; [left; auto |].
      unfold agentTelemetry.harvestAgentTelemetry.
      destruct (fst (agentTelemetry.Harvest now true (agentTelemetry.batch d')));
        reflexivity.
    - destruct (agentTelemetry.ReadyToHarvest now (agentTelemetry.batch d')) eqn:Hready.
      + exists (fst (agentTelemetry.Harvest now false (agentTelemetry.batch d'))).
        cbn [agentTelemetry.batch agentTelemetry.telemetryClient].
        split; [left; auto |].
        unfold agentTelemetry.harvestAgentTelemetry.
        destruct (fst (agentTelemetry.Harvest now false (agentTelemetry.batch d')));
          reflexivity.
      + exists []. split; [right; auto | reflexivity]. }
  assert (Hkeep : forall d' : agentTelemetry.AgentTelemetryDispatcher,
             agentTelemetry.collectData (agentTelemetry.harvestAndSend now d' res force)
             = agentTelemetry.collectData d' /\
             agentTelemetry.telemetryChan (agentTelemetry.harvestAndSend now d' res force)
             = agentTelemetry.telemetryChan d').
  { intros d'. unfold agentTelemetry.harvestAndSend.
    destruct force; [| destruct (agentTelemetry.ReadyToHarvest _ _)]; split; reflexivity. }
  unfold agentTelemetry.Dispatch.
  destruct (agentTelemetry.telemetryChan disp) as [| telemetryBytes pending] eqn:Hchan.
  - destruct (Hsend (agentTelemetry.batch disp) (agentTelemetry.telemetryClient disp) disp
                eq_refl eq_refl) as (harvested & Hh & Hc).
    destruct (Hkeep disp) as [Hk1 Hk2].
    split; [exact Hk1 |].
    split; [rewrite Hk2, Hchan; reflexivity |].
    right. exists (agentTelemetry.batch disp), harvested.
    split; [left; auto |]. split; [exact Hh | exact Hc].
  - cbn [agentTelemetry.collectData agentTelemetry.telemetryChan agentTelemetry.batch
           agentTelemetry.telemetryClient tl].
    destruct (agentTelemetry.collectData disp) eqn:Hcollect; cbn [negb].
    + match goal with
      | |- context [agentTelemetry.harvestAndSend now ?x res force] =>
        destruct (Hsend (agentTelemetry.batch x) (agentTelemetry.telemetryClient x) x
                    eq_refl eq_refl) as (harvested & Hh & Hc);
        set (d' := x) in *
      end.
      destruct (Hkeep d') as [Hk1 Hk2].
      split; [rewrite Hk1; reflexivity |].
      split; [rewrite Hk2; reflexivity |].
      right. exists (agentTelemetry.batch d'), harvested.
      split; [right; exists telemetryBytes, pending; auto |].
      split; [exact Hh | exact Hc].
    + cbn [agentTelemetry.collectData agentTelemetry.telemetryChan agentTelemetry.batch
             agentTelemetry.telemetryClient].
      split; [reflexivity |]. split; [reflexivity |].
      left. exists telemetryBytes, pending. auto.
Qed.

(** ** The license key *)

Section LicenseKeyTheorems.

Variable json_Unmarshal : string -> error + licenseKeySecret.
Variable os_Getenv : string -> string.
Variable GetSecretValue : string -> error + option string.

(** X20.  [getNewRelicLicenseKey] fetches the secret named by the
    environment variable [NEW_RELIC_LICENSE_KEY_SECRET], or
    [NEW_RELIC_LICENSE_KEY] when that variable is empty.  It returns a key
    exactly when the secret has a string value that decodes to a secret
    whose [LicenseKey] attribute is that key and is not empty: a key it
    returns is never empty.  It panics exactly when the secret has no
    string value (a nil [SecretString]). *)
Theorem getNewRelicLicenseKey_outcomes :
  (os_Getenv "NEW_RELIC_LICENSE_KEY_SECRET" = "" ->
   secretId os_Getenv = "NEW_RELIC_LICENSE_KEY") /\
  (os_Getenv "NEW_RELIC_LICENSE_KEY_SECRET" <> "" ->
   secretId os_Getenv = os_Getenv "NEW_RELIC_LICENSE_KEY_SECRET") /\
  (forall key : string,
      getNewRelicLicenseKey json_Unmarshal os_Getenv GetSecretValue = Ok key <->
      key <> "" /\
      exists rawJson lks,
        GetSecretValue (secretId os_Getenv) = inr (Some rawJson) /\
        json_Unmarshal rawJson = inr lks /\
        LicenseKey lks = key) /\
  (getNewRelicLicenseKey json_Unmarshal os_Getenv GetSecretValue = Panic <->
   GetSecretValue (secretId os_Getenv) = inr None).
Proof.
  split; [| split; [| split]].
  - intros H. unfold secretId. rewrite H. reflexivity.
  - intros H. unfold secretId. rewrite len_positive.
    destruct (String.eqb_spec (os_Getenv "NEW_RELIC_LICENSE_KEY_SECRET") "");
      [contradiction | reflexivity].
  - intros key. unfold getNewRelicLicenseKey, decodeLicenseKey.
    destruct (GetSecretValue (secretId os_Getenv)) as [err | [rawJson |]] eqn:Hget.
    + split; [discriminate | intros (_ & raw & lks & H & _); discriminate H].
    + destruct (json_Unmarshal rawJson) as [err | lks] eqn:Hjson.
      * split; [discriminate |].
        intros (_ & raw & lks & H & H' & _). injection H as <-. congruence.
      * destruct (String.eqb_spec (LicenseKey lks) "") as [Hempty | Hkey].
        -- split; [discriminate |].
           intros (Hne & raw & lks' & H & H' & <-). injection H as <-.
           rewrite Hjson in H'. injection H' as <-. contradiction.
        -- split.
           ++ intros H. injection H as <-. split; [exact Hkey | eauto].
           ++ intros (_ & raw & lks' & H & H' & <-). injection H as <-.
              rewrite Hjson in H'. injection H' as <-. reflexivity.
    + split; [discriminate | intros (_ & raw & lks & H & _); discriminate H].
  - unfold getNewRelicLicenseKey, decodeLicenseKey.
    destruct (GetSecretValue (secretId os_Getenv)) as [err | [rawJson |]] eqn:Hget.
    + split; discriminate.
    + destruct (json_Unmarshal rawJson) as [err | lks].
      * split; discriminate.
      * destruct (LicenseKey lks =? "")%string; split; discriminate.
    + split; reflexivity.
Qed.

End LicenseKeyTheorems.

Lemma getNewRelicLicenseKey_outcomes_witness :
  getNewRelicLicenseKey SampleMore.unmarshalSecret SampleMore.noOverride
    SampleMore.secretStore = Ok "eu01xx0123456789".
Proof.
  destruct (getNewRelicLicenseKey_outcomes SampleMore.unmarshalSecret
              SampleMore.noOverride SampleMore.secretStore) as (_ & _ & H & _).
  apply H. split; [discriminate |].
  exists SampleMore.secretText, {| LicenseKey := "eu01xx0123456789" |}.
  repeat split.
Defined.

Lemma buildPayloads_span_timestamps_witness :
  exists data,
    buildPayloads (RT := Sample.world) SampleMore.threeEntries Sample.inflating "req-1"
    = Ok data /\
    Forall2
      (fun p trace =>
         forall fields,
           snd p = VMap fields ->
           (lookup "start" fields = None ->
            lookup "timestamp" trace = Some (VInt (-62135596800000))) /\
           (forall s t,
               NoDup (map fst fields) ->
               lookup "start" fields = Some (VString s) ->
               time_Parse (Runtime := Sample.world) s = inr t ->
               lookup "timestamp" trace = Some (VInt t)))
      (spansIn SampleMore.threeEntries) (collection data "traces").
Proof.
  eexists. split; [vm_compute; reflexivity |].
  apply (buildPayloads_span_timestamps (RT := Sample.world) SampleMore.threeEntries
           Sample.inflating "req-1").
  vm_compute. reflexivity.
Defined.
